(** * WatermarkRemover: the processing pipeline, embedded and verified

    A shallow embedding of [propainter/processor.py],
    [src/core/keyframe_manager.py] and the worker of [src/app.py], and of
    the interactive side of the application: [src/core/video_player.py],
    the path from the mouse to a zone in [src/ui/canvas_area.py], the frame
    controls of [src/ui/timeline.py] and the display handlers of
    [src/app.py].

    Conventions of the embedding.
    - Python [int] is [Z]; [str] is [string]; a [list] is a [list].
    - A Python [dict] is its sequence of items in insertion order (keys are
      unique); item assignment keeps the position of an existing key.
    - A raised exception is the [Raise] outcome of the result type, carried
      through the [py] monad together with the state of the outside world
      (files, decoder, writer, calls made to the inpainting model).
    - The libraries the program calls (cv2, numpy, json, LaMa, ffmpeg) are
      modelled at their call boundary. *)

From Stdlib Require Import ZArith Lia Bool Ascii String List.
From Stdlib Require Import Decimal DecimalString DecimalZ.
From stdpp Require Import base option list strings gmap fin_maps sorting.

Local Open Scope Z_scope.

(* ===================================================================== *)
(** * Python base: exceptions, outcomes, [str] and [int] on integers      *)
(* ===================================================================== *)

Module Py.

(** The exception classes the program raises or catches. *)
Inductive exn :=
  | ValueError (msg : string)
  | JSONDecodeError            (* subclass of ValueError *)
  | UnicodeDecodeError         (* subclass of ValueError *)
  | OSError                    (* IOError is an alias of OSError *)
  | FileNotFoundError          (* subclass of OSError *)
  | CalledProcessError
  | AttributeError
  | TypeError
  | KeyError
  | ImportError
  | RuntimeError
  | InterruptedError           (* subclass of OSError *)
  | OverflowError.

(** [isinstance(e, OSError)], which is also [isinstance(e, IOError)]. *)
Definition is_OSError (e : exn) : bool :=
  match e with
  | OSError | FileNotFoundError | InterruptedError => true
  | _ => false
  end.

Definition is_JSONDecodeError (e : exn) : bool :=
  match e with JSONDecodeError => true | _ => false end.

Definition is_ImportError (e : exn) : bool :=
  match e with ImportError => true | _ => false end.

Definition is_InterruptedError (e : exn) : bool :=
  match e with InterruptedError => true | _ => false end.

(** [str(e)]: the message the exception was raised with. *)
Definition exn_str (e : exn) : string :=
  match e with
  | ValueError msg => msg
  | JSONDecodeError => "Expecting value"
  | UnicodeDecodeError => "codec can't decode byte"
  | OSError => "Permission denied"
  | FileNotFoundError => "No such file or directory"
  | CalledProcessError => "Command returned non-zero exit status"
  | AttributeError => "object has no attribute"
  | TypeError => "unsupported operand type"
  | KeyError => "key"
  | ImportError => "No module named"
  | RuntimeError => "No ffmpeg exe could be found"
  | InterruptedError => "Processing cancelled"
  | OverflowError => "Python int too large to convert to C int"
  end.

(** Outcome of a call: a value, or a raised exception. *)
Inductive result (A : Type) :=
  | Ok (a : A)
  | Raise (e : exn).
Arguments Ok {A} a.
Arguments Raise {A} e.

Definition bind {A B} (r : result A) (k : A -> result B) : result B :=
  match r with
  | Ok a => k a
  | Raise e => Raise e
  end.

(** [for x in xs: acc = f(acc, x)], stopping at the first exception. *)
Fixpoint foldM {A B} (f : B -> A -> result B) (xs : list A) (acc : B)
  : result B :=
  match xs with
  | [] => Ok acc
  | x :: xs' => bind (f acc x) (foldM f xs')
  end.

(** ** [str(k)] for an integer *)

Definition str (k : Z) : string := NilEmpty.string_of_int (Z.to_int k).

(** ** [int(s)] for a string

    Surrounding whitespace is stripped, one sign is allowed, and the digits
    may be grouped with single underscores. Anything else raises
    ValueError. (Non-ASCII digits are outside the model.) *)

Definition is_space (a : ascii) : bool :=
  match a with
  | " " | "009" | "010" | "011" | "012" | "013" => true
  | _ => false
  end%char.

Definition is_digit (a : ascii) : bool :=
  match a with
  | "0" | "1" | "2" | "3" | "4" | "5" | "6" | "7" | "8" | "9" => true
  | _ => false
  end%char.

Fixpoint lstrip (s : string) : string :=
  match s with
  | String a s' => if is_space a then lstrip s' else s
  | EmptyString => EmptyString
  end.

(** Drops trailing whitespace: a character stays when something other than
    whitespace follows it. *)
Fixpoint rstrip (s : string) : string :=
  match s with
  | EmptyString => EmptyString
  | String a s' =>
      match rstrip s' with
      | EmptyString => if is_space a then EmptyString else String a EmptyString
      | r => String a r
      end
  end.

Definition strip (s : string) : string := rstrip (lstrip s).

(** The digit groups: [after_digit] says whether the previous character was
    a digit, which an underscore needs on its left, and the literal may only
    end there. *)
Fixpoint grouped (after_digit : bool) (s : string) : bool :=
  match s with
  | EmptyString => after_digit
  | String a s' =>
      if is_digit a then grouped true s'
      else if Ascii.eqb a "_" then after_digit && grouped false s'
      else false
  end.

Fixpoint drop_underscores (s : string) : string :=
  match s with
  | EmptyString => EmptyString
  | String a s' =>
      if Ascii.eqb a "_" then drop_underscores s'
      else String a (drop_underscores s')
  end.

Definition int_unsigned (body : string) : option Z :=
  if grouped false body
  then option_map Z.of_uint (NilEmpty.uint_of_string (drop_underscores body))
  else None.

Definition int_opt (s : string) : option Z :=
  match strip s with
  | String "-" body => option_map Z.opp (int_unsigned body)
  | String "+" body => int_unsigned body
  | body => int_unsigned body
  end.

Definition int (s : string) : result Z :=
  match int_opt s with
  | Some z => Ok z
  | None => Raise (ValueError "invalid literal for int() with base 10")
  end.

(** ** [max(xs)] for a list of integers; ValueError on the empty list. *)

Definition max (xs : list Z) : result Z :=
  match xs with
  | [] => Raise (ValueError "max() arg is an empty sequence")
  | x :: xs' => Ok (fold_left Z.max xs' x)
  end.

(** ** Dynamically typed values

    The values that travel through [json] and through the [Dict] handed to
    the processor: what [json.load] can return, plus tuples, which the
    canvas produces for zones. *)

#[local] Unset Elimination Schemes.
Inductive value :=
  | VNone
  | VBool (b : bool)
  | VInt (z : Z)
  | VStr (s : string)
  | VList (items : list value)
  | VTuple (items : list value)
  | VDict (items : list (string * value)).
#[local] Set Elimination Schemes.

End Py.

#[global] Instance result_ret : MRet Py.result := @Py.Ok.
#[global] Instance result_bind : MBind Py.result :=
  fun A B k r => Py.bind r k.

(* ===================================================================== *)
(** * Python dictionaries                                                 *)
(* ===================================================================== *)

Module Dict.
Section Dict.
Context {K V : Type} `{EqDecision K}.

(** [d.get(k)] *)
Fixpoint get (d : list (K * V)) (k : K) : option V :=
  match d with
  | [] => None
  | (k', v) :: d' => if decide (k' = k) then Some v else get d' k
  end.

(** [k in d] *)
Definition mem (d : list (K * V)) (k : K) : bool :=
  match get d k with Some _ => true | None => false end.

(** [d[k]], KeyError when absent *)
Definition subscript (d : list (K * V)) (k : K) : Py.result V :=
  match get d k with
  | Some v => Py.Ok v
  | None => Py.Raise Py.KeyError
  end.

(** [d[k] = v]: an existing key keeps its place, a new one goes last. *)
Fixpoint set (d : list (K * V)) (k : K) (v : V) : list (K * V) :=
  match d with
  | [] => [(k, v)]
  | (k', v') :: d' =>
      if decide (k' = k) then (k', v) :: d' else (k', v') :: set d' k v
  end.

(** [del d[k]] (the caller has checked [k in d]) *)
Fixpoint del (d : list (K * V)) (k : K) : list (K * V) :=
  match d with
  | [] => []
  | (k', v') :: d' =>
      if decide (k' = k) then d' else (k', v') :: del d' k
  end.

(** [d.keys()], in insertion order *)
Definition keys (d : list (K * V)) : list K := map fst d.

(** The invariant of a dictionary: no key twice. *)
Definition wf (d : list (K * V)) : Prop := NoDup (keys d).
End Dict.
End Dict.

(* ===================================================================== *)
(** * The [json] module, at its call boundary                             *)
(* ===================================================================== *)

Module Json.

(** A JSON document. *)
#[local] Unset Elimination Schemes.
Inductive json :=
  | JNull
  | JBool (b : bool)
  | JInt (z : Z)
  | JString (s : string)
  | JArray (items : list json)
  | JObject (members : list (string * json)).
#[local] Set Elimination Schemes.

(** [json.dump]: the document written for a value. Lists and tuples both
    become arrays. *)
Fixpoint dump (v : Py.value) : json :=
  match v with
  | Py.VNone => JNull
  | Py.VBool b => JBool b
  | Py.VInt z => JInt z
  | Py.VStr s => JString s
  | Py.VList items => JArray (map dump items)
  | Py.VTuple items => JArray (map dump items)
  | Py.VDict items => JObject (map (fun kv => (fst kv, dump (snd kv))) items)
  end.

(** [json.load]: the value read from a document. Arrays become lists; an
    object becomes a dict built member by member, so a repeated name keeps
    its last value. *)
Fixpoint load (j : json) : Py.value :=
  match j with
  | JNull => Py.VNone
  | JBool b => Py.VBool b
  | JInt z => Py.VInt z
  | JString s => Py.VStr s
  | JArray items => Py.VList (map load items)
  | JObject members =>
      Py.VDict (fold_left (fun d kv => Dict.set d (fst kv) (snd kv))
                          (map (fun kv => (fst kv, load (snd kv))) members) [])
  end.

End Json.

(* ===================================================================== *)
(** * Images, videos and files                                            *)
(* ===================================================================== *)

(** A zone is a sequence of four integers [(x1, y1, x2, y2)]: a tuple when
    it comes from the canvas, a list when it comes from a JSON file. *)
Inductive zone :=
  | TupleZone (x1 y1 x2 y2 : Z)
  | ListZone (x1 y1 x2 y2 : Z).

Definition zone_coords (z : zone) : Z * Z * Z * Z :=
  match z with
  | TupleZone x1 y1 x2 y2 | ListZone x1 y1 x2 y2 => (x1, y1, x2, y2)
  end.

(** [tuple(z)] *)
Definition zone_tuple (z : zone) : zone :=
  match z with
  | TupleZone x1 y1 x2 y2 | ListZone x1 y1 x2 y2 => TupleZone x1 y1 x2 y2
  end.

(** The zone as a Python value. *)
Definition zone_value (z : zone) : Py.value :=
  match z with
  | TupleZone x1 y1 x2 y2 =>
      Py.VTuple [Py.VInt x1; Py.VInt y1; Py.VInt x2; Py.VInt y2]
  | ListZone x1 y1 x2 y2 =>
      Py.VList [Py.VInt x1; Py.VInt y1; Py.VInt x2; Py.VInt y2]
  end.

(** A pixel has three 8-bit channels; a frame is an array of rows of pixels;
    a mask is an array of rows of 8-bit values. *)
Definition pixel : Type := Z * Z * Z.
Definition frame : Type := list (list pixel).
Definition mask : Type := list (list Z).

(** What the decoder reports for a video, and the frames it delivers. The
    frame rate is a float that is only handed from the decoder to the
    writer; it is kept as an opaque number. *)
Record video := Video {
  v_width : N;
  v_height : N;
  v_fps : Z;
  v_frame_count : Z;           (* CAP_PROP_FRAME_COUNT, as the container says *)
  v_frames : list frame        (* what successive cap.read() calls return *)
}.

(** The content of a file. *)
Inductive file :=
  | FJson (doc : Json.json)    (* text that parses as this JSON document *)
  | FText (text : string)      (* text that is not JSON *)
  | FBinary                    (* bytes that do not decode as text *)
  | FLocked                    (* exists, but open() is refused *)
  | FVideo (v : video).

(* ===================================================================== *)
(** * src/core/keyframe_manager.py: the zone timeline                     *)
(* ===================================================================== *)

Module KeyframeManager.

Section Zones.
(** [Zone]: the methods below never look inside a zone. *)
Context {Zone : Type}.

(** [self._keyframes : Dict[int, List[Zone]]] *)
Definition is_empty (kfs : list (Z * list Zone)) : bool :=
  bool_decide (length kfs = 0%nat).

Definition add_zone (kfs : list (Z * list Zone)) (frame : Z) (zone : Zone)
  : list (Z * list Zone) :=
  let kfs1 := if Dict.mem kfs frame then kfs else Dict.set kfs frame [] in
  match Dict.get kfs1 frame with
  | Some zs => Dict.set kfs1 frame (zs ++ [zone])
  | None => kfs1
  end.

(** [list.pop(index)] for an index already checked to be in range. *)
Definition pop_at (zs : list Zone) (index : Z) : list Zone :=
  delete (Z.to_nat index) zs.

Definition remove_zone (kfs : list (Z * list Zone)) (frame index : Z)
  : list (Z * list Zone) * bool :=
  match Dict.get kfs frame with
  | Some zs =>
      if (0 <=? index) && (index <? Z.of_nat (length zs)) then
        let zs' := pop_at zs index in
        let kfs1 := Dict.set kfs frame zs' in
        (match zs' with [] => Dict.del kfs1 frame | _ => kfs1 end, true)
      else (kfs, false)
  | None => (kfs, false)
  end.

Definition remove_keyframe (kfs : list (Z * list Zone)) (frame : Z)
  : list (Z * list Zone) * bool :=
  if Dict.mem kfs frame then (Dict.del kfs frame, true) else (kfs, false).

(** Lines 82-104. The last line returns [self._keyframes[nearest].copy()];
    at this level a list is its contents, the identity of the copy is
    treated in [KeyframeHeap] below. *)
Definition get_zones_at_frame (kfs : list (Z * list Zone)) (frame : Z)
  : Py.result (list Zone) :=
  match kfs with
  | [] => Py.Ok []
  | _ =>
      let valid_keyframes := filter (fun k => k <= frame) (Dict.keys kfs) in
      match valid_keyframes with
      | [] => Py.Ok []
      | _ =>
          nearest ← Py.max valid_keyframes;
          Dict.subscript kfs nearest
      end
  end.

Definition get_all_keyframe_numbers (kfs : list (Z * list Zone)) : list Z :=
  merge_sort Z.le (Dict.keys kfs).

Definition get_zone_count (kfs : list (Z * list Zone)) (frame : option Z)
  : Py.result Z :=
  match frame with
  | Some f => zs ← get_zones_at_frame kfs f; Py.Ok (Z.of_nat (length zs))
  | None => Py.Ok (Z.of_nat (length (concat (map snd kfs))))
  end.

Definition clear (kfs : list (Z * list Zone)) : list (Z * list Zone) := [].
End Zones.

(** ** Persistence

    What is stored under a frame number is handed to [json] as it is, and
    what [json] returns is stored as it is: here the timeline holds Python
    values. *)

Section Serialise.
Context {V : Type}.

(** Line 135: [{str(k): v for k, v in self._keyframes.items()}] *)
Definition to_dict (kfs : list (Z * V)) : list (string * V) :=
  fold_left (fun d kv => Dict.set d (Py.str (fst kv)) (snd kv)) kfs [].

(** Line 144: [{int(k): v for k, v in data.items()}]; the assignment to
    [self._keyframes] happens only when the whole dict has been built. *)
Definition from_dict (data : list (string * V)) : Py.result (list (Z * V)) :=
  Py.foldM (fun d kv => k ← Py.int (fst kv); Py.Ok (Dict.set d k (snd kv)))
           data [].
End Serialise.

(** The timeline of zones as the Python values it holds. *)
Definition timeline_value (kfs : list (Z * list zone)) : list (Z * Py.value) :=
  map (fun kv => (fst kv, Py.VList (map zone_value (snd kv)))) kfs.

(** [data.items()]: only a dict has it. *)
Definition items (data : Py.value) : Py.result (list (string * Py.value)) :=
  match data with
  | Py.VDict its => Py.Ok its
  | _ => Py.Raise Py.AttributeError
  end.

Definition zones_path (video_path : string) : string :=
  video_path +:+ ".zones.json".

(** Lines 146-159. [open(save_path, 'w')] is refused on a locked file. *)
Definition save_to_file (kfs : list (Z * Py.value)) (video_path : string)
    (fs : gmap string file) : Py.result string * gmap string file :=
  let save_path := zones_path video_path in
  match fs !! save_path with
  | Some FLocked => (Py.Raise Py.OSError, fs)
  | _ => (Py.Ok save_path,
          <[save_path := FJson (Json.dump (Py.VDict (to_dict kfs)))]> fs)
  end.

(** [with open(zones_path, 'r') as f: data = json.load(f)] *)
Definition read_json (fs : gmap string file) (path : string)
  : Py.result Py.value :=
  match fs !! path with
  | None => Py.Raise Py.FileNotFoundError
  | Some FLocked => Py.Raise Py.OSError
  | Some (FJson doc) => Py.Ok (Json.load doc)
  | Some (FText _) => Py.Raise Py.JSONDecodeError
  | Some FBinary | Some (FVideo _) => Py.Raise Py.UnicodeDecodeError
  end.

(** Lines 161-180. Returns the outcome and the timeline afterwards. *)
Definition load_from_file (kfs : list (Z * Py.value)) (video_path : string)
    (fs : gmap string file) : Py.result bool * list (Z * Py.value) :=
  let zones_path := zones_path video_path in
  if bool_decide (is_Some (fs !! zones_path)) then
    match (data ← read_json fs zones_path;
           its ← items data;
           from_dict its) with
    | Py.Ok kfs' => (Py.Ok true, kfs')
    | Py.Raise e =>
        if Py.is_JSONDecodeError e || Py.is_OSError e
        then (Py.Ok false, kfs)
        else (Py.Raise e, kfs)
    end
  else (Py.Ok false, kfs).

End KeyframeManager.

(* ===================================================================== *)
(** * numpy and cv2, at their call boundary                               *)
(* ===================================================================== *)

Module Np.

(** [np.zeros((height, width), dtype=np.uint8)]; a negative dimension is a
    ValueError. *)
Definition zeros (height width : Z) : Py.result mask :=
  if (height <? 0) || (width <? 0)
  then Py.Raise (Py.ValueError "negative dimensions are not allowed")
  else Py.Ok (replicate (Z.to_nat height) (replicate (Z.to_nat width) 0)).

(** [np.ones((rows, cols), np.uint8)] for literal sizes. *)
Definition ones (rows cols : nat) : mask := replicate rows (replicate cols 1).

(** [np.any(mask > 0)] *)
Definition any_positive (m : mask) : bool :=
  existsb (existsb (fun p => 0 <? p)) m.

(** A bound of a slice, for an axis of length [n]: a negative bound counts
    from the end, and the bound is clipped to the axis. *)
Definition slice_bound (i n : Z) : Z :=
  if i <? 0 then Z.max 0 (i + n) else Z.min i n.

(** [mask[y1:y2, x1:x2] = value] *)
Definition fill (m : mask) (y1 y2 x1 x2 : Z) (value : Z) : mask :=
  let rows := Z.of_nat (length m) in
  imap (fun r row =>
    let cols := Z.of_nat (length row) in
    imap (fun c p =>
      if (slice_bound y1 rows <=? Z.of_nat r) && (Z.of_nat r <? slice_bound y2 rows)
         && (slice_bound x1 cols <=? Z.of_nat c) && (Z.of_nat c <? slice_bound x2 cols)
      then value else p) row) m.

(** [frame.shape[:2]] of a rectangular array. *)
Definition shape2 {A} (a : list (list A)) : nat * nat :=
  (length a, length (hd [] a)).

(** The value at row [r], column [c]; 0 outside the array. *)
Definition at_ (m : mask) (r c : Z) : Z :=
  if (r <? 0) || (c <? 0) then 0
  else default 0 (row ← m !! Z.to_nat r; row !! Z.to_nat c).

End Np.

Module Cv2.

Inductive color_code := COLOR_BGR2RGB | COLOR_RGB2BGR.

(** [cv2.cvtColor]: both codes exchange the first and the third channel. *)
Definition cvtColor (f : frame) (code : color_code) : frame :=
  map (map (fun p : pixel => let '(c0, c1, c2) := p in (c2, c1, c0))) f.

(** The offsets, relative to the anchor at its centre, of the non-zero
    entries of a structuring element. *)
Definition kernel_offsets (kernel : mask) : list (Z * Z) :=
  let ar := Z.of_nat (length kernel) / 2 in
  let ac := Z.of_nat (length (hd [] kernel)) / 2 in
  concat (imap (fun i row =>
    concat (imap (fun j k =>
      if k =? 0 then [] else [(Z.of_nat i - ar, Z.of_nat j - ac)]) row))
    kernel).

(** One pass of [cv2.dilate]: every pixel becomes the greatest value under
    the structuring element. Positions outside the image do not take part;
    as values are not negative, reading them as 0 gives the same maximum. *)
Definition dilate_once (offsets : list (Z * Z)) (m : mask) : mask :=
  imap (fun r row =>
    imap (fun c _ =>
      fold_left Z.max
        (map (fun d => Np.at_ m (Z.of_nat r + fst d) (Z.of_nat c + snd d))
             offsets) 0) row) m.

(** [cv2.dilate(src, kernel, iterations=n)] *)
Definition dilate (src : mask) (kernel : mask) (iterations : nat) : mask :=
  Nat.iter iterations (dilate_once (kernel_offsets kernel)) src.

End Cv2.

(* ===================================================================== *)
(** * propainter/processor.py                                             *)
(* ===================================================================== *)

Module Processor.

(** Lines 76-82, the body of the loop over the zones. *)
Definition paint_zone (width height : Z) (mask : mask) (zone : zone)
  : list (list Z) :=
  let '(x1, y1, x2, y2) := zone_coords zone in
  let pad := 8 in
  let x1 := Z.max 0 (x1 - pad) in
  let y1 := Z.max 0 (y1 - pad) in
  let x2 := Z.min width (x2 + pad) in
  let y2 := Z.min height (y2 + pad) in
  Np.fill mask y1 y2 x1 x2 255.

(** Lines 68-85. *)
Definition create_mask_from_zones (width height : Z) (zones : list zone)
  : Py.result mask :=
  mask ← Np.zeros height width;
  let mask := fold_left (paint_zone width height) zones mask in
  let kernel := Np.ones 5 5 in
  let mask := Cv2.dilate mask kernel 2 in
  Py.Ok mask.

(** A key of the [keyframes] dict: the worker passes strings (the result of
    [to_dict]); integers are accepted as well. *)
Inductive key :=
  | StrKey (s : string)
  | IntKey (k : Z).

#[global] Instance key_eq_dec : EqDecision key.
Proof. solve_decision. Defined.

(** [int(k)] *)
Definition int_of_key (k : key) : Py.result Z :=
  match k with
  | StrKey s => Py.int s
  | IntKey z => Py.Ok z
  end.

(** Line 91: [{int(k): v for k, v in keyframes.items()}] *)
Definition int_keyed (keyframes : list (key * list zone))
  : Py.result (list (Z * list zone)) :=
  Py.foldM (fun d kv => k ← int_of_key (fst kv); Py.Ok (Dict.set d k (snd kv)))
           keyframes [].

(** Lines 88-96. *)
Definition get_zones_at_frame (keyframes : list (key * list zone))
    (frame_num : Z) : Py.result (list zone) :=
  match keyframes with
  | [] => Py.Ok []
  | _ =>
      kf_dict ← int_keyed keyframes;
      let valid_keyframes := filter (fun k => k <= frame_num) (Dict.keys kf_dict) in
      match valid_keyframes with
      | [] => Py.Ok []
      | _ =>
          nearest ← Py.max valid_keyframes;
          zs ← Dict.subscript kf_dict nearest;
          Py.Ok (map zone_tuple zs)
      end
  end.

(** ** The outside world of a job *)

(** What [from imageio_ffmpeg import get_ffmpeg_exe; get_ffmpeg_exe()]
    does on this machine. *)
Inductive imageio :=
  | ImageioMissing                 (* the import raises ImportError *)
  | ImageioExe (path : string)
  | ImageioNoBinary.               (* get_ffmpeg_exe raises RuntimeError *)

(** What a run of ffmpeg leaves behind: the muxed file, or a non-zero exit
    status and possibly a partial output file. *)
Inductive mux_outcome :=
  | MuxDone (out : file)
  | MuxFailed (partial : option file).

(** The machine the job runs on. The LaMa model, [cv2.resize], ffmpeg and
    the XVID encoder of cv2 are taken as they are. [writer_opens path fps
    width height] says whether the encoder accepts a stream of that frame
    rate and frame size at that path. *)
Record env := Env {
  lama_available : bool;           (* SimpleLama() can be imported and built *)
  lama : frame -> mask -> frame;   (* self.model(frame_pil, mask_pil) *)
  resize : frame -> nat * nat -> frame;
  imageio_ffmpeg : imageio;
  which_ffmpeg : option string;    (* shutil.which("ffmpeg") *)
  ffmpeg : string -> option file -> option file -> mux_outcome;
  writer_opens : string -> Z -> N -> N -> bool
}.

(** A decoder or a writer: not created yet, opened, created but not opened,
    released. *)
Inductive handle := NoHandle | Open | Unopened | Released.

(** The Qt signals of the worker. *)
Inductive signal :=
  | Progress (current total : Z)
  | Finished (output_path : string)
  | Error (message : string).

(** The state a job acts on: the files, the decoder and the writer, and a
    record of what has happened. *)
Record world := World {
  fs : gmap string file;
  cap_state : handle;
  decoded : nat;                               (* frames cap.read() returned *)
  out_state : handle;
  out_writes : list frame;                     (* arguments of out.write *)
  batch_calls : list (list frame * list mask); (* inpainter.process_video *)
  model_calls : list (frame * mask);           (* self.model(...) *)
  signals : list signal
}.

Definition set_fs (f : gmap string file -> gmap string file) (w : world) :=
  World (f (fs w)) (cap_state w) (decoded w) (out_state w) (out_writes w)
        (batch_calls w) (model_calls w) (signals w).

Definition init_world (files : gmap string file) : world :=
  World files NoHandle 0 NoHandle [] [] [] [].

(** Statements act on the world and either return or raise. *)
Definition py (A : Type) : Type := world -> Py.result A * world.

#[global] Instance py_ret : MRet py := fun A a w => (Py.Ok a, w).
#[global] Instance py_bind : MBind py := fun A B k m w =>
  match m w with
  | (Py.Ok a, w') => k a w'
  | (Py.Raise e, w') => (Py.Raise e, w')
  end.

Definition raise {A} (e : Py.exn) : py A := fun w => (Py.Raise e, w).

Definition lift {A} (r : Py.result A) : py A := fun w => (r, w).

(** [try: body  except Exception as e: handler(e)] *)
Definition try_except {A} (body : py A) (handler : Py.exn -> py A) : py A :=
  fun w =>
    match body w with
    | (Py.Ok a, w') => (Py.Ok a, w')
    | (Py.Raise e, w') => handler e w'
    end.

Definition callback : Type := Z -> Z -> py unit.

(** [if progress_callback: progress_callback(a, b)] *)
Definition call_if (cb : option callback) (a b : Z) : py unit :=
  match cb with
  | Some f => f a b
  | None => mret tt
  end.

(** ** cv2 and os on the world *)

(** [cv2.VideoCapture(path)] with [cap.isOpened()]: the video, when the
    file is one. *)
Definition VideoCapture (path : string) : py (option video) := fun w =>
  match fs w !! path with
  | Some (FVideo v) =>
      (Py.Ok (Some v),
       World (fs w) Open (decoded w) (out_state w) (out_writes w)
             (batch_calls w) (model_calls w) (signals w))
  | _ => (Py.Ok None, w)
  end.

(** A [cap.read()] that returns a frame. *)
Definition cap_read : py unit := fun w =>
  (Py.Ok tt,
   World (fs w) (cap_state w) (S (decoded w)) (out_state w) (out_writes w)
         (batch_calls w) (model_calls w) (signals w)).

Definition cap_release : py unit := fun w =>
  (Py.Ok tt,
   World (fs w) Released (decoded w) (out_state w) (out_writes w)
         (batch_calls w) (model_calls w) (signals w)).

(** [out.isOpened()] for [out = cv2.VideoWriter(path, fourcc, fps, (width,
    height))]: the encoder has to accept the stream, and the file must not
    be one that refuses to be opened. *)
Definition VideoWriter_isOpened (E : env) (files : gmap string file)
    (path : string) (fps : Z) (width height : N) : bool :=
  match files !! path with
  | Some FLocked => false
  | _ => writer_opens E path fps width height
  end.

(** [cv2.VideoWriter(path, fourcc, fps, (width, height))]. The constructor
    does not raise. When the writer opens, the file is created, empty; when
    it does not, no file is touched and the object is left unopened. *)
Definition VideoWriter (E : env) (path : string) (fps : Z) (width height : N)
  : py unit := fun w =>
  if VideoWriter_isOpened E (fs w) path fps width height then
    (Py.Ok tt,
     World (<[path := FVideo (Video width height fps 0 [])]> (fs w))
           (cap_state w) (decoded w) Open (out_writes w)
           (batch_calls w) (model_calls w) (signals w))
  else
    (Py.Ok tt,
     World (fs w) (cap_state w) (decoded w) Unopened (out_writes w)
           (batch_calls w) (model_calls w) (signals w)).

Definition append_frame (f : frame) (content : file) : file :=
  match content with
  | FVideo v =>
      FVideo (Video (v_width v) (v_height v) (v_fps v) (v_frame_count v + 1)
                    (v_frames v ++ [f]))
  | other => other
  end.

(** [out.write(frame)] for the writer created on [path]: the frame goes
    to the file when the writer is open; on a writer that is not open the
    call returns and writes nothing. *)
Definition out_write (path : string) (f : frame) : py unit := fun w =>
  (Py.Ok tt,
   World (match out_state w with
          | Open => alter (append_frame f) path (fs w)
          | _ => fs w
          end)
         (cap_state w) (decoded w) (out_state w) (out_writes w ++ [f])
         (batch_calls w) (model_calls w) (signals w)).

Definition out_release : py unit := fun w =>
  (Py.Ok tt,
   World (fs w) (cap_state w) (decoded w) Released (out_writes w)
         (batch_calls w) (model_calls w) (signals w)).

(** [os.remove(path)] *)
Definition os_remove (path : string) : py unit := fun w =>
  match fs w !! path with
  | Some _ => (Py.Ok tt, set_fs (delete path) w)
  | None => (Py.Raise Py.FileNotFoundError, w)
  end.

(** [shutil.move(src, dst)] for file paths. *)
Definition shutil_move (src dst : string) : py unit := fun w =>
  match fs w !! src with
  | Some content => (Py.Ok tt, set_fs (fun m => <[dst := content]> (delete src m)) w)
  | None => (Py.Raise Py.FileNotFoundError, w)
  end.

(** ** LamaInpainter, lines 16-61 *)

(** The object: [self.model], loaded or [None]. *)
Record LamaInpainter := { model : bool }.

(** Lines 19-30: a model that cannot be loaded leaves [self.model = None]. *)
Definition LamaInpainter_init (E : env) : py LamaInpainter :=
  mret {| model := lama_available E |}.

(** [self.model(frame_pil, mask_pil)] *)
Definition call_model (E : env) (f : frame) (m : mask) : py frame := fun w =>
  (Py.Ok (lama E f m),
   World (fs w) (cap_state w) (decoded w) (out_state w) (out_writes w)
         (batch_calls w) (model_calls w ++ [(f, m)]) (signals w)).

(** Lines 32-44. *)
Definition inpaint_frame (E : env) (self : LamaInpainter) (f : frame) (m : mask)
  : py frame :=
  if negb (Np.any_positive m) || negb (model self) then mret f
  else
    result ← call_model E f m;
    if bool_decide (Np.shape2 result ≠ Np.shape2 f)
    then mret (resize E result (snd (Np.shape2 f), fst (Np.shape2 f)))
    else mret result.

(** The loop of lines 53-60 over [enumerate(zip(frames, masks))]. *)
Fixpoint inpaint_each (E : env) (self : LamaInpainter)
    (pairs : list (frame * mask)) (i : Z) (total : Z)
    (progress_callback : option callback) (results : list frame)
  : py (list frame) :=
  match pairs with
  | [] => mret results
  | (f, m) :: rest =>
      result ← (if Np.any_positive m then inpaint_frame E self f m
                else mret f);
      let results := results ++ [result] in
      call_if progress_callback (i + 1) total;;
      inpaint_each E self rest (i + 1) total progress_callback results
  end.

Definition log_batch (frames : list frame) (masks : list mask) : py unit :=
  fun w =>
  (Py.Ok tt,
   World (fs w) (cap_state w) (decoded w) (out_state w) (out_writes w)
         (batch_calls w ++ [(frames, masks)]) (model_calls w) (signals w)).

(** Lines 46-61, [LamaInpainter.process_video]. *)
Definition inpainter_process_video (E : env) (self : LamaInpainter)
    (frames : list frame) (masks : list mask)
    (progress_callback : option callback) : py (list frame) :=
  log_batch frames masks;;
  inpaint_each E self (zip frames masks) 0 (Z.of_nat (length frames))
               progress_callback [].

(** ** ffmpeg, lines 174-211 *)

Definition common_paths : list string :=
  ["C:\ffmpeg\bin\ffmpeg.exe"; "C:\Program Files\ffmpeg\bin\ffmpeg.exe"].

Definition get_ffmpeg_path (E : env) : py string := fun w =>
  let after_import :=
    match which_ffmpeg E with
    | Some ffmpeg_path => Py.Ok ffmpeg_path
    | None =>
        match filter (fun p => is_Some (fs w !! p)) common_paths with
        | path :: _ => Py.Ok path
        | [] => Py.Raise Py.FileNotFoundError
        end
    end in
  match imageio_ffmpeg E with
  | ImageioExe path => (Py.Ok path, w)
  | ImageioNoBinary => (Py.Raise Py.RuntimeError, w)
  | ImageioMissing => (after_import, w)
  end.

(** [subprocess.run(cmd, capture_output=True, check=True)] *)
Definition run_ffmpeg (E : env) (exe input_path original_video output_path : string)
  : py unit := fun w =>
  match ffmpeg E exe (fs w !! input_path) (fs w !! original_video) with
  | MuxDone out => (Py.Ok tt, set_fs (insert output_path out) w)
  | MuxFailed (Some partial) =>
      (Py.Raise Py.CalledProcessError, set_fs (insert output_path partial) w)
  | MuxFailed None => (Py.Raise Py.CalledProcessError, w)
  end.

Definition convert_to_mp4 (E : env) (input_path output_path original_video : string)
  : py unit :=
  ffmpeg ← get_ffmpeg_path E;
  run_ffmpeg E ffmpeg input_path original_video output_path.

(** ** process_video, lines 99-171 *)

(** Lines 144-148 and 156-158: one batch call, then the results written in
    the order returned. *)
Definition flush (E : env) (inpainter : LamaInpainter) (temp_output : string)
    (frames_buffer : list frame) (masks_buffer : list mask) : py unit :=
  processed ← inpainter_process_video E inpainter frames_buffer masks_buffer None;
  foldr (fun p_frame rest =>
           out_write temp_output (Cv2.cvtColor p_frame Cv2.COLOR_RGB2BGR);; rest)
        (mret tt) processed.

(** Lines 133-138: the mask of the frame with index [frame_idx]. *)
Definition frame_mask (keyframes : list (key * list zone))
    (width height : Z) (frame_idx : Z) : Py.result mask :=
  zones ← get_zones_at_frame keyframes frame_idx;
  match zones with
  | [] => Np.zeros height width
  | _ => create_mask_from_zones width height zones
  end.

(** The loop of lines 127-153. [pending] are the frames the decoder still
    has: each turn is one [cap.read()] that returns a frame, and the loop
    ends at the read that returns none. The state carried from turn to turn
    is [(frame_idx, frames_buffer, masks_buffer)]. *)
Fixpoint frame_loop (E : env) (inpainter : LamaInpainter)
    (keyframes : list (key * list zone)) (progress_callback : option callback)
    (chunk_size : Z) (width height total_frames : Z) (temp_output : string)
    (pending : list frame)
    (st : Z * list frame * list mask) : py (Z * list frame * list mask) :=
  match pending with
  | [] => mret st
  | frame :: pending' =>
      let '(frame_idx, frames_buffer, masks_buffer) := st in
      cap_read;;
      let frame_rgb := Cv2.cvtColor frame Cv2.COLOR_BGR2RGB in
      mask ← lift (frame_mask keyframes width height frame_idx);
      let frames_buffer := frames_buffer ++ [frame_rgb] in
      let masks_buffer := masks_buffer ++ [mask] in
      '(frames_buffer, masks_buffer) ←
        (if Z.of_nat (length frames_buffer) >=? chunk_size then
           flush E inpainter temp_output frames_buffer masks_buffer;;
           mret ([], [])
         else mret (frames_buffer, masks_buffer));
      let frame_idx := frame_idx + 1 in
      call_if progress_callback frame_idx total_frames;;
      frame_loop E inpainter keyframes progress_callback chunk_size
                 width height total_frames temp_output pending'
                 (frame_idx, frames_buffer, masks_buffer)
  end.

(** Lines 163-169. *)
Definition finalize (E : env) (temp_output output_path input_path : string)
  : py unit :=
  try_except
    (convert_to_mp4 E temp_output output_path input_path;;
     os_remove temp_output)
    (fun e => shutil_move temp_output output_path).

Definition process_video (E : env) (input_path output_path : string)
    (keyframes : list (key * list zone))
    (progress_callback : option callback) (chunk_size : Z) : py unit :=
  cap ← VideoCapture input_path;
  match cap with
  | None => raise (Py.ValueError ("Could not open video: " +:+ input_path))
  | Some v =>
      let width := Z.of_N (v_width v) in
      let height := Z.of_N (v_height v) in
      let fps := v_fps v in
      let total_frames := v_frame_count v in
      let temp_output := output_path +:+ ".temp.avi" in
      VideoWriter E temp_output fps (v_width v) (v_height v);;
      inpainter ← LamaInpainter_init E;
      '(frame_idx, frames_buffer, masks_buffer) ←
        frame_loop E inpainter keyframes progress_callback chunk_size
                   width height total_frames temp_output (v_frames v)
                   (0, [], []);
      (match frames_buffer with
       | [] => mret tt
       | _ => flush E inpainter temp_output frames_buffer masks_buffer
       end);;
      cap_release;;
      out_release;;
      finalize E temp_output output_path input_path
  end.

End Processor.

(* ===================================================================== *)
(** * PySide6: integers handed to Qt                                      *)
(* ===================================================================== *)

Module Qt.

(** A Python int that fits a C [int] of 32 bits, which is what a
    [Signal(int)] and [QSlider.setValue] take. *)
Definition fits_int (z : Z) : bool :=
  (-2147483648 <=? z) && (z <=? 2147483647).

(** A call that hands [z] to Qt as a C [int]: OverflowError when it does
    not fit. *)
Definition pass_int (z : Z) : Py.result unit :=
  if fits_int z then Py.Ok tt else Py.Raise Py.OverflowError.

End Qt.

(* ===================================================================== *)
(** * src/app.py: the worker, lines 37-80                                 *)
(* ===================================================================== *)

Module ProcessingWorker.
Import Processor.

(** Line 40: [progress = Signal(int, int)]. The arguments of [emit] must
    fit C ints; the two other signals carry strings. *)
Definition emittable (s : signal) : bool :=
  match s with
  | Progress current total => Qt.fits_int current && Qt.fits_int total
  | Finished _ | Error _ => true
  end.

(** [signal.emit(...)]: an argument that does not fit raises OverflowError
    and nothing is emitted. *)
Definition emit (s : signal) : py unit := fun w =>
  if emittable s then
    (Py.Ok tt,
     World (fs w) (cap_state w) (decoded w) (out_state w) (out_writes w)
           (batch_calls w) (model_calls w) (signals w ++ [s]))
  else (Py.Raise Py.OverflowError, w).

(** Lines 61-64. [cancelled current] is the value of [self._cancelled] that
    the callback reads when it is called with [current]; the flag is set
    from the interface thread. *)
Definition progress_callback (cancelled : Z -> bool) : callback :=
  fun current total =>
    if cancelled current then raise Py.InterruptedError
    else emit (Progress current total).

(** Lines 54-80. [importable] says whether [from propainter import
    process_video] succeeds. *)
Definition run (E : env) (importable : bool) (cancelled : Z -> bool)
    (video_path output_path : string) (keyframes : list (key * list zone))
  : py unit :=
  try_except
    ((if importable then mret tt else raise Py.ImportError);;
     process_video E video_path output_path keyframes
                   (Some (progress_callback cancelled)) 50;;
     emit (Finished output_path))
    (fun e =>
       if Py.is_ImportError e then
         emit (Error ("ProPainter module not found." +:+ String "010" ""
                      +:+ "Run: python download_model.py"))
       else if Py.is_InterruptedError e then
         emit (Error "Processing cancelled")
       else emit (Error (Py.exn_str e))).

End ProcessingWorker.

(* ===================================================================== *)
(** * The timeline with list objects on a heap                            *)
(* ===================================================================== *)

(** In [KeyframeManager] a list stands for its contents. Here the lists of
    zones are objects: the dict maps a frame number to a reference, the
    heap maps a reference to the contents, and a list can be changed in
    place through any reference to it. *)
Module KeyframeHeap.
Section Heap.
Context {Zone : Type}.

(** A new list object: a reference that is not in use. *)
Definition alloc (zs : list Zone) (h : gmap positive (list Zone))
  : positive * gmap positive (list Zone) :=
  let r := fresh (dom h) in (r, <[r := zs]> h).

(** The contents of the timeline: every reference replaced by the list it
    points to. *)
Definition contents (kfs : list (Z * positive)) (h : gmap positive (list Zone))
  : list (Z * list Zone) :=
  map (fun kv => (fst kv, default [] (h !! snd kv))) kfs.

(** [self._keyframes[frame].append(zone)] and the like: a change of the
    list object [r] in place. *)
Definition mutate (r : positive) (f : list Zone -> list Zone)
    (h : gmap positive (list Zone)) : gmap positive (list Zone) :=
  alter f r h.

Definition list_append (r : positive) (zone : Zone) :=
  mutate r (fun zs => zs ++ [zone]).

Definition list_pop (r : positive) (index : nat) :=
  mutate r (delete index).

(** Lines 36-46: the list stored under [frame] is changed in place. *)
Definition add_zone (kfs : list (Z * positive)) (frame : Z) (zone : Zone)
    (h : gmap positive (list Zone))
  : list (Z * positive) * gmap positive (list Zone) :=
  match Dict.get kfs frame with
  | Some r => (kfs, list_append r zone h)
  | None =>
      let '(r, h1) := alloc [] h in
      (Dict.set kfs frame r, list_append r zone h1)
  end.

(** Lines 95-104: [[]] is a new list, and so is [.copy()]. *)
Definition get_zones_at_frame (kfs : list (Z * positive)) (frame : Z)
    (h : gmap positive (list Zone))
  : Py.result positive * gmap positive (list Zone) :=
  match kfs with
  | [] => let '(r, h1) := alloc [] h in (Py.Ok r, h1)
  | _ =>
      let valid_keyframes := filter (fun k => k <= frame) (Dict.keys kfs) in
      match valid_keyframes with
      | [] => let '(r, h1) := alloc [] h in (Py.Ok r, h1)
      | _ =>
          match (nearest ← Py.max valid_keyframes; Dict.subscript kfs nearest) with
          | Py.Ok stored =>
              let '(r, h1) := alloc (default [] (h !! stored)) h in (Py.Ok r, h1)
          | Py.Raise e => (Py.Raise e, h)
          end
      end
  end.

(** Every list of the timeline is allocated. *)
Definition allocated (kfs : list (Z * positive)) (h : gmap positive (list Zone))
  : Prop :=
  Forall (fun kv => snd kv ∈ dom h) kfs.
End Heap.
End KeyframeHeap.

(* ===================================================================== *)
(** * src/core/video_player.py                                            *)
(* ===================================================================== *)

Module VideoPlayer.

(** A [cv2.VideoCapture] object: opened on a video, or not opened. *)
Inductive capture :=
  | Opened (v : video)
  | NotOpened.

(** The attributes of the player. The frame rate is the number the decoder
    gives, as in [video]; the default of 30.0 is 30. *)
Record t := Player {
  cap : option capture;
  total_frames : Z;
  fps : Z;
  width : Z;
  height : Z;
  current_frame : Z;
  video_path : option string
}.

(** The player together with cv2: [open_captures] counts the captures that
    were opened and have not been released. *)
Record state := State {
  player : t;
  open_captures : nat
}.

(** Lines 21-28. *)
Definition init : t := Player None 0 30 0 0 0 None.

(** Lines 30-33. *)
Definition is_loaded (self : t) : bool :=
  match cap self with
  | Some (Opened _) => true
  | _ => false
  end.

(** [cap.release()] *)
Definition capture_release (c : capture) (n : nat) : nat :=
  match c with
  | Opened _ => Nat.pred n
  | NotOpened => n
  end.

(** Lines 118-125. A capture object is true, opened or not. *)
Definition release (st : state) : state :=
  let self := player st in
  match cap self with
  | Some c =>
      State (Player None 0 (fps self) (width self) (height self) 0 None)
            (capture_release c (open_captures st))
  | None => st
  end.

(** Lines 42-66. [cv2.VideoCapture(path)] opens when the file is a video. *)
Definition load (files : gmap string file) (path : string) (st : state)
  : bool * state :=
  let st := release st in
  let self := player st in
  match files !! path with
  | Some (FVideo v) =>
      (true,
       State (Player (Some (Opened v)) (v_frame_count v)
                     (if v_fps v =? 0 then 30 else v_fps v)
                     (Z.of_N (v_width v)) (Z.of_N (v_height v)) 0 (Some path))
             (S (open_captures st)))
  | _ =>
      (false,
       State (Player (Some NotOpened) (total_frames self) (fps self)
                     (width self) (height self) (current_frame self)
                     (video_path self))
             (open_captures st))
  end.

(** [cap.set(cv2.CAP_PROP_POS_FRAMES, n)] followed by [cap.read()]: the
    frame with index [n] of the stream, when it has one. *)
Definition read_at (v : video) (n : Z) : option frame :=
  if n <? 0 then None else v_frames v !! Z.to_nat n.

(** Lines 68-91. *)
Definition get_frame (self : t) (frame_num : Z) : option frame * t :=
  match cap self with
  | Some (Opened v) =>
      let frame_num := Z.max 0 (Z.min frame_num (total_frames self - 1)) in
      match read_at v frame_num with
      | Some frame =>
          (Some (Cv2.cvtColor frame Cv2.COLOR_BGR2RGB),
           Player (cap self) (total_frames self) (fps self) (width self)
                  (height self) frame_num (video_path self))
      | None => (None, self)
      end
  | _ => (None, self)
  end.

(** Lines 106-116. *)
Definition next_frame (self : t) : option frame * t :=
  get_frame self (current_frame self + 1).

Definition previous_frame (self : t) : option frame * t :=
  get_frame self (current_frame self - 1).

Definition jump_frames (self : t) (delta : Z) : option frame * t :=
  get_frame self (current_frame self + delta).

End VideoPlayer.

(* ===================================================================== *)
(** * src/ui/canvas_area.py: from the mouse to a zone                     *)
(* ===================================================================== *)

Module VideoCanvas.

(** Lines 139-143, the end of [_canvas_to_video_coords]: [x] and [y] are
    the integers that lines 136-137 make of the point with the offset and
    the scale of the display (a division of floats, which is taken as it
    is). *)
Definition clamp_to_video (video_size : Z * Z) (x y : Z) : Z * Z :=
  let x := Z.max 0 (Z.min x (fst video_size)) in
  let y := Z.max 0 (Z.min y (snd video_size)) in
  (x, y).

(** Lines 205-214 of [mouseReleaseEvent]: the zone emitted through
    [zone_drawn], if any, for the two ends of the drag in video
    coordinates. *)
Definition released_zone (start current : Z * Z) : option zone :=
  let '(x1, y1) := start in
  let '(x2, y2) := current in
  let '(x1, x2) := (Z.min x1 x2, Z.max x1 x2) in
  let '(y1, y2) := (Z.min y1 y2, Z.max y1 y2) in
  if (Z.abs (x2 - x1) >? 5) && (Z.abs (y2 - y1) >? 5)
  then Some (TupleZone x1 y1 x2 y2)
  else None.

End VideoCanvas.

(* ===================================================================== *)
(** * src/ui/timeline.py: frame numbers in the controls                   *)
(* ===================================================================== *)

Module Timeline.

(** [isinstance(e, ValueError)] *)
Definition is_ValueError (e : Py.exn) : bool :=
  match e with
  | Py.ValueError _ | Py.JSONDecodeError | Py.UnicodeDecodeError => true
  | _ => false
  end.

(** Lines 173-176: the frame [_jump_frames] hands to the slider. *)
Definition jump_target (total_frames current_frame delta : Z) : Z :=
  Z.max 0 (Z.min (total_frames - 1) (current_frame + delta)).

(** Lines 209-214: the items of the drop-down after [set_keyframes]. *)
Definition set_keyframes (keyframes : list Z) : list string :=
  "None" :: map Py.str (merge_sort Z.le keyframes).

(** Lines 180-183, the body of the [try]: the frame is read from the text
    and handed to [keyframe_selected = Signal(int)] and to the slider. *)
Definition select_keyframe (text : string) : Py.result (option Z) :=
  frame ← Py.int text;
  Qt.pass_int frame;;          (* self.keyframe_selected.emit(frame) *)
  Qt.pass_int frame;;          (* self.slider.setValue(frame) *)
  Py.Ok (Some frame).

(** Lines 178-186: the frame that the handler of the drop-down reads from
    the chosen text and passes on, if any. A ValueError is swallowed; any
    other exception leaves the handler. *)
Definition on_keyframe_selected (text : string) : Py.result (option Z) :=
  if bool_decide (text <> "None") then
    match select_keyframe text with
    | Py.Ok frame => Py.Ok frame
    | Py.Raise e => if is_ValueError e then Py.Ok None else Py.Raise e
    end
  else Py.Ok None.

End Timeline.

(* ===================================================================== *)
(** * src/core/keyframe_manager.py: the text summary, lines 182-193       *)
(* ===================================================================== *)

Module Summary.

(** [str(zone)]: a tuple in round brackets, a list in square ones. *)
Definition zone_str (z : zone) : string :=
  match z with
  | TupleZone x1 y1 x2 y2 =>
      "(" +:+ Py.str x1 +:+ ", " +:+ Py.str y1 +:+ ", " +:+ Py.str x2
          +:+ ", " +:+ Py.str y2 +:+ ")"
  | ListZone x1 y1 x2 y2 =>
      "[" +:+ Py.str x1 +:+ ", " +:+ Py.str y1 +:+ ", " +:+ Py.str x2
          +:+ ", " +:+ Py.str y2 +:+ "]"
  end.

(** [sep.join(lines)] *)
Fixpoint join (sep : string) (lines : list string) : string :=
  match lines with
  | [] => EmptyString
  | [line] => line
  | line :: rest => line +:+ sep +:+ join sep rest
  end.

(** Lines 189-192: the lines appended for one keyframe. *)
Definition frame_lines (frame : Z) (zones : list zone) : list string :=
  ("Frame " +:+ Py.str frame +:+ ":")
  :: imap (fun i zone =>
             "  Zone " +:+ Py.str (Z.of_nat i + 1) +:+ ": " +:+ zone_str zone)
          zones.

(** Lines 187-192: the list [lines]. *)
Definition summary_lines (kfs : list (Z * list zone))
  : Py.result (list string) :=
  Py.foldM (fun lines frame =>
              zones ← Dict.subscript kfs frame;
              Py.Ok (lines ++ frame_lines frame zones))
           (KeyframeManager.get_all_keyframe_numbers kfs) [].

Definition get_summary (kfs : list (Z * list zone)) : Py.result string :=
  match kfs with
  | [] => Py.Ok "No zones defined"
  | _ =>
      lines ← summary_lines kfs;
      Py.Ok (join (String "010" EmptyString) lines)
  end.

End Summary.

(* ===================================================================== *)
(** * src/app.py: the application shows frames and zones                  *)
(* ===================================================================== *)

Module App.

(** The calls made on the widgets. *)
Inductive ui :=
  | SidebarSetKeyframeList (text : string)
  | TimelineSetKeyframes (keyframes : list Z)
  | CanvasSetFrame (frame : frame) (zones : list zone)
  | TimelineSetCurrentFrame (frame : Z).

(** The player and the timeline of the application, and the calls it has
    made on its widgets. *)
Record t := App {
  video : VideoPlayer.t;
  keyframes : list (Z * list zone);
  shown : list ui
}.

(** Statements act on the application and either return or raise. *)
Definition app (A : Type) : Type := t -> Py.result A * t.

#[global] Instance app_ret : MRet app := fun A a self => (Py.Ok a, self).
#[global] Instance app_bind : MBind app := fun A B k m self =>
  match m self with
  | (Py.Ok a, self') => k a self'
  | (Py.Raise e, self') => (Py.Raise e, self')
  end.

Definition lift {A} (r : Py.result A) : app A := fun self => (r, self).

Definition show (call : ui) : app unit := fun self =>
  (Py.Ok tt, App (video self) (keyframes self) (shown self ++ [call])).

(** Lines 266-269. *)
Definition update_keyframe_list : app unit := fun self =>
  (summary ← lift (Summary.get_summary (keyframes self));
   show (SidebarSetKeyframeList summary);;
   show (TimelineSetKeyframes
           (KeyframeManager.get_all_keyframe_numbers (keyframes self)))) self.

(** [self.video.get_frame(frame_num)] *)
Definition video_get_frame (frame_num : Z) : app (option frame) := fun self =>
  let '(frame, video') := VideoPlayer.get_frame (video self) frame_num in
  (Py.Ok frame, App video' (keyframes self) (shown self)).

(** Lines 203-215. *)
Definition update_display (frame_num : option Z) : app unit := fun self =>
  if negb (VideoPlayer.is_loaded (video self)) then (Py.Ok tt, self)
  else
    let frame_num :=
      match frame_num with
      | None => VideoPlayer.current_frame (video self)
      | Some n => n
      end in
    (frame ← video_get_frame frame_num;
     match frame with
     | Some frame =>
         zones ← lift (KeyframeManager.get_zones_at_frame (keyframes self)
                                                          frame_num);
         show (CanvasSetFrame frame zones);;
         show (TimelineSetCurrentFrame frame_num)
     | None => mret tt
     end) self.

(** Lines 217-223. *)
Definition on_frame_change (frame : Z) : app unit := update_display (Some frame).

Definition jump_to_keyframe (frame : Z) : app unit := update_display (Some frame).

(** Lines 234-238. *)
Definition on_zone_drawn (zone : zone) : app unit := fun self =>
  let self :=
    App (video self)
        (KeyframeManager.add_zone (keyframes self)
           (VideoPlayer.current_frame (video self)) zone)
        (shown self) in
  (update_keyframe_list;; update_display None) self.

(** Lines 248-256; [confirmed] is the answer to the question. *)
Definition clear_keyframes (confirmed : bool) : app unit := fun self =>
  if KeyframeManager.is_empty (keyframes self) then (Py.Ok tt, self)
  else if confirmed then
    (update_keyframe_list;; update_display None)
      (App (video self) (KeyframeManager.clear (keyframes self)) (shown self))
  else (Py.Ok tt, self).

End App.

(* ===================================================================== *)
(** * Notions used in the statements                                      *)
(* ===================================================================== *)

(** A string of decimal digits. *)
Fixpoint all_digits (s : string) : bool :=
  match s with
  | EmptyString => true
  | String a s' => Py.is_digit a && all_digits s'
  end.

(** The dict the worker hands to [process_video]: [to_dict()] of the
    timeline, whose keys are strings. *)
Definition worker_keyframes (kfs : list (Z * list zone))
  : list (Processor.key * list zone) :=
  map (fun kv => (Processor.StrKey (fst kv), snd kv))
      (KeyframeManager.to_dict kfs).

(** The zone with the same coordinates, as a list. *)
Definition zone_list (z : zone) : zone :=
  match z with
  | TupleZone x1 y1 x2 y2 | ListZone x1 y1 x2 y2 => ListZone x1 y1 x2 y2
  end.

(** The timeline with every zone as a list. *)
Definition as_lists (kfs : list (Z * list zone)) : list (Z * list zone) :=
  map (fun kv => (fst kv, map zone_list (snd kv))) kfs.

(** The coordinates held by a timeline, frame by frame. *)
Definition coordinates (kfs : list (Z * list zone))
  : list (Z * list (Z * Z * Z * Z)) :=
  map (fun kv => (fst kv, map zone_coords (snd kv))) kfs.

(** Save the timeline next to the video, then load it into a manager that
    holds [before]. *)
Definition save_then_load (kfs : list (Z * list zone))
    (before : list (Z * Py.value)) (video_path : string)
    (fs : gmap string file) : Py.result bool * list (Z * Py.value) :=
  KeyframeManager.load_from_file before video_path
    (snd (KeyframeManager.save_to_file
            (KeyframeManager.timeline_value kfs) video_path fs)).

(** The invariant of a zone in a frame of the given size. *)
Definition zone_ok (width height : Z) (z : zone) : Prop :=
  let '(x1, y1, x2, y2) := zone_coords z in
  x1 < x2 /\ y1 < y2 /\ 0 <= x1 /\ x2 <= width /\ 0 <= y1 /\ y2 <= height.

(** Row [r], column [c] lies in the rectangle of the zone grown by [pad]
    pixels on every side and cut to the frame. *)
Definition in_grown (pad : Z) (width height : Z) (r c : Z) (z : zone) : bool :=
  let '(x1, y1, x2, y2) := zone_coords z in
  (Z.max 0 (y1 - pad) <=? r) && (r <? Z.min height (y2 + pad))
  && (Z.max 0 (x1 - pad) <=? c) && (c <? Z.min width (x2 + pad)).

(** The same for the padding of 8 pixels of [create_mask_from_zones]. *)
Definition in_padded (width height : Z) (r c : Z) (z : zone) : bool :=
  in_grown 8 width height r c z.

(** An array of [rows] rows that all have [cols] entries. *)
Definition has_shape {A} (rows cols : nat) (a : list (list A)) : Prop :=
  length a = rows /\ Forall (fun row => length row = cols) a.

(** The entry at row [r], column [c], when there is one. *)
Definition entry {A} (a : list (list A)) (r c : nat) : option A :=
  row ← a !! r; row !! c.

(** The raster of the given size that is 255 exactly where some zone,
    grown by [pad] pixels and cut to the frame, covers the entry, and 0
    elsewhere. *)
Definition marks (pad : Z) (width height : Z) (zones : list zone)
    (m : list (list Z)) : Prop :=
  has_shape (Z.to_nat height) (Z.to_nat width) m
  /\ forall r c, (r < Z.to_nat height)%nat -> (c < Z.to_nat width)%nat ->
       entry m r c
       = Some (if existsb (in_grown pad width height (Z.of_nat r) (Z.of_nat c)) zones
               then 255 else 0).

(** A raster whose entries are all 0. *)
Definition all_zero (m : list (list Z)) : Prop :=
  forall r c p, entry m r c = Some p -> p = 0.

(** What the batch call returns for one frame and its mask. *)
Definition inpaint_result (E : Processor.env) (self : Processor.LamaInpainter)
    (fm : frame * mask) : frame :=
  if Np.any_positive (snd fm) && Processor.model self then
    let result := Processor.lama E (fst fm) (snd fm) in
    if bool_decide (Np.shape2 result ≠ Np.shape2 (fst fm))
    then Processor.resize E result
           (snd (Np.shape2 (fst fm)), fst (Np.shape2 (fst fm)))
    else result
  else fst fm.

(** The frames and masks a batch call gives to the model. *)
Definition model_inputs (self : Processor.LamaInpainter)
    (pairs : list (frame * mask)) : list (frame * mask) :=
  if Processor.model self
  then filter (fun fm => Np.any_positive (snd fm) = true) pairs
  else [].

(** The chunks the buffering of lines 140-148 cuts a sequence into, with
    what is left in the buffer at the end: an item is appended to the
    buffer, and the buffer is emitted when it has reached the chunk size. *)
Fixpoint split_chunks {A} (chunk_size : Z) (buffer : list A) (xs : list A)
  : list (list A) * list A :=
  match xs with
  | [] => ([], buffer)
  | x :: xs' =>
      let buffer := buffer ++ [x] in
      if Z.of_nat (length buffer) >=? chunk_size
      then (buffer :: fst (split_chunks chunk_size [] xs'),
            snd (split_chunks chunk_size [] xs'))
      else split_chunks chunk_size buffer xs'
  end.

(** All the chunks flushed by a run: those of the loop, and what is left
    after it when that is not empty (lines 155-158). *)
Definition all_chunks {A} (chunk_size : Z) (xs : list A) : list (list A) :=
  fst (split_chunks chunk_size [] xs)
  ++ match snd (split_chunks chunk_size [] xs) with
     | [] => []
     | rest => [rest]
     end.

Definition is_progress (s : Processor.signal) : Prop :=
  match s with
  | Processor.Progress _ _ => True
  | _ => False
  end.

(** A progress callback that returns normally and does nothing but emit
    progress signals. *)
Definition quiet (cb : option Processor.callback) : Prop :=
  match cb with
  | None => True
  | Some g =>
      forall a b f c d o ow bc mc s, exists sigs,
        g a b (Processor.World f c d o ow bc mc s)
        = (Py.Ok tt, Processor.World f c d o ow bc mc (s ++ sigs))
        /\ Forall is_progress sigs
  end.

(** The files after the frames have been appended, one by one, to the
    video at [path]. *)
Definition write_frames (path : string) (frames : list frame)
    (files : gmap string file) : gmap string file :=
  fold_left (fun m fr => alter (Processor.append_frame fr) path m) frames files.

(** The files after [out.write] of each of the frames, for a writer in the
    state [out] created on [path]. *)
Definition sink_frames (out : Processor.handle) (path : string)
    (frames : list frame) (files : gmap string file) : gmap string file :=
  match out with
  | Processor.Open => write_frames path frames files
  | _ => files
  end.

(** The writer of a job on the video [v] with the given output path
    opens. *)
Definition writer_opens_for (E : Processor.env) (files : gmap string file)
    (output_path : string) (v : video) : Prop :=
  Processor.VideoWriter_isOpened E files (output_path +:+ ".temp.avi")
    (v_fps v) (v_width v) (v_height v) = true.

(** An encoder that takes every stream of a positive frame rate whose
    frames are at least 2 pixels wide and 2 pixels high, at any path. *)
Definition xvid_opens (path : string) (fps : Z) (width height : N) : bool :=
  (0 <? fps) && (2 <=? width)%N && (2 <=? height)%N.

(** The progress reports of a job on the video [v] fit the signal: the
    frame count the container gives and the number of frames decoded are C
    ints. *)
Definition progress_fits (v : video) : Prop :=
  Qt.fits_int (v_frame_count v) = true
  /\ Qt.fits_int (Z.of_nat (length (v_frames v))) = true.

(** The frame that is written for a decoded frame and its mask: converted
    to RGB, passed through the batch call, converted back. *)
Definition written_frame (E : Processor.env) (self : Processor.LamaInpainter)
    (fm : frame * mask) : frame :=
  Cv2.cvtColor (inpaint_result E self fm) Cv2.COLOR_RGB2BGR.

(** [masks] are the masks of the frames with indices [idx], [idx + 1], ... *)
Fixpoint masks_from (keyframes : list (Processor.key * list zone))
    (width height : Z) (idx : Z) (masks : list mask) : Prop :=
  match masks with
  | [] => True
  | mk :: rest =>
      Processor.frame_mask keyframes width height idx = Py.Ok mk
      /\ masks_from keyframes width height (idx + 1) rest
  end.

(** The decoded frames in RGB, each with its mask. *)
Definition rgb_pairs (frames : list frame) (masks : list mask)
  : list (frame * mask) :=
  zip (map (fun fr => Cv2.cvtColor fr Cv2.COLOR_BGR2RGB) frames) masks.

(** The file ffmpeg makes of the raw stream at [temp_output], when it is
    found and exits with status 0. *)
Definition muxed (E : Processor.env) (w : Processor.world)
    (temp_output input_path : string) : option file :=
  match Processor.get_ffmpeg_path E w with
  | (Py.Ok exe, _) =>
      match Processor.ffmpeg E exe (Processor.fs w !! temp_output)
                             (Processor.fs w !! input_path) with
      | Processor.MuxDone out => Some out
      | Processor.MuxFailed _ => None
      end
  | (Py.Raise _, _) => None
  end.

(** The raw stream a run writes to the intermediate file: the size and
    frame rate of the source, and the written frames. *)
Definition raw_stream (E : Processor.env) (v : video) (masks : list mask)
  : file :=
  FVideo (Video (v_width v) (v_height v) (v_fps v)
                (Z.of_nat (length (rgb_pairs (v_frames v) masks)))
                (map (written_frame E {| Processor.model := Processor.lama_available E |})
                     (rgb_pairs (v_frames v) masks))).

(** ** Notions for the editing of the timeline *)

(** The calls that edit a timeline. *)
Inductive edit (Zone : Type) :=
  | AddZone (frame : Z) (zone : Zone)
  | RemoveZone (frame index : Z)
  | RemoveKeyframe (frame : Z)
  | Clear.
Arguments AddZone {Zone} frame zone.
Arguments RemoveZone {Zone} frame index.
Arguments RemoveKeyframe {Zone} frame.
Arguments Clear {Zone}.

Definition apply_edit {Zone} (kfs : list (Z * list Zone)) (e : edit Zone)
  : list (Z * list Zone) :=
  match e with
  | AddZone frame zone => KeyframeManager.add_zone kfs frame zone
  | RemoveZone frame index => fst (KeyframeManager.remove_zone kfs frame index)
  | RemoveKeyframe frame => fst (KeyframeManager.remove_keyframe kfs frame)
  | Clear => KeyframeManager.clear kfs
  end.

(** A timeline as the editing calls keep it: no frame number twice, and no
    keyframe without a zone. *)
Definition timeline_ok {Zone} (kfs : list (Z * list Zone)) : Prop :=
  Dict.wf kfs /\ Forall (fun kv => snd kv <> []) kfs.

(** The number of zones of all keyframes together. *)
Definition zone_total {Zone} (kfs : list (Z * list Zone)) : Z :=
  Z.of_nat (length (concat (map snd kfs))).

(** The item of [data] that decides the value under [k] after
    [from_dict]: the last one whose key [int] reads as [k]. *)
Definition last_item_for {V} (data : list (string * V)) (k : Z) (i : nat)
    (v : V) : Prop :=
  exists s, data !! i = Some (s, v) /\ Py.int s = Py.Ok k
    /\ forall j s' v', (i < j)%nat -> data !! j = Some (s', v') ->
         Py.int s' <> Py.Ok k.

(** ** Notions for the progress reports of a job *)

(** A progress callback that, called with [a] and [b], returns normally
    and emits exactly the signals [g a b]. *)
Definition reports (cb : option Processor.callback)
    (g : Z -> Z -> list Processor.signal) (a b : Z) : Prop :=
  match cb with
  | None => g a b = []
  | Some h =>
      forall f c d o ow bc mc s,
        h a b (Processor.World f c d o ow bc mc s)
        = (Py.Ok tt, Processor.World f c d o ow bc mc (s ++ g a b))
  end.

(** The signals of [n] turns of the loop over the frames, the first turn
    being that of the frame with index [idx]. *)
Definition progress_trace (g : Z -> Z -> list Processor.signal)
    (idx total : Z) (n : nat) : list Processor.signal :=
  concat (map (fun i => g (idx + Z.of_nat i + 1) total) (seq 0 n)).

(** The progress signals of a whole job: one for each frame, counted from
    1, each with the frame count the container gives. *)
Definition progress_signals (total : Z) (n : nat) : list Processor.signal :=
  map (fun i => Processor.Progress (Z.of_nat i + 1) total) (seq 0 n).

(** ** Notions for the player *)

(** The calls made on a player. *)
Inductive player_call :=
  | CallLoad (path : string)
  | CallGetFrame (frame_num : Z)
  | CallNextFrame
  | CallPreviousFrame
  | CallJumpFrames (delta : Z)
  | CallRelease.

Definition player_step (files : gmap string file) (st : VideoPlayer.state)
    (c : player_call) : VideoPlayer.state :=
  let self := VideoPlayer.player st in
  let keep (r : option frame * VideoPlayer.t) :=
    VideoPlayer.State (snd r) (VideoPlayer.open_captures st) in
  match c with
  | CallLoad path => snd (VideoPlayer.load files path st)
  | CallGetFrame frame_num => keep (VideoPlayer.get_frame self frame_num)
  | CallNextFrame => keep (VideoPlayer.next_frame self)
  | CallPreviousFrame => keep (VideoPlayer.previous_frame self)
  | CallJumpFrames delta => keep (VideoPlayer.jump_frames self delta)
  | CallRelease => VideoPlayer.release st
  end.

(** What holds of a player between two calls, over the files [files]. *)
Definition player_ok (files : gmap string file) (st : VideoPlayer.state)
  : Prop :=
  let self := VideoPlayer.player st in
  match VideoPlayer.cap self with
  | Some (VideoPlayer.Opened v) =>
      VideoPlayer.open_captures st = 1%nat
      /\ (exists path, VideoPlayer.video_path self = Some path
                       /\ files !! path = Some (FVideo v))
      /\ VideoPlayer.total_frames self = v_frame_count v
      /\ VideoPlayer.width self = Z.of_N (v_width v)
      /\ VideoPlayer.height self = Z.of_N (v_height v)
      /\ VideoPlayer.fps self <> 0
      /\ 0 <= VideoPlayer.current_frame self
         <= Z.max 0 (VideoPlayer.total_frames self - 1)
      /\ (VideoPlayer.current_frame self = 0
          \/ is_Some (VideoPlayer.read_at v (VideoPlayer.current_frame self)))
  | _ =>
      VideoPlayer.open_captures st = 0%nat
      /\ VideoPlayer.video_path self = None
      /\ VideoPlayer.total_frames self = 0
      /\ VideoPlayer.current_frame self = 0
      /\ VideoPlayer.fps self <> 0
  end.

(** A video whose container gives the number of frames it has. *)
Definition counted (v : video) : Prop :=
  v_frame_count v = Z.of_nat (length (v_frames v)).

(** ** Notions for the dict given to the worker *)

(** The contents of a dict with string keys whose values are list objects,
    such as [to_dict()] builds: every reference replaced by the list it
    points to. *)
Definition exported_contents {Zone} (d : list (string * positive))
    (h : gmap positive (list Zone)) : list (string * list Zone) :=
  map (fun kv => (fst kv, default [] (h !! snd kv))) d.

(* ===================================================================== *)
(** * Part two: properties                                                *)
(* ===================================================================== *)

(* ===================================================================== *)
(** * Properties of [str] and [int]                                       *)
(* ===================================================================== *)

Section StrInt.

Lemma digit_facts a :
  Py.is_digit a = true ->
  Py.is_space a = false /\ Ascii.eqb a "_" = false /\
  Ascii.eqb a "-" = false /\ Ascii.eqb a "+" = false.
Proof.
  destruct a as [[] [] [] [] [] [] [] []]; cbn; intros H;
    first [discriminate H | repeat split].
Qed.

Lemma all_digits_string_of_uint u :
  all_digits (NilEmpty.string_of_uint u) = true.
Proof. induction u; cbn; auto. Qed.

Lemma string_of_uint_nonempty u :
  u <> Nil -> NilEmpty.string_of_uint u <> EmptyString.
Proof. destruct u; cbn; congruence. Qed.

Lemma lstrip_digits s : all_digits s = true -> Py.lstrip s = s.
Proof.
  destruct s as [|a s]; cbn; [done|].
  intros [Ha _]%andb_prop. by destruct (digit_facts a Ha) as [-> _].
Qed.

Lemma rstrip_digits s : all_digits s = true -> Py.rstrip s = s.
Proof.
  induction s as [|a s IH]; cbn; [done|].
  intros [Ha Hs]%andb_prop. rewrite (IH Hs).
  destruct (digit_facts a Ha) as [-> _]. by destruct s.
Qed.

Lemma grouped_digits s b :
  all_digits s = true -> s <> EmptyString -> Py.grouped b s = true.
Proof.
  revert b. induction s as [|a s IH]; intros b; cbn; [done|].
  intros [Ha Hs]%andb_prop _. rewrite Ha.
  destruct s as [|a' s']; [done|]. by apply IH.
Qed.

Lemma drop_underscores_digits s :
  all_digits s = true -> Py.drop_underscores s = s.
Proof.
  induction s as [|a s IH]; cbn; [done|].
  intros [Ha Hs]%andb_prop.
  destruct (digit_facts a Ha) as (_ & -> & _). by rewrite IH.
Qed.

Lemma int_unsigned_uint u :
  u <> Nil ->
  Py.int_unsigned (NilEmpty.string_of_uint u) = Some (Z.of_uint u).
Proof.
  intros Hu. unfold Py.int_unsigned.
  rewrite grouped_digits; auto using all_digits_string_of_uint,
    string_of_uint_nonempty.
  by rewrite drop_underscores_digits, NilEmpty.usu
    by apply all_digits_string_of_uint.
Qed.

Lemma strip_digits s : all_digits s = true -> Py.strip s = s.
Proof.
  intros H. unfold Py.strip. by rewrite lstrip_digits, rstrip_digits.
Qed.

Lemma int_opt_digits s :
  all_digits s = true -> Py.int_opt s = Py.int_unsigned s.
Proof.
  intros H. unfold Py.int_opt. rewrite strip_digits by done.
  destruct s as [|a s]; [done|].
  apply andb_prop in H as [Ha _].
  destruct a as [[] [] [] [] [] [] [] []]; try discriminate Ha; reflexivity.
Qed.

Lemma int_opt_minus_digits s :
  all_digits s = true -> s <> EmptyString ->
  Py.int_opt (String "-" s) = option_map Z.opp (Py.int_unsigned s).
Proof.
  intros H Hne. unfold Py.int_opt, Py.strip. cbn [Py.lstrip Py.is_space].
  cbn [Py.rstrip]. rewrite rstrip_digits by done.
  destruct s; [done|]. reflexivity.
Qed.

(** [int(str(k)) == k] for every integer. *)
Lemma int_opt_str k : Py.int_opt (Py.str k) = Some k.
Proof.
  unfold Py.str. rewrite <- (DecimalZ.of_to k) at 2.
  destruct k as [|p|p]; cbn [Z.to_int NilEmpty.string_of_int Z.of_int].
  - reflexivity.
  - rewrite int_opt_digits by apply all_digits_string_of_uint.
    apply int_unsigned_uint, DecimalPos.Unsigned.to_uint_nonnil.
  - rewrite int_opt_minus_digits; auto using all_digits_string_of_uint,
      string_of_uint_nonempty, DecimalPos.Unsigned.to_uint_nonnil.
    by rewrite int_unsigned_uint
      by apply DecimalPos.Unsigned.to_uint_nonnil.
Qed.

Lemma int_str k : Py.int (Py.str k) = Py.Ok k.
Proof. unfold Py.int. by rewrite int_opt_str. Qed.

Lemma str_inj k1 k2 : Py.str k1 = Py.str k2 -> k1 = k2.
Proof.
  intros H. pose proof (int_opt_str k1) as H1. rewrite H, int_opt_str in H1.
  congruence.
Qed.

#[global] Instance str_injective : Inj (=) (=) Py.str.
Proof. intros k1 k2. apply str_inj. Qed.

End StrInt.

(* ===================================================================== *)
(** * Properties of dictionaries                                          *)
(* ===================================================================== *)

Section DictFacts.
Context {K V : Type} `{EqDecision K}.
Implicit Types (d : list (K * V)) (k : K) (v : V).

Lemma dict_get_Some_key d k v : Dict.get d k = Some v -> k ∈ Dict.keys d.
Proof.
  induction d as [|[k' v'] d IH]; cbn; [done|].
  case_decide; subst; intros; [left | right; auto].
Qed.

Lemma dict_key_get d k : k ∈ Dict.keys d -> is_Some (Dict.get d k).
Proof.
  induction d as [|[k' v'] d IH]; cbn.
  - intros H. by apply elem_of_nil in H.
  - intros H. case_decide; [eauto|].
    apply elem_of_cons in H as [->|H]; [done | auto].
Qed.

Lemma dict_get_None d k : k ∉ Dict.keys d -> Dict.get d k = None.
Proof.
  intros Hk. destruct (Dict.get d k) eqn:E; [|done].
  by apply dict_get_Some_key in E.
Qed.

Lemma dict_get_In d k v : Dict.get d k = Some v -> (k, v) ∈ d.
Proof.
  induction d as [|[k' v'] d IH]; cbn; [done|].
  case_decide; subst; [intros [= ->]; left | right; auto].
Qed.

(** Assigning under a key that is not there appends the item. *)
Lemma dict_set_fresh d k v : k ∉ Dict.keys d -> Dict.set d k v = d ++ [(k, v)].
Proof.
  induction d as [|[k' v'] d IH]; cbn; [done|].
  intros Hk. apply not_elem_of_cons in Hk as [Hne Hk].
  case_decide; [congruence|]. by rewrite IH.
Qed.

Lemma dict_keys_app d1 d2 : Dict.keys (d1 ++ d2) = Dict.keys d1 ++ Dict.keys d2.
Proof. apply map_app. Qed.

Lemma dict_keys_set d k v :
  Dict.keys (Dict.set d k v)
  = if decide (k ∈ Dict.keys d) then Dict.keys d else Dict.keys d ++ [k].
Proof.
  unfold Dict.keys. induction d as [|[k' v'] d IH]; cbn.
  - case_decide as Hin; [by apply elem_of_nil in Hin | done].
  - destruct (decide (k' = k)) as [->|Hne]; cbn.
    + rewrite decide_True by left. done.
    + rewrite IH. destruct (decide (k ∈ map fst d)) as [Hin|Hin].
      * rewrite decide_True by (by right). done.
      * rewrite decide_False; [done|].
        intros [?|?]%elem_of_cons; congruence.
Qed.

Lemma dict_get_set d k v k' :
  Dict.get (Dict.set d k v) k' = if decide (k = k') then Some v else Dict.get d k'.
Proof.
  induction d as [|[k0 v0] d IH]; cbn.
  - repeat case_decide; congruence.
  - destruct (decide (k0 = k)) as [->|Hne]; cbn.
    + repeat case_decide; congruence.
    + rewrite IH. repeat case_decide; congruence.
Qed.

Lemma dict_set_wf d k v : Dict.wf d -> Dict.wf (Dict.set d k v).
Proof.
  unfold Dict.wf. intros Hd. rewrite dict_keys_set.
  case_decide as Hin; [done|].
  apply NoDup_app. split_and!; [done| |apply NoDup_singleton].
  intros x Hx ->%list_elem_of_singleton. done.
Qed.
End DictFacts.

(** A dict comprehension [{g(k): v for k, v in items}] over items whose
    new keys are all different lists them in the same order. *)
Lemma dict_comprehension_map {K K' V : Type} `{EqDecision K'}
    (g : K -> K') (its : list (K * V)) (acc : list (K' * V)) :
  NoDup (Dict.keys acc ++ map g (Dict.keys its)) ->
  fold_left (fun d kv => Dict.set d (g (fst kv)) (snd kv)) its acc
  = acc ++ map (fun kv => (g (fst kv), snd kv)) its.
Proof.
  revert acc. induction its as [|[k v] its IH]; intros acc Hnd; cbn.
  - by rewrite app_nil_r.
  - cbn in Hnd. rewrite dict_set_fresh.
    + rewrite IH; [by rewrite <- app_assoc|].
      rewrite dict_keys_app. cbn. by rewrite <- app_assoc.
    + apply NoDup_app in Hnd as (_ & Hd & _). intros Hin.
      apply (Hd _ Hin). left.
Qed.

(** The same with a conversion that may raise and does not. *)
Lemma dict_comprehension_foldM {K K' V : Type} `{EqDecision K'}
    (g : K -> Py.result K') (g' : K -> K') (its : list (K * V))
    (acc : list (K' * V)) :
  (forall k, k ∈ Dict.keys its -> g k = Py.Ok (g' k)) ->
  Py.foldM (fun d kv => k ← g (fst kv); Py.Ok (Dict.set d k (snd kv))) its acc
  = Py.Ok (fold_left (fun d kv => Dict.set d (g' (fst kv)) (snd kv)) its acc).
Proof.
  revert acc. induction its as [|[k v] its IH]; intros acc Hg; cbn; [done|].
  rewrite (Hg k) by left. cbn. apply IH. intros k' Hk'. apply Hg. by right.
Qed.

(* ===================================================================== *)
(** * The zone timeline                                                   *)
(* ===================================================================== *)

Lemma fold_left_max_spec (xs : list Z) (x : Z) :
  let m := fold_left Z.max xs x in
  m ∈ x :: xs /\ forall y, y ∈ x :: xs -> y <= m.
Proof.
  revert x. induction xs as [|a xs IH]; intros x; cbn.
  - split; [left|]. intros y ->%list_elem_of_singleton. lia.
  - destruct (IH (Z.max x a)) as [Hin Hub]. split.
    + apply elem_of_cons in Hin as [Heq|Hin]; [|by do 2 right].
      rewrite Heq. destruct (Z.max_spec x a) as [[_ ->]|[_ ->]];
        [right; left | left].
    + intros y Hy. assert (Z.max x a <= fold_left Z.max xs (Z.max x a))
        by (apply Hub; left).
      apply elem_of_cons in Hy as [->|Hy]; [lia|].
      apply elem_of_cons in Hy as [->|Hy]; [lia|].
      apply Hub. by right.
Qed.

Lemma py_max_spec (xs : list Z) :
  xs <> [] ->
  exists m, Py.max xs = Py.Ok m /\ m ∈ xs /\ forall y, y ∈ xs -> y <= m.
Proof.
  destruct xs as [|x xs]; [done|]. intros _.
  exists (fold_left Z.max xs x). split; [done|]. apply fold_left_max_spec.
Qed.

Section Timeline.
Context {Zone : Type}.
Implicit Types (kfs : list (Z * list Zone)) (f : Z).

(** The lookup on any timeline: the zones stored under the greatest frame
    number that is at most [f], or no zones. *)
Lemma get_zones_at_frame_spec kfs f :
  (exists k zs,
      k ∈ Dict.keys kfs /\ k <= f /\
      (forall k', k' ∈ Dict.keys kfs -> k' <= f -> k' <= k) /\
      Dict.get kfs k = Some zs /\
      KeyframeManager.get_zones_at_frame kfs f = Py.Ok zs)
  \/ ((forall k, k ∈ Dict.keys kfs -> f < k) /\
      KeyframeManager.get_zones_at_frame kfs f = Py.Ok []).
Proof.
  unfold KeyframeManager.get_zones_at_frame.
  destruct kfs as [|kv kfs']; [right; split; [|done]|].
  { intros k Hk. by apply elem_of_nil in Hk. }
  set (kfs := kv :: kfs').
  destruct (filter (fun k => k <= f) (Dict.keys kfs)) as [|v0 vs] eqn:Hvalid.
  - right. split; [|done]. intros k Hk.
    destruct (decide (k <= f)) as [Hle|]; [|lia].
    assert (k ∈ filter (fun k => k <= f) (Dict.keys kfs)) as Hin
      by (by apply list_elem_of_filter).
    rewrite Hvalid in Hin. by apply elem_of_nil in Hin.
  - left. destruct (py_max_spec (v0 :: vs)) as (m & Hm & Hin & Hub); [done|].
    rewrite <- Hvalid in Hin, Hub. apply list_elem_of_filter in Hin as [Hle Hin].
    destruct (dict_key_get kfs m Hin) as [zs Hzs].
    exists m, zs. split_and!; try done.
    + intros k' Hk' Hle'. apply Hub. by apply list_elem_of_filter.
    + rewrite Hm. cbn. unfold Dict.subscript. by rewrite Hzs.
Qed.
End Timeline.

(** ** [to_dict] and [from_dict] *)

Lemma to_dict_map {V} (kfs : list (Z * V)) :
  Dict.wf kfs ->
  KeyframeManager.to_dict kfs = map (fun kv => (Py.str (fst kv), snd kv)) kfs.
Proof.
  intros Hwf. unfold KeyframeManager.to_dict.
  rewrite (dict_comprehension_map Py.str); [done|]. cbn.
  apply (NoDup_fmap_2 (A:=Z)); [|done]. intros k1 k2. apply str_inj.
Qed.

Lemma from_dict_to_dict {V} (kfs : list (Z * V)) :
  Dict.wf kfs ->
  KeyframeManager.from_dict (KeyframeManager.to_dict kfs) = Py.Ok kfs.
Proof.
  intros Hwf. rewrite to_dict_map by done. unfold KeyframeManager.from_dict.
  rewrite (dict_comprehension_foldM _ (fun s => default 0 (Py.int_opt s))).
  - rewrite (dict_comprehension_map (fun s => default 0 (Py.int_opt s))).
    + cbn. f_equal. rewrite map_map. rewrite <- (map_id kfs) at 2.
      apply map_ext. intros [k v]. cbn. by rewrite int_opt_str.
    + cbn. unfold Dict.keys. rewrite !map_map. cbn.
      erewrite map_ext; [exact Hwf|]. intros [k v]. cbn. by rewrite int_opt_str.
  - intros s Hs. unfold Dict.keys in Hs. rewrite map_map in Hs. cbn in Hs.
    apply list_elem_of_fmap in Hs as ([k v] & -> & _). cbn.
    unfold Py.int. by rewrite int_opt_str.
Qed.

Lemma int_keyed_worker_keyframes (kfs : list (Z * list zone)) :
  Dict.wf kfs -> Processor.int_keyed (worker_keyframes kfs) = Py.Ok kfs.
Proof.
  intros Hwf. rewrite <- (from_dict_to_dict kfs Hwf).
  unfold Processor.int_keyed, worker_keyframes, KeyframeManager.from_dict.
  generalize (@nil (Z * list zone)).
  induction (KeyframeManager.to_dict kfs) as [|[s v] its IH]; intros acc; cbn;
    [done|].
  destruct (Py.int s); cbn; [apply IH | done].
Qed.

(** The lookup of the processor is the lookup of the timeline on the dict
    with its keys converted, with every zone made a tuple. *)
Lemma processor_get_zones_at_frame_eq keyframes f :
  Processor.get_zones_at_frame keyframes f
  = (kf_dict ← Processor.int_keyed keyframes;
     zs ← KeyframeManager.get_zones_at_frame kf_dict f;
     Py.Ok (map zone_tuple zs)).
Proof.
  unfold Processor.get_zones_at_frame, KeyframeManager.get_zones_at_frame.
  destruct keyframes as [|kv keyframes']; [done|].
  destruct (Processor.int_keyed (kv :: keyframes')) as [kf|e]; cbn; [|done].
  destruct kf as [|kv0 kf']; [done|].
  destruct (filter _ _) as [|v0 vs]; [done|].
  destruct (Py.max (v0 :: vs)); cbn; [|done].
  by destruct (Dict.subscript _ _).
Qed.

(** C3. For every timeline and every frame index f, get_zones_at_frame
    returns the zone list of the greatest keyframe index k with k <= f, and
    the empty list when no keyframe index is <= f (in particular on the
    empty mapping); the processor's get_zones_at_frame does the same on the
    dict it is given, and on the worker's dict it returns the timeline's
    answer with every zone as a tuple; for keyframes {0:[A], 10:[B]},
    zonesAt(5) = [A], zonesAt(15) = [B], zonesAt(0) = [A]. *)
Theorem zones_at_frame_is_greatest_keyframe :
  (forall (Zone : Type) (kfs : list (Z * list Zone)) (f : Z),
      (exists k zs,
          k ∈ Dict.keys kfs /\ k <= f /\
          (forall k', k' ∈ Dict.keys kfs -> k' <= f -> k' <= k) /\
          Dict.get kfs k = Some zs /\
          KeyframeManager.get_zones_at_frame kfs f = Py.Ok zs)
      \/ ((forall k, k ∈ Dict.keys kfs -> f < k) /\
          KeyframeManager.get_zones_at_frame kfs f = Py.Ok []))
  /\ (forall keyframes f,
      Processor.get_zones_at_frame keyframes f
      = (kf_dict ← Processor.int_keyed keyframes;
         zs ← KeyframeManager.get_zones_at_frame kf_dict f;
         Py.Ok (map zone_tuple zs)))
  /\ (forall (kfs : list (Z * list zone)) f,
      Dict.wf kfs ->
      Processor.get_zones_at_frame (worker_keyframes kfs) f
      = (zs ← KeyframeManager.get_zones_at_frame kfs f;
         Py.Ok (map zone_tuple zs)))
  /\ (forall (Zone : Type) (A B : Zone),
      KeyframeManager.get_zones_at_frame [(0, [A]); (10, [B])] 5 = Py.Ok [A] /\
      KeyframeManager.get_zones_at_frame [(0, [A]); (10, [B])] 15 = Py.Ok [B] /\
      KeyframeManager.get_zones_at_frame [(0, [A]); (10, [B])] 0 = Py.Ok [A]).
Proof.
  split_and!.
  - intros Zone kfs f. apply get_zones_at_frame_spec.
  - apply processor_get_zones_at_frame_eq.
  - intros kfs f Hwf. rewrite processor_get_zones_at_frame_eq.
    by rewrite int_keyed_worker_keyframes.
  - intros Zone A B. by vm_compute.
Qed.

Lemma zones_at_frame_is_greatest_keyframe_witness :
  Dict.wf [(0, [TupleZone 1 2 3 4]); (10, [ListZone 5 6 7 8])] /\
  Processor.get_zones_at_frame
    (worker_keyframes [(0, [TupleZone 1 2 3 4]); (10, [ListZone 5 6 7 8])]) 15
  = Py.Ok [TupleZone 5 6 7 8].
Proof.
  assert (Dict.wf [(0, [TupleZone 1 2 3 4]); (10, [ListZone 5 6 7 8])]) as Hwf.
  { unfold Dict.wf, Dict.keys. cbn [map fst].
    apply (bool_decide_unpack _). vm_compute. exact I. }
  split; [exact Hwf|].
  rewrite (proj1 (proj2 (proj2 zones_at_frame_is_greatest_keyframe)) _ 15 Hwf).
  reflexivity.
Defined.

(* ===================================================================== *)
(** * Persistence of the timeline                                         *)
(* ===================================================================== *)

Lemma json_zone_round_trip (z : zone) :
  Json.load (Json.dump (zone_value z)) = zone_value (zone_list z).
Proof. by destruct z. Qed.

Lemma json_zones_round_trip (zs : list zone) :
  Json.load (Json.dump (Py.VList (map zone_value zs)))
  = Py.VList (map zone_value (map zone_list zs)).
Proof.
  cbn. f_equal. rewrite !map_map. apply map_ext. intros z.
  apply json_zone_round_trip.
Qed.

Lemma timeline_value_keys kfs :
  Dict.keys (KeyframeManager.timeline_value kfs) = Dict.keys kfs.
Proof.
  unfold KeyframeManager.timeline_value, Dict.keys. rewrite map_map.
  by apply map_ext.
Qed.

Lemma timeline_value_wf kfs :
  Dict.wf kfs -> Dict.wf (KeyframeManager.timeline_value kfs).
Proof. unfold Dict.wf. by rewrite timeline_value_keys. Qed.

(** What [json.load] returns for the document written for a timeline: the
    same dict, with every zone as a list. *)
Lemma json_timeline_round_trip (kfs : list (Z * list zone)) :
  Dict.wf kfs ->
  Json.load (Json.dump (Py.VDict
     (KeyframeManager.to_dict (KeyframeManager.timeline_value kfs))))
  = Py.VDict (KeyframeManager.to_dict
                (KeyframeManager.timeline_value (as_lists kfs))).
Proof.
  intros Hwf.
  assert (Dict.wf (as_lists kfs)) as Hwf'.
  { unfold Dict.wf, as_lists, Dict.keys. rewrite map_map. exact Hwf. }
  rewrite !to_dict_map by (by apply timeline_value_wf).
  cbn. f_equal. rewrite !map_map. cbn.
  rewrite (dict_comprehension_map (fun s : string => s)).
  - cbn. unfold KeyframeManager.timeline_value, as_lists. rewrite !map_map.
    cbn. apply map_ext. intros [k zs]. cbn. f_equal. f_equal.
    rewrite !map_map. apply map_ext. intros z. apply json_zone_round_trip.
  - cbn. rewrite map_id. unfold Dict.keys. rewrite !map_map. cbn.
    unfold KeyframeManager.timeline_value. rewrite map_map. cbn.
    apply (NoDup_fmap_2 Py.str) in Hwf.
    unfold Dict.keys in Hwf. rewrite map_map in Hwf. exact Hwf.
Qed.

Lemma save_then_load_eq kfs before video_path (fs : gmap string file) :
  Dict.wf kfs ->
  fs !! KeyframeManager.zones_path video_path ≠ Some FLocked ->
  KeyframeManager.save_to_file (KeyframeManager.timeline_value kfs) video_path fs
    = (Py.Ok (KeyframeManager.zones_path video_path),
       <[KeyframeManager.zones_path video_path :=
           FJson (Json.dump (Py.VDict (KeyframeManager.to_dict
                    (KeyframeManager.timeline_value kfs))))]> fs)
  /\ save_then_load kfs before video_path fs
     = (Py.Ok true, KeyframeManager.timeline_value (as_lists kfs)).
Proof.
  intros Hwf Hlock.
  assert (KeyframeManager.save_to_file (KeyframeManager.timeline_value kfs)
            video_path fs
          = (Py.Ok (KeyframeManager.zones_path video_path),
             <[KeyframeManager.zones_path video_path :=
                 FJson (Json.dump (Py.VDict (KeyframeManager.to_dict
                    (KeyframeManager.timeline_value kfs))))]> fs)) as Hsave.
  { unfold KeyframeManager.save_to_file.
    destruct (fs !! KeyframeManager.zones_path video_path) as [[]|]; done. }
  split; [exact Hsave|].
  unfold save_then_load. rewrite Hsave. cbn [snd].
  unfold KeyframeManager.load_from_file, KeyframeManager.read_json.
  rewrite lookup_insert_eq.
  rewrite bool_decide_eq_true_2 by eauto.
  rewrite json_timeline_round_trip by done. cbn.
  rewrite from_dict_to_dict; [done|].
  apply timeline_value_wf. unfold Dict.wf, as_lists, Dict.keys.
  rewrite map_map. exact Hwf.
Qed.

Lemma as_lists_coordinates kfs : coordinates (as_lists kfs) = coordinates kfs.
Proof.
  unfold coordinates, as_lists. rewrite map_map. apply map_ext.
  intros [k zs]. cbn. f_equal. rewrite map_map. apply map_ext. by intros [].
Qed.

Lemma as_lists_id kfs :
  Forall (fun kv => Forall (fun z => zone_list z = z) (snd kv)) kfs ->
  as_lists kfs = kfs.
Proof.
  induction 1 as [|[k zs] kfs Hzs _ IH]; cbn; [done|].
  unfold as_lists in IH. rewrite IH. do 2 f_equal. cbn in Hzs.
  induction Hzs as [|z zs Hz _ IHz]; cbn; [done|]. by rewrite Hz, IHz.
Qed.

Lemma zone_value_inj z1 z2 : zone_value z1 = zone_value z2 -> z1 = z2.
Proof. destruct z1, z2; cbn; congruence. Qed.

Lemma timeline_value_inj kfs1 kfs2 :
  KeyframeManager.timeline_value kfs1 = KeyframeManager.timeline_value kfs2 ->
  kfs1 = kfs2.
Proof.
  revert kfs2. induction kfs1 as [|[k1 zs1] kfs1 IH]; intros [|[k2 zs2] kfs2];
    cbn; try done.
  intros [= -> Hzs Hrest]. f_equal; [|by apply IH]. f_equal.
  revert zs2 Hzs. induction zs1 as [|z1 zs1 IHz]; intros [|z2 zs2]; cbn;
    try done.
  intros [= Hz Hzs]. f_equal; [by apply zone_value_inj | by apply IHz].
Qed.

Lemma as_lists_fixed kfs :
  as_lists kfs = kfs ->
  Forall (fun kv => Forall (fun z => zone_list z = z) (snd kv)) kfs.
Proof.
  induction kfs as [|[k zs] kfs IH]; cbn; [constructor|].
  intros [= Hzs Hrest]. constructor; [|by apply IH]. cbn.
  induction zs as [|z zs IHz]; cbn in *; [constructor|].
  injection Hzs as Hz Hzs. constructor; [done | by apply IHz].
Qed.

(** C7, as the code has it. For every timeline (a dict of frame numbers,
    each with its list of zones) and every writable sidecar path: saving
    succeeds, loading then returns True, and the loaded timeline has the
    same keys in the same order and under each key the same zones with the
    same coordinates, every zone being a list afterwards. It is equal to
    the original exactly when the zones of the original are lists
    already. *)
Theorem save_load_round_trip_up_to_lists
    (kfs : list (Z * list zone)) (before : list (Z * Py.value))
    (video_path : string) (fs : gmap string file) :
  Dict.wf kfs ->
  fs !! KeyframeManager.zones_path video_path ≠ Some FLocked ->
  save_then_load kfs before video_path fs
    = (Py.Ok true, KeyframeManager.timeline_value (as_lists kfs))
  /\ Dict.keys (as_lists kfs) = Dict.keys kfs
  /\ coordinates (as_lists kfs) = coordinates kfs
  /\ (save_then_load kfs before video_path fs
        = (Py.Ok true, KeyframeManager.timeline_value kfs)
      <-> Forall (fun kv => Forall (fun z => zone_list z = z) (snd kv)) kfs).
Proof.
  intros Hwf Hlock.
  destruct (save_then_load_eq kfs before video_path fs Hwf Hlock) as [_ Hload].
  split_and!.
  - exact Hload.
  - unfold as_lists, Dict.keys. by rewrite map_map.
  - apply as_lists_coordinates.
  - rewrite Hload. split.
    + intros [= Heq]. by apply as_lists_fixed, timeline_value_inj.
    + intros Hlists. by rewrite as_lists_id.
Qed.

Lemma save_load_round_trip_up_to_lists_witness :
  save_then_load [(0, [TupleZone 1 2 3 4]); (7, [ListZone 5 6 7 8])] []
                 "clip.mp4" ∅
  = (Py.Ok true,
     KeyframeManager.timeline_value
       [(0, [ListZone 1 2 3 4]); (7, [ListZone 5 6 7 8])]).
Proof.
  refine (proj1 (save_load_round_trip_up_to_lists
                   [(0, [TupleZone 1 2 3 4]); (7, [ListZone 5 6 7 8])] []
                   "clip.mp4" ∅ _ _)).
  - unfold Dict.wf, Dict.keys. cbn [map fst].
    apply (bool_decide_unpack _). vm_compute. exact I.
  - rewrite lookup_empty. discriminate.
Defined.

(** C7, counterexample. The timeline {0: [(1, 2, 3, 4)]}, as the canvas
    makes it, is saved and loaded: what is loaded is {0: [[1, 2, 3, 4]]},
    which is not equal to what was saved. *)
Lemma save_load_not_equal_for_tuples :
  save_then_load [(0, [TupleZone 1 2 3 4])] [] "clip.mp4" ∅
    = (Py.Ok true,
       [(0, Py.VList [Py.VList [Py.VInt 1; Py.VInt 2; Py.VInt 3; Py.VInt 4]])])
  /\ snd (save_then_load [(0, [TupleZone 1 2 3 4])] [] "clip.mp4" ∅)
     <> KeyframeManager.timeline_value [(0, [TupleZone 1 2 3 4])].
Proof. split; [by vm_compute | vm_compute; discriminate]. Qed.

(** ** Loading what is not a timeline *)

Lemma keys_fold_set {K V} `{EqDecision K} (l acc : list (K * V)) k :
  k ∈ Dict.keys (fold_left (fun d kv => Dict.set d (fst kv) (snd kv)) l acc)
  <-> k ∈ Dict.keys acc \/ k ∈ map fst l.
Proof.
  revert acc. induction l as [|[k0 v0] l IH]; intros acc;
    cbn [fold_left map fst snd].
  - split; [by left | intros [H|H]; [done | by apply elem_of_nil in H]].
  - rewrite IH, dict_keys_set.
    case_decide as Hin; rewrite ?elem_of_app, ?list_elem_of_singleton, elem_of_cons.
    + split; [intros [H|H]; auto|]. intros [H|[H|H]]; subst; auto.
    + split; [intros [[H|H]|H]; subst; auto|]. intros [H|[H|H]]; subst; auto.
Qed.

Lemma from_dict_raises {V} (data : list (string * V)) (acc : list (Z * V)) k :
  k ∈ Dict.keys data -> Py.int_opt k = None ->
  Py.foldM (fun d kv => k ← Py.int (fst kv); Py.Ok (Dict.set d k (snd kv)))
           data acc
  = Py.Raise (Py.ValueError "invalid literal for int() with base 10").
Proof.
  intros Hin Hk. revert acc. induction data as [|[k0 v0] data IH]; intros acc.
  - by apply elem_of_nil in Hin.
  - cbn. unfold Py.int at 1. destruct (Py.int_opt k0) as [z|] eqn:Hk0; [|done].
    cbn. apply IH. cbn in Hin. apply elem_of_cons in Hin as [->|Hin]; [|done].
    congruence.
Qed.

Lemma from_dict_ok {V} (data : list (string * V)) :
  (forall k, k ∈ Dict.keys data -> is_Some (Py.int_opt k)) ->
  exists kfs, KeyframeManager.from_dict data = Py.Ok kfs.
Proof.
  intros Hkeys. unfold KeyframeManager.from_dict.
  rewrite (dict_comprehension_foldM _ (fun s => default 0 (Py.int_opt s)));
    [eauto|].
  intros k Hk. destruct (Hkeys k Hk) as [z Hz]. unfold Py.int. by rewrite Hz.
Qed.

Lemma load_from_file_at kfs video_path (fs : gmap string file) content :
  fs !! KeyframeManager.zones_path video_path = Some content ->
  KeyframeManager.load_from_file kfs video_path fs
  = match (data ← match content with
                  | FLocked => Py.Raise Py.OSError
                  | FJson doc => Py.Ok (Json.load doc)
                  | FText _ => Py.Raise Py.JSONDecodeError
                  | FBinary | FVideo _ => Py.Raise Py.UnicodeDecodeError
                  end;
           its ← KeyframeManager.items data;
           KeyframeManager.from_dict its) with
    | Py.Ok kfs' => (Py.Ok true, kfs')
    | Py.Raise e =>
        if Py.is_JSONDecodeError e || Py.is_OSError e
        then (Py.Ok false, kfs)
        else (Py.Raise e, kfs)
    end.
Proof.
  intros Hc. unfold KeyframeManager.load_from_file, KeyframeManager.read_json.
  rewrite Hc. by rewrite bool_decide_eq_true_2 by eauto.
Qed.

(** C8, what the code does. A missing file, a file that cannot be opened
    and a file that is not JSON give False and leave the timeline as it
    was. But a JSON document that is not an object raises AttributeError
    to the caller, a JSON object with a key that int() rejects raises
    ValueError, and a file that is not text raises UnicodeDecodeError (the
    timeline is unchanged in these cases too); and a JSON object whose
    keys are all numbers is loaded with True whatever its values are. The
    instances: {"abc": []} raises ValueError, [] raises AttributeError,
    {"3": 5} gives True and the timeline {3: 5}. *)
Theorem load_from_file_raises_on_malformed_documents
    (kfs : list (Z * Py.value)) (video_path : string)
    (fs : gmap string file) :
  let sidecar := KeyframeManager.zones_path video_path in
  let load := KeyframeManager.load_from_file kfs video_path fs in
  (fs !! sidecar = None -> load = (Py.Ok false, kfs))
  /\ (fs !! sidecar = Some FLocked -> load = (Py.Ok false, kfs))
  /\ (forall text, fs !! sidecar = Some (FText text) ->
        load = (Py.Ok false, kfs))
  /\ (fs !! sidecar = Some FBinary ->
        load = (Py.Raise Py.UnicodeDecodeError, kfs))
  /\ (forall doc, fs !! sidecar = Some (FJson doc) ->
        (forall members, doc <> Json.JObject members) ->
        load = (Py.Raise Py.AttributeError, kfs))
  /\ (forall members k, fs !! sidecar = Some (FJson (Json.JObject members)) ->
        k ∈ map fst members -> Py.int_opt k = None ->
        load = (Py.Raise (Py.ValueError "invalid literal for int() with base 10"),
                kfs))
  /\ (forall members, fs !! sidecar = Some (FJson (Json.JObject members)) ->
        (forall k, k ∈ map fst members -> is_Some (Py.int_opt k)) ->
        exists kfs', load = (Py.Ok true, kfs'))
  /\ KeyframeManager.load_from_file kfs video_path
        {[ sidecar := FJson (Json.JObject [("abc", Json.JArray [])]) ]}
      = (Py.Raise (Py.ValueError "invalid literal for int() with base 10"), kfs)
  /\ KeyframeManager.load_from_file kfs video_path
        {[ sidecar := FJson (Json.JArray []) ]}
      = (Py.Raise Py.AttributeError, kfs)
  /\ KeyframeManager.load_from_file kfs video_path
        {[ sidecar := FJson (Json.JObject [("3", Json.JInt 5)]) ]}
      = (Py.Ok true, [(3, Py.VInt 5)]).
Proof.
  cbn zeta. split_and!.
  - intros Hc. unfold KeyframeManager.load_from_file. rewrite Hc.
    by rewrite bool_decide_eq_false_2 by (intros [? [=]]).
  - intros Hc. by rewrite (load_from_file_at _ _ _ _ Hc).
  - intros text Hc. by rewrite (load_from_file_at _ _ _ _ Hc).
  - intros Hc. by rewrite (load_from_file_at _ _ _ _ Hc).
  - intros doc Hc Hobj. rewrite (load_from_file_at _ _ _ _ Hc).
    destruct doc; try done. by destruct (Hobj members).
  - intros members k Hc Hin Hk. rewrite (load_from_file_at _ _ _ _ Hc).
    cbn. unfold KeyframeManager.from_dict.
    rewrite (from_dict_raises _ _ k); [done| |done].
    apply keys_fold_set. right. by rewrite map_map.
  - intros members Hc Hkeys. rewrite (load_from_file_at _ _ _ _ Hc). cbn.
    destruct (from_dict_ok
                (fold_left (fun d kv => Dict.set d (fst kv) (snd kv))
                   (map (fun kv => (fst kv, Json.load (snd kv))) members) []))
      as [kfs' ->]; [|eauto].
    intros k Hk. apply keys_fold_set in Hk as [Hk|Hk].
    + by apply elem_of_nil in Hk.
    + rewrite map_map in Hk. by apply Hkeys.
  - by rewrite (load_from_file_at _ _ _ _ (lookup_singleton_eq _ _)).
  - by rewrite (load_from_file_at _ _ _ _ (lookup_singleton_eq _ _)).
  - by rewrite (load_from_file_at _ _ _ _ (lookup_singleton_eq _ _)).
Qed.

Lemma load_from_file_raises_on_malformed_documents_witness :
  KeyframeManager.load_from_file [(0, Py.VList [])] "clip.mp4"
    {[ KeyframeManager.zones_path "clip.mp4"
       := FJson (Json.JObject [("0", Json.JArray []); ("x1", Json.JArray [])]) ]}
  = (Py.Raise (Py.ValueError "invalid literal for int() with base 10"),
     [(0, Py.VList [])]).
Proof.
  refine (proj1 (proj2 (proj2 (proj2 (proj2 (proj2
            (load_from_file_raises_on_malformed_documents
               [(0, Py.VList [])] "clip.mp4"
               {[ KeyframeManager.zones_path "clip.mp4"
                  := FJson (Json.JObject
                       [("0", Json.JArray []); ("x1", Json.JArray [])]) ]}))))))
            [("0", Json.JArray []); ("x1", Json.JArray [])] "x1" _ _ _).
  - reflexivity.
  - cbn. right. left.
  - reflexivity.
Defined.

(* ===================================================================== *)
(** * Masks                                                               *)
(* ===================================================================== *)

Section Arrays.
Context {A : Type}.
Implicit Types (a : list (list A)).

Lemma has_shape_entry a rows cols r c :
  has_shape rows cols a -> (r < rows)%nat -> (c < cols)%nat ->
  is_Some (entry a r c).
Proof.
  intros [Hlen Hrows] Hr Hc. unfold entry.
  destruct (lookup_lt_is_Some_2 a r) as [row Hrow]; [lia|].
  rewrite Hrow. cbn. apply lookup_lt_is_Some_2.
  rewrite Forall_lookup in Hrows. rewrite (Hrows _ _ Hrow). lia.
Qed.

Lemma entry_bounds a rows cols r c x :
  has_shape rows cols a -> entry a r c = Some x ->
  (r < rows)%nat /\ (c < cols)%nat.
Proof.
  intros [Hlen Hrows] He. unfold entry in He.
  destruct (a !! r) as [row|] eqn:Hrow; [|done]. cbn in He.
  rewrite Forall_lookup in Hrows. pose proof (Hrows _ _ Hrow) as Hl.
  apply lookup_lt_Some in Hrow, He. lia.
Qed.

(** An array computed entry by entry from the indices and old entries. *)
Lemma has_shape_imap {B} (f : nat -> list A -> nat -> A -> B) a rows cols :
  has_shape rows cols a ->
  has_shape rows cols (imap (fun r row => imap (f r row) row) a).
Proof.
  intros [Hlen Hrows]. split; [by rewrite length_imap|].
  apply Forall_lookup. intros i row' Hi.
  rewrite list_lookup_imap in Hi.
  destruct (a !! i) as [row|] eqn:Hrow; [|done]. cbn in Hi.
  injection Hi as <-. rewrite length_imap.
  rewrite Forall_lookup in Hrows. eauto.
Qed.

Lemma entry_imap {B} (f : nat -> list A -> nat -> A -> B) a r c :
  entry (imap (fun r row => imap (f r row) row) a) r c
  = row ← a !! r; f r row c <$> row !! c.
Proof.
  unfold entry. rewrite list_lookup_imap.
  destruct (a !! r) as [row|]; [|done]. cbn. by rewrite list_lookup_imap.
Qed.
End Arrays.

Lemma at_entry (m : list (list Z)) (r c : nat) :
  Np.at_ m (Z.of_nat r) (Z.of_nat c) = default 0 (entry m r c).
Proof.
  unfold Np.at_, entry.
  do 2 (case Z.ltb_spec; [lia | intros _]). cbn.
  by rewrite !Nat2Z.id.
Qed.

(** [np.any(mask > 0)] holds exactly when some entry is positive. *)
Lemma any_positive_true (m : list (list Z)) :
  Np.any_positive m = true <-> exists r c p, entry m r c = Some p /\ 0 < p.
Proof.
  unfold Np.any_positive. rewrite existsb_exists. split.
  - intros (row & Hrow & Hex). apply existsb_exists in Hex as (p & Hp & Hpos).
    apply list_elem_of_In, list_elem_of_lookup in Hrow as [r Hr].
    apply list_elem_of_In, list_elem_of_lookup in Hp as [c Hc].
    exists r, c, p. unfold entry. rewrite Hr. cbn. split; [done | lia].
  - intros (r & c & p & He & Hpos). unfold entry in He.
    destruct (m !! r) as [row|] eqn:Hr; cbn in He; [|done].
    exists row. split; [eapply list_elem_of_In, list_elem_of_lookup_2; eauto|].
    apply existsb_exists. exists p.
    split; [eapply list_elem_of_In, list_elem_of_lookup_2; eauto | lia].
Qed.

Lemma any_positive_false (m : list (list Z)) :
  Np.any_positive m = false <-> forall r c p, entry m r c = Some p -> p <= 0.
Proof.
  rewrite <- not_true_iff_false, any_positive_true. split.
  - intros Hno r c p He. destruct (decide (p <= 0)); [done|].
    exfalso. apply Hno. exists r, c, p. split; [done | lia].
  - intros Hall (r & c & p & He & Hpos). specialize (Hall _ _ _ He). lia.
Qed.

(** ** [np.zeros] and painting *)

Lemma zeros_ok (height width : Z) :
  0 <= height -> 0 <= width ->
  Np.zeros height width
  = Py.Ok (replicate (Z.to_nat height) (replicate (Z.to_nat width) 0)).
Proof.
  intros Hh Hw. unfold Np.zeros.
  by do 2 (case Z.ltb_spec; [lia | intros _]).
Qed.

Lemma zeros_shape rows cols :
  has_shape rows cols (replicate rows (replicate cols 0)).
Proof.
  split; [by rewrite length_replicate|].
  apply Forall_replicate. by rewrite length_replicate.
Qed.

Lemma zeros_entry rows cols r c p :
  entry (replicate rows (replicate cols 0)) r c = Some p -> p = 0.
Proof.
  unfold entry. intros He.
  destruct (replicate rows _ !! r) as [row|] eqn:Hr; cbn in He; [|done].
  apply lookup_replicate in Hr as [-> _].
  by apply lookup_replicate in He as [-> _].
Qed.

Lemma fill_shape (m : list (list Z)) rows cols y1 y2 x1 x2 v :
  has_shape rows cols m -> has_shape rows cols (Np.fill m y1 y2 x1 x2 v).
Proof. intros H. unfold Np.fill. by apply (has_shape_imap (fun r row c p => _)). Qed.

Lemma slice_bound_id i n : 0 <= i <= n -> Np.slice_bound i n = i.
Proof. intros H. unfold Np.slice_bound. case Z.ltb_spec; lia. Qed.

(** Painting a rectangle whose bounds lie in the array. *)
Lemma fill_entry (m : list (list Z)) rows cols y1 y2 x1 x2 v r c :
  has_shape rows cols m ->
  0 <= y1 <= Z.of_nat rows -> 0 <= y2 <= Z.of_nat rows ->
  0 <= x1 <= Z.of_nat cols -> 0 <= x2 <= Z.of_nat cols ->
  entry (Np.fill m y1 y2 x1 x2 v) r c
  = (fun p => if (y1 <=? Z.of_nat r) && (Z.of_nat r <? y2)
                 && (x1 <=? Z.of_nat c) && (Z.of_nat c <? x2)
              then v else p) <$> entry m r c.
Proof.
  intros [Hlen Hrows] Hy1 Hy2 Hx1 Hx2. unfold Np.fill.
  rewrite (entry_imap (fun r row c p => _)). unfold entry.
  destruct (m !! r) as [row|] eqn:Hr; [|done]. cbn.
  rewrite Forall_lookup in Hrows. rewrite (Hrows _ _ Hr), Hlen.
  by rewrite !slice_bound_id by lia.
Qed.

Lemma paint_zone_shape width height (m : list (list Z)) z :
  has_shape (Z.to_nat height) (Z.to_nat width) m ->
  has_shape (Z.to_nat height) (Z.to_nat width) (Processor.paint_zone width height m z).
Proof.
  intros H. unfold Processor.paint_zone. destruct (zone_coords z) as [[[x1 y1] x2] y2].
  by apply fill_shape.
Qed.

(** Painting a zone sets the entries of its padded rectangle to 255 and
    leaves the others. *)
Lemma paint_zone_entry width height (m : list (list Z)) z r c :
  0 < width -> 0 < height -> zone_ok width height z ->
  has_shape (Z.to_nat height) (Z.to_nat width) m ->
  entry (Processor.paint_zone width height m z) r c
  = (fun p => if in_padded width height (Z.of_nat r) (Z.of_nat c) z
              then 255 else p) <$> entry m r c.
Proof.
  intros Hw Hh Hok Hm.
  unfold Processor.paint_zone, in_padded, in_grown, zone_ok in *.
  destruct (zone_coords z) as [[[x1 y1] x2] y2].
  apply (fill_entry _ (Z.to_nat height) (Z.to_nat width)); [done | lia..].
Qed.

Lemma painted_shape width height zones (m : list (list Z)) :
  has_shape (Z.to_nat height) (Z.to_nat width) m ->
  has_shape (Z.to_nat height) (Z.to_nat width)
            (fold_left (Processor.paint_zone width height) zones m).
Proof.
  revert m. induction zones as [|z zones IH]; intros m Hm; cbn; [done|].
  by apply IH, paint_zone_shape.
Qed.

(** The raster after all zones are painted: 255 where some padded
    rectangle covers the entry, the old entry elsewhere. *)
Lemma painted_entry width height zones (m : list (list Z)) r c :
  0 < width -> 0 < height -> Forall (zone_ok width height) zones ->
  has_shape (Z.to_nat height) (Z.to_nat width) m ->
  entry (fold_left (Processor.paint_zone width height) zones m) r c
  = (fun p => if existsb (in_padded width height (Z.of_nat r) (Z.of_nat c)) zones
              then 255 else p) <$> entry m r c.
Proof.
  intros Hw Hh Hok. revert m.
  induction Hok as [|z zones Hz _ IH]; intros m Hm; cbn.
  - by destruct (entry m r c).
  - rewrite IH by (by apply paint_zone_shape).
    rewrite paint_zone_entry by done.
    destruct (entry m r c) as [p|]; cbn; [|done].
    by destruct (in_padded _ _ _ _ z), (existsb _ zones).
Qed.

(** ** Dilation *)

Lemma dilate_once_shape offsets (m : list (list Z)) rows cols :
  has_shape rows cols m -> has_shape rows cols (Cv2.dilate_once offsets m).
Proof.
  intros H. unfold Cv2.dilate_once.
  by apply (has_shape_imap (fun r row c p => _)).
Qed.

Lemma dilate_once_entry offsets (m : list (list Z)) r c :
  entry (Cv2.dilate_once offsets m) r c
  = (fun _ => fold_left Z.max
       (map (fun d => Np.at_ m (Z.of_nat r + fst d) (Z.of_nat c + snd d)) offsets) 0)
    <$> entry m r c.
Proof.
  unfold Cv2.dilate_once. rewrite (entry_imap (fun r row c p => _)).
  unfold entry. by destruct (m !! r).
Qed.

Lemma dilate_shape (m kernel : list (list Z)) n rows cols :
  has_shape rows cols m -> has_shape rows cols (Cv2.dilate m kernel n).
Proof.
  intros H. unfold Cv2.dilate. induction n as [|n IH]; cbn; [done|].
  by apply dilate_once_shape.
Qed.

Lemma all_zero_at (m : list (list Z)) r c : all_zero m -> Np.at_ m r c = 0.
Proof.
  intros Hz. unfold Np.at_. destruct ((r <? 0) || (c <? 0)); [done|].
  change (default 0 (entry m (Z.to_nat r) (Z.to_nat c)) = 0).
  destruct (entry m (Z.to_nat r) (Z.to_nat c)) as [p|] eqn:He; cbn; [|done].
  eauto.
Qed.

Lemma fold_left_max_zero (xs : list Z) :
  Forall (fun x => x = 0) xs -> fold_left Z.max xs 0 = 0.
Proof. induction 1 as [|x xs -> _ IH]; cbn; done. Qed.

Lemma dilate_once_all_zero offsets (m : list (list Z)) :
  all_zero m -> all_zero (Cv2.dilate_once offsets m).
Proof.
  intros Hz r c p. rewrite dilate_once_entry.
  destruct (entry m r c); cbn; [|done]. intros [= <-].
  apply fold_left_max_zero, Forall_forall. intros x Hx.
  apply list_elem_of_fmap in Hx as (d & -> & _).
  by apply all_zero_at.
Qed.

Lemma dilate_all_zero (m kernel : list (list Z)) n :
  all_zero m -> all_zero (Cv2.dilate m kernel n).
Proof.
  intros H. unfold Cv2.dilate. induction n as [|n IH]; cbn; [done|].
  by apply dilate_once_all_zero.
Qed.

(** A pass whose structuring element holds its own centre never lowers an
    entry. *)
Lemma dilate_once_grows offsets (m : list (list Z)) r c p :
  (0, 0) ∈ offsets -> entry m r c = Some p ->
  exists q, entry (Cv2.dilate_once offsets m) r c = Some q /\ p <= q.
Proof.
  intros H0 He. rewrite dilate_once_entry, He. cbn. eexists. split; [done|].
  apply (fold_left_max_spec _ 0). right.
  apply list_elem_of_fmap. exists (0, 0). split; [|done]. cbn.
  by rewrite !Z.add_0_r, at_entry, He.
Qed.

Lemma dilate_grows (m kernel : list (list Z)) n r c p :
  (0, 0) ∈ Cv2.kernel_offsets kernel -> entry m r c = Some p ->
  exists q, entry (Cv2.dilate m kernel n) r c = Some q /\ p <= q.
Proof.
  intros H0 He. unfold Cv2.dilate. induction n as [|n (q & Hq & Hle)]; cbn.
  - exists p. split; [done | lia].
  - destruct (dilate_once_grows _ _ _ _ _ H0 Hq) as (q' & Hq' & Hle').
    exists q'. split; [done | lia].
Qed.

Lemma centre_in_5x5 : (0, 0) ∈ Cv2.kernel_offsets (Np.ones 5 5).
Proof. vm_compute. do 12 right. left. Qed.

(** ** Dilation of marked rectangles *)

Lemma offsets_5x5 d1 d2 :
  (d1, d2) ∈ Cv2.kernel_offsets (Np.ones 5 5)
  <-> -2 <= d1 <= 2 /\ -2 <= d2 <= 2.
Proof.
  set (offsets := Cv2.kernel_offsets (Np.ones 5 5)).
  vm_compute in offsets. subst offsets. split.
  - intros H.
    repeat (apply elem_of_cons in H as [H|H]; [injection H as -> ->; lia|]).
    by apply elem_of_nil in H.
  - intros [H1 H2].
    assert (d1 = -2 \/ d1 = -1 \/ d1 = 0 \/ d1 = 1 \/ d1 = 2) as Hd1 by lia.
    assert (d2 = -2 \/ d2 = -1 \/ d2 = 0 \/ d2 = 1 \/ d2 = 2) as Hd2 by lia.
    destruct Hd1 as [->|[->|[->|[->| ->]]]];
      destruct Hd2 as [->|[->|[->|[->| ->]]]];
      repeat constructor.
Qed.

Lemma fold_left_max_marks (xs : list Z) :
  Forall (fun x => x = 0 \/ x = 255) xs ->
  fold_left Z.max xs 0 = if bool_decide (255 ∈ xs) then 255 else 0.
Proof.
  intros Hxs. destruct (fold_left_max_spec xs 0) as [Hin Hub].
  rewrite Forall_forall in Hxs.
  assert (fold_left Z.max xs 0 = 0
          \/ (fold_left Z.max xs 0 = 255 /\ 255 ∈ xs)) as Hm.
  { apply elem_of_cons in Hin as [Hin|Hin]; [by left|].
    destruct (Hxs _ Hin) as [H0|H255]; [by left|].
    right. split; [done|]. by rewrite <- H255. }
  case_bool_decide as H255.
  - assert (255 <= fold_left Z.max xs 0) by (apply Hub; by right).
    destruct Hm as [Hm|[Hm _]]; lia.
  - destruct Hm as [Hm|[_ Hm]]; done.
Qed.

(** A grown rectangle lies in the frame. *)
Lemma in_grown_range pad width height r c z :
  in_grown pad width height r c z = true ->
  0 <= r < height /\ 0 <= c < width.
Proof.
  unfold in_grown. destruct (zone_coords z) as [[[x1 y1] x2] y2].
  rewrite !andb_true_iff, !Z.leb_le, !Z.ltb_lt. lia.
Qed.

Lemma existsb_in_grown_range pad width height r c zones :
  existsb (in_grown pad width height r c) zones = true ->
  0 <= r < height /\ 0 <= c < width.
Proof.
  intros H. apply existsb_exists in H as (z & _ & Hz).
  by apply in_grown_range in Hz.
Qed.

(** Reading a marked raster at any position, inside the frame or not. *)
Lemma marks_at pad width height zones (m : list (list Z)) r c :
  marks pad width height zones m ->
  Np.at_ m r c = if existsb (in_grown pad width height r c) zones then 255 else 0.
Proof.
  intros [Hshape Hentries].
  destruct (decide (0 <= r < height /\ 0 <= c < width)) as [Hin|Hout].
  - replace r with (Z.of_nat (Z.to_nat r)) by lia.
    replace c with (Z.of_nat (Z.to_nat c)) by lia.
    rewrite at_entry, Hentries by lia. done.
  - destruct (existsb _ zones) eqn:Hex.
    { apply existsb_in_grown_range in Hex. lia. }
    unfold Np.at_. destruct ((r <? 0) || (c <? 0)) eqn:Hneg; [done|].
    apply orb_false_iff in Hneg as [Hr Hc].
    apply Z.ltb_ge in Hr, Hc.
    change (default 0 (entry m (Z.to_nat r) (Z.to_nat c)) = 0).
    destruct (entry m (Z.to_nat r) (Z.to_nat c)) as [p|] eqn:He; [|done].
    apply (entry_bounds _ _ _ _ _ _ Hshape) in He. lia.
Qed.

(** Moving by at most 2 from a grown rectangle stays in the rectangle grown
    by 2 more, inside the frame. *)
Lemma in_grown_near pad width height r c d1 d2 z :
  -2 <= d1 <= 2 -> -2 <= d2 <= 2 ->
  0 <= r < height -> 0 <= c < width ->
  in_grown pad width height (r + d1) (c + d2) z = true ->
  in_grown (pad + 2) width height r c z = true.
Proof.
  unfold in_grown. destruct (zone_coords z) as [[[x1 y1] x2] y2].
  rewrite !andb_true_iff, !Z.leb_le, !Z.ltb_lt. lia.
Qed.

(** And every position of the rectangle grown by 2 more is within 2 of the
    grown rectangle. *)
Lemma in_grown_reach pad width height r c z :
  0 <= pad -> zone_ok width height z ->
  in_grown (pad + 2) width height r c z = true ->
  exists d1 d2, -2 <= d1 <= 2 /\ -2 <= d2 <= 2 /\
    in_grown pad width height (r + d1) (c + d2) z = true.
Proof.
  unfold in_grown, zone_ok. destruct (zone_coords z) as [[[x1 y1] x2] y2].
  rewrite !andb_true_iff, !Z.leb_le, !Z.ltb_lt. intros Hpad Hok Hin.
  exists (Z.max (Z.max 0 (y1 - pad)) (Z.min r (Z.min height (y2 + pad) - 1)) - r),
         (Z.max (Z.max 0 (x1 - pad)) (Z.min c (Z.min width (x2 + pad) - 1)) - c).
  rewrite !andb_true_iff, !Z.leb_le, !Z.ltb_lt. lia.
Qed.

(** One 5x5 pass grows every marked rectangle by 2 pixels. *)
Lemma dilate_once_marks pad width height zones (m : list (list Z)) :
  0 <= pad -> Forall (zone_ok width height) zones ->
  marks pad width height zones m ->
  marks (pad + 2) width height zones
        (Cv2.dilate_once (Cv2.kernel_offsets (Np.ones 5 5)) m).
Proof.
  intros Hpad Hok Hm. pose proof Hm as [Hshape Hentries].
  split; [by apply dilate_once_shape|].
  intros r c Hr Hc. rewrite dilate_once_entry.
  destruct (has_shape_entry m _ _ r c Hshape Hr Hc) as [p ->].
  cbn [fmap option_fmap option_map]. f_equal.
  rewrite fold_left_max_marks.
  - destruct (existsb (in_grown (pad + 2) width height _ _) zones) eqn:Hex.
    + rewrite bool_decide_eq_true_2; [done|].
      apply existsb_exists in Hex as (z & Hz & Hin).
      rewrite Forall_forall in Hok. apply list_elem_of_In in Hz.
      destruct (in_grown_reach pad width height _ _ z Hpad (Hok _ Hz) Hin)
        as (d1 & d2 & Hd1 & Hd2 & Hnear).
      apply list_elem_of_fmap. exists (d1, d2). split; [|by apply offsets_5x5].
      cbn. rewrite (marks_at pad width height zones) by done.
      assert (existsb (in_grown pad width height (Z.of_nat r + d1) (Z.of_nat c + d2))
                      zones = true) as ->; [|done].
      apply existsb_exists. exists z. split; [by apply list_elem_of_In | done].
    + rewrite bool_decide_eq_false_2; [done|]. intros Hin.
      apply list_elem_of_fmap in Hin as ([d1 d2] & Hval & Hd).
      apply offsets_5x5 in Hd as [Hd1 Hd2]. cbn in Hval.
      rewrite (marks_at pad width height zones) in Hval by done.
      destruct (existsb (in_grown pad width height _ _) zones) eqn:Hex'; [|done].
      apply existsb_exists in Hex' as (z & Hz & Hnear).
      apply in_grown_near in Hnear; [|lia..].
      assert (existsb (in_grown (pad + 2) width height (Z.of_nat r) (Z.of_nat c))
                      zones = true) as Hyes
        by (apply existsb_exists; eauto).
      congruence.
  - apply Forall_forall. intros x Hx.
    apply list_elem_of_fmap in Hx as (d & -> & _).
    rewrite (marks_at pad width height zones) by done.
    destruct (existsb _ zones); auto.
Qed.

(** The raster before the dilation marks the zones grown by 8 pixels, the
    raster after its two passes marks them grown by 12. *)
Lemma painted_marks width height zones :
  0 < width -> 0 < height -> Forall (zone_ok width height) zones ->
  marks 8 width height zones
        (fold_left (Processor.paint_zone width height) zones
           (replicate (Z.to_nat height) (replicate (Z.to_nat width) 0))).
Proof.
  intros Hw Hh Hok. split; [apply painted_shape, zeros_shape|].
  intros r c Hr Hc. rewrite painted_entry by (done || apply zeros_shape).
  destruct (has_shape_entry (replicate (Z.to_nat height) (replicate (Z.to_nat width) 0))
              _ _ r c (zeros_shape _ _) Hr Hc) as [p Hp].
  rewrite Hp. cbn. by rewrite (zeros_entry _ _ _ _ _ Hp).
Qed.

Lemma dilated_marks width height zones (m : list (list Z)) :
  Forall (zone_ok width height) zones ->
  marks 8 width height zones m ->
  marks 12 width height zones (Cv2.dilate m (Np.ones 5 5) 2).
Proof.
  intros Hok Hm. unfold Cv2.dilate. cbn [Nat.iter].
  change 12 with (8 + 2 + 2). by do 2 (apply dilate_once_marks; [lia | done |]).
Qed.

(** ** C9 *)

(** C9. For every width > 0, height > 0 and every list of zones satisfying
    the Zone invariant, create_mask_from_zones returns a raster of exactly
    [height] rows of [width] entries, and the raster is all-zero if and only
    if the zone list is empty (then np.any(mask > 0) is False as well). The
    raster is the 5x5, 2-iteration dilation, applied once, of the union
    raster. The union raster is 255 exactly where the rectangle of some
    zone, grown by 8 pixels and cut to the frame, covers the entry, and 0
    elsewhere; the two passes of the dilation grow every rectangle by 2
    pixels each, so the result is 255 exactly on the rectangles grown by 12
    pixels and cut to the frame, and 0 elsewhere. *)
Theorem create_mask_shape_and_emptiness (width height : Z) (zones : list zone) :
  0 < width -> 0 < height -> Forall (zone_ok width height) zones ->
  exists union mask : list (list Z),
    Processor.create_mask_from_zones width height zones = Py.Ok mask
    /\ has_shape (Z.to_nat height) (Z.to_nat width) mask
    /\ (all_zero mask <-> zones = [])
    /\ (Np.any_positive mask = false <-> zones = [])
    /\ mask = Cv2.dilate union (Np.ones 5 5) 2
    /\ marks 8 width height zones union
    /\ marks 12 width height zones mask.
Proof.
  intros Hw Hh Hok.
  set (zeros := replicate (Z.to_nat height) (replicate (Z.to_nat width) 0)).
  set (union := fold_left (Processor.paint_zone width height) zones zeros).
  exists union, (Cv2.dilate union (Np.ones 5 5) 2).
  assert (marks 8 width height zones union) as Hunion by by apply painted_marks.
  assert (marks 12 width height zones (Cv2.dilate union (Np.ones 5 5) 2))
    as Hmask by by apply dilated_marks.
  assert (zones = [] -> all_zero (Cv2.dilate union (Np.ones 5 5) 2)) as Hempty.
  { intros ->. apply dilate_all_zero. intros r c p. apply zeros_entry. }
  assert (zones <> [] ->
          exists r c, entry (Cv2.dilate union (Np.ones 5 5) 2) r c = Some 255)
    as Hsome.
  { destruct Hok as [|z zs Hz _]; [done|]. intros _.
    pose proof Hz as Hz0. unfold zone_ok in Hz.
    destruct (zone_coords z) as [[[x1 y1] x2] y2] eqn:Hz'.
    exists (Z.to_nat y1), (Z.to_nat x1).
    destruct Hmask as [_ Hentries]. rewrite Hentries by lia.
    cbn [existsb]. unfold in_grown at 1. rewrite Hz'.
    replace (Z.of_nat (Z.to_nat y1)) with y1 by lia.
    replace (Z.of_nat (Z.to_nat x1)) with x1 by lia.
    repeat (case Z.leb_spec; [intros _ | lia]).
    repeat (case Z.ltb_spec; [intros _ | lia]). done. }
  split_and!; try done.
  - unfold Processor.create_mask_from_zones. by rewrite zeros_ok by lia.
  - apply Hmask.
  - split; [|apply Hempty].
    intros Hz. destruct zones as [|z zs]; [done|].
    destruct Hsome as (r & c & Hq); [done|].
    by specialize (Hz _ _ _ Hq).
  - rewrite any_positive_false. split.
    + intros Hz. destruct zones as [|z zs]; [done|].
      destruct Hsome as (r & c & Hq); [done|].
      specialize (Hz _ _ _ Hq). lia.
    + intros Hz r c p He. rewrite (Hempty Hz _ _ _ He). lia.
Qed.

Lemma create_mask_shape_and_emptiness_witness :
  exists union mask : list (list Z),
    Processor.create_mask_from_zones 40 30 [TupleZone 10 10 12 11] = Py.Ok mask
    /\ has_shape 30 40 mask
    /\ (all_zero mask <-> [TupleZone 10 10 12 11] = [])
    /\ (Np.any_positive mask = false <-> [TupleZone 10 10 12 11] = [])
    /\ mask = Cv2.dilate union (Np.ones 5 5) 2
    /\ marks 8 40 30 [TupleZone 10 10 12 11] union
    /\ marks 12 40 30 [TupleZone 10 10 12 11] mask.
Proof.
  apply (create_mask_shape_and_emptiness 40 30 [TupleZone 10 10 12 11]);
    [lia | lia |].
  constructor; [|constructor]. cbn. lia.
Defined.

(* ===================================================================== *)
(** * The batch call of the inpainter                                     *)
(* ===================================================================== *)

Import Processor.

Lemma py_bind_eq {A B} (m : py A) (k : A -> py B) w :
  (m ≫= k) w
  = match m w with
    | (Py.Ok a, w') => k a w'
    | (Py.Raise e, w') => (Py.Raise e, w')
    end.
Proof. reflexivity. Qed.

Lemma quiet_call cb a b f c d o ow bc mc s :
  quiet cb ->
  exists sigs, call_if cb a b (World f c d o ow bc mc s)
               = (Py.Ok tt, World f c d o ow bc mc (s ++ sigs))
               /\ Forall is_progress sigs.
Proof.
  destruct cb as [g|]; cbn; [intros Hq; apply Hq|].
  exists []. by rewrite app_nil_r.
Qed.

Lemma all_zero_not_any_positive (m : list (list Z)) :
  all_zero m -> Np.any_positive m = false.
Proof.
  intros Hz. apply any_positive_false. intros r c p He.
  rewrite (Hz _ _ _ He). lia.
Qed.

Lemma inpaint_result_passthrough E self f (m : list (list Z)) :
  Np.any_positive m = false -> inpaint_result E self (f, m) = f.
Proof. intros H. unfold inpaint_result. cbn [fst snd]. by rewrite H. Qed.

Ltac world_simpl :=
  cbn [fs cap_state decoded out_state out_writes batch_calls model_calls signals].

Lemma model_inputs_nil self : model_inputs self [] = [].
Proof. unfold model_inputs. by destruct (model self). Qed.

Lemma model_inputs_app self ps qs :
  model_inputs self (ps ++ qs) = model_inputs self ps ++ model_inputs self qs.
Proof. unfold model_inputs. destruct (model self); [apply filter_app | done]. Qed.

Lemma model_inputs_cons self fr (mk : list (list Z)) pairs :
  model_inputs self ((fr, mk) :: pairs)
  = (if Np.any_positive mk && model self then [(fr, mk)] else [])
    ++ model_inputs self pairs.
Proof.
  unfold model_inputs. destruct (model self); [|by rewrite andb_false_r].
  rewrite filter_cons. cbn [snd]. rewrite andb_true_r.
  destruct (Np.any_positive mk); case_decide; done.
Qed.

Lemma model_inputs_positive self pairs f m :
  (f, m) ∈ model_inputs self pairs -> Np.any_positive m = true /\ (f, m) ∈ pairs.
Proof.
  unfold model_inputs. destruct (model self).
  - intros H. by apply list_elem_of_filter in H.
  - intros H. by apply elem_of_nil in H.
Qed.

(** One turn of the batch call: lines 54-57. *)
Lemma inpaint_one_spec E self fr (mk : mask) f c d o ow b m s :
  (if Np.any_positive mk then inpaint_frame E self fr mk else mret fr)
    (World f c d o ow b m s)
  = (Py.Ok (inpaint_result E self (fr, mk)),
     World f c d o ow b
           (m ++ if Np.any_positive mk && model self then [(fr, mk)] else [])
           s).
Proof.
  unfold inpaint_frame, inpaint_result, call_model. cbn [fst snd].
  destruct (Np.any_positive mk), (model self); cbn;
    rewrite ?app_nil_r; try done.
  rewrite py_bind_eq. world_simpl. by case_bool_decide.
Qed.

(** The loop of the batch call, without a progress callback: the results
    are appended in order, and the model sees the pairs with a positive
    mask entry, in order, and nothing else. *)
Lemma inpaint_each_spec E self pairs i total results f c d o ow b m s :
  inpaint_each E self pairs i total None results (World f c d o ow b m s)
  = (Py.Ok (results ++ map (inpaint_result E self) pairs),
     World f c d o ow b (m ++ model_inputs self pairs) s).
Proof.
  revert i results m.
  induction pairs as [|[fr mk] pairs IH]; intros i results m.
  - cbn. by rewrite model_inputs_nil, !app_nil_r.
  - cbn [inpaint_each]. rewrite py_bind_eq, inpaint_one_spec.
    rewrite py_bind_eq. cbn [call_if mret py_ret]. rewrite IH.
    rewrite model_inputs_cons. cbn [map]. by rewrite <- !app_assoc.
Qed.

(** The same with a progress callback that only reports. *)
Lemma inpaint_each_quiet E self cb pairs i total results f c d o ow b m s :
  quiet cb ->
  exists sigs,
    inpaint_each E self pairs i total cb results (World f c d o ow b m s)
    = (Py.Ok (results ++ map (inpaint_result E self) pairs),
       World f c d o ow b (m ++ model_inputs self pairs) (s ++ sigs))
    /\ Forall is_progress sigs.
Proof.
  intros Hq. revert i results m s.
  induction pairs as [|[fr mk] pairs IH]; intros i results m s.
  - exists []. cbn. by rewrite model_inputs_nil, !app_nil_r.
  - cbn [inpaint_each]. rewrite py_bind_eq, inpaint_one_spec.
    rewrite py_bind_eq.
    destruct (quiet_call cb (i + 1) total f c d o ow b
                (m ++ if Np.any_positive mk && model self then [(fr, mk)] else [])
                s Hq) as (sigs1 & -> & Hp1).
    destruct (IH (i + 1) (results ++ [inpaint_result E self (fr, mk)])
                (m ++ if Np.any_positive mk && model self then [(fr, mk)] else [])
                (s ++ sigs1)) as (sigs2 & -> & Hp2).
    exists (sigs1 ++ sigs2). split; [|by apply Forall_app].
    rewrite model_inputs_cons. cbn [map]. by rewrite <- !app_assoc.
Qed.

Lemma inpainter_process_video_spec E self frames masks f c d o ow b m s :
  inpainter_process_video E self frames masks None (World f c d o ow b m s)
  = (Py.Ok (map (inpaint_result E self) (zip frames masks)),
     World f c d o ow (b ++ [(frames, masks)])
           (m ++ model_inputs self (zip frames masks)) s).
Proof.
  unfold inpainter_process_video, log_batch. rewrite py_bind_eq. world_simpl.
  by rewrite inpaint_each_spec.
Qed.

Lemma inpainter_process_video_quiet E self cb frames masks f c d o ow b m s :
  quiet cb ->
  exists sigs,
    inpainter_process_video E self frames masks cb (World f c d o ow b m s)
    = (Py.Ok (map (inpaint_result E self) (zip frames masks)),
       World f c d o ow (b ++ [(frames, masks)])
             (m ++ model_inputs self (zip frames masks)) (s ++ sigs))
    /\ Forall is_progress sigs.
Proof.
  intros Hq. unfold inpainter_process_video, log_batch.
  rewrite py_bind_eq. world_simpl. by apply inpaint_each_quiet.
Qed.

Lemma zip_lookup {A B} (xs : list A) (ys : list B) i x y :
  xs !! i = Some x -> ys !! i = Some y -> zip xs ys !! i = Some (x, y).
Proof. intros Hx Hy. rewrite lookup_zip_with, Hx. cbn. by rewrite Hy. Qed.

(** C2. For every list of frames and masks given to the batch call
    (LamaInpainter.process_video), with no progress callback or one that
    only reports, and every frame whose mask is all zero: the call returns
    that very frame at that position, and the model is never invoked on
    it: the calls made to the model are those for the pairs with a positive
    mask entry (none when no model is loaded), so no call carries a mask
    without a positive entry. *)
Theorem zero_mask_frames_pass_through
    (E : env) (self : LamaInpainter) (frames : list frame) (masks : list mask)
    (cb : option callback) (w : world) :
  quiet cb ->
  exists results w',
    inpainter_process_video E self frames masks cb w = (Py.Ok results, w')
    /\ length results = length (zip frames masks)
    /\ (forall i fr (mk : mask),
          frames !! i = Some fr -> masks !! i = Some mk -> all_zero mk ->
          results !! i = Some fr)
    /\ model_calls w' = model_calls w ++ model_inputs self (zip frames masks)
    /\ (forall fr (mk : mask),
          (fr, mk) ∈ model_inputs self (zip frames masks) ->
          Np.any_positive mk = true /\ ~ all_zero mk)
    /\ fs w' = fs w /\ out_writes w' = out_writes w.
Proof.
  intros Hq. destruct w as [f c d o ow b m s].
  destruct (inpainter_process_video_quiet E self cb frames masks
              f c d o ow b m s Hq) as (sigs & Hrun & _).
  eexists _, _. split; [exact Hrun|].
  split_and!; cbn; try done.
  - by rewrite length_map.
  - intros i fr mk Hf Hm Hz. rewrite list_lookup_fmap.
    rewrite (zip_lookup _ _ _ _ _ Hf Hm).
    cbn. f_equal. by apply inpaint_result_passthrough, all_zero_not_any_positive.
  - intros fr mk Hin. apply model_inputs_positive in Hin as [Hpos _].
    split; [done|]. intros Hz. apply all_zero_not_any_positive in Hz. congruence.
Qed.

Lemma zero_mask_frames_pass_through_witness :
  exists results w',
    inpainter_process_video
      (Env true (fun _ _ => [[(0, 0, 0)]]) (fun f _ => f) ImageioMissing None
           (fun _ _ _ => MuxFailed None) xvid_opens)
      {| model := true |} [[[(1, 2, 3)]]; [[(4, 5, 6)]]] [[[0]]; [[255]]] None
      (init_world ∅) = (Py.Ok results, w')
    /\ results !! 0%nat = Some [[(1, 2, 3)]]
    /\ model_calls w' = [([[(4, 5, 6)]], [[255]])].
Proof.
  destruct (zero_mask_frames_pass_through
              (Env true (fun _ _ => [[(0, 0, 0)]]) (fun f _ => f) ImageioMissing
                   None (fun _ _ _ => MuxFailed None) xvid_opens)
              {| model := true |} [[[(1, 2, 3)]]; [[(4, 5, 6)]]] [[[0]]; [[255]]]
              None (init_world ∅) I)
    as (results & w' & Hrun & _ & Hpass & Hcalls & _).
  exists results, w'. split; [exact Hrun|]. split.
  - apply (Hpass 0%nat [[(1, 2, 3)]] [[0]]); [reflexivity | reflexivity |].
    intros [|[|r]] [|[|c]] p; cbn; intros [= <-]; reflexivity.
  - rewrite Hcalls. reflexivity.
Defined.

(* ===================================================================== *)
(** * The pipeline                                                        *)
(* ===================================================================== *)

Lemma cvtColor_involutive f c1 c2 : Cv2.cvtColor (Cv2.cvtColor f c1) c2 = f.
Proof.
  unfold Cv2.cvtColor. rewrite map_map. rewrite <- (map_id f) at 2.
  apply map_ext. intros row. rewrite map_map. rewrite <- (map_id row) at 2.
  apply map_ext. by intros [[c0 c1'] c2'].
Qed.

(** ** Chunks *)

Section Chunks.
Context {A : Type}.
Implicit Types (buffer xs : list A).

Lemma split_chunks_concat chunk_size buffer xs :
  concat (fst (split_chunks chunk_size buffer xs))
  ++ snd (split_chunks chunk_size buffer xs) = buffer ++ xs.
Proof.
  revert buffer. induction xs as [|x xs IH]; intros buffer; cbn.
  - by rewrite app_nil_r.
  - case Z.geb_spec; intros Hc; cbn.
    + rewrite <- app_assoc, IH. cbn. by rewrite <- app_assoc.
    + rewrite IH. by rewrite <- app_assoc.
Qed.





End Chunks.

(** ** Writing *)

Import Processor.

Lemma write_frames_app path frs1 frs2 files :
  write_frames path (frs1 ++ frs2) files
  = write_frames path frs2 (write_frames path frs1 files).
Proof. apply fold_left_app. Qed.

Lemma write_frames_video path frs files v :
  files !! path = Some (FVideo v) ->
  write_frames path frs files
  = <[path := FVideo (Video (v_width v) (v_height v) (v_fps v)
                            (v_frame_count v + Z.of_nat (length frs))
                            (v_frames v ++ frs))]> files.
Proof.
  unfold write_frames.
  revert files v. induction frs as [|fr frs IH]; intros files v Hv; cbn.
  - rewrite Z.add_0_r, app_nil_r. destruct v. by rewrite insert_id.
  - rewrite (IH _ (Video (v_width v) (v_height v) (v_fps v)
                         (v_frame_count v + 1) (v_frames v ++ [fr]))).
    + cbn. rewrite <- app_assoc. cbn.
      replace (v_frame_count v + 1 + Z.of_nat (length frs))
        with (v_frame_count v + Z.pos (Pos.of_succ_nat (length frs))) by lia.
      apply map_eq. intros p. destruct (decide (p = path)) as [->|Hne].
      * by rewrite !lookup_insert_eq.
      * rewrite !lookup_insert_ne by done. by rewrite lookup_alter_ne.
    + rewrite lookup_alter_eq, Hv. done.
Qed.

Lemma sink_frames_nil o path files : sink_frames o path [] files = files.
Proof. by destruct o. Qed.

Lemma sink_frames_app o path frs1 frs2 files :
  sink_frames o path (frs1 ++ frs2) files
  = sink_frames o path frs2 (sink_frames o path frs1 files).
Proof. destruct o; cbn; try done. apply write_frames_app. Qed.

(** The loop of [out.write] calls after a batch call. *)
Lemma write_loop_spec temp_output processed f c d o ow b m s :
  foldr (fun p_frame rest =>
           out_write temp_output (Cv2.cvtColor p_frame Cv2.COLOR_RGB2BGR);; rest)
        (mret tt) processed (World f c d o ow b m s)
  = (Py.Ok tt,
     World (sink_frames o temp_output
              (map (fun p => Cv2.cvtColor p Cv2.COLOR_RGB2BGR) processed) f)
           c d o
           (ow ++ map (fun p => Cv2.cvtColor p Cv2.COLOR_RGB2BGR) processed)
           b m s).
Proof.
  revert f ow. induction processed as [|p processed IH]; intros f ow; cbn.
  - by rewrite sink_frames_nil, app_nil_r.
  - unfold mbind, py_bind at 1. cbn. rewrite IH, <- app_assoc.
    by destruct o.
Qed.

Lemma flush_spec E self temp_output (chunk : list (frame * mask)) f c d o ow b m s :
  flush E self temp_output (chunk.*1) (chunk.*2) (World f c d o ow b m s)
  = (Py.Ok tt,
     World (sink_frames o temp_output (map (written_frame E self) chunk) f)
           c d o (ow ++ map (written_frame E self) chunk)
           (b ++ [(chunk.*1, chunk.*2)])
           (m ++ model_inputs self chunk) s).
Proof.
  unfold flush. unfold mbind, py_bind at 1.
  rewrite inpainter_process_video_spec, zip_fst_snd.
  rewrite write_loop_spec. by rewrite map_map.
Qed.

(** ** The loop over the frames *)

Lemma rgb_pairs_cons fr frames (mk : mask) masks :
  rgb_pairs (fr :: frames) (mk :: masks)
  = (Cv2.cvtColor fr Cv2.COLOR_BGR2RGB, mk) :: rgb_pairs frames masks.
Proof. reflexivity. Qed.

Lemma frame_loop_spec E self keyframes cb chunk_size width height total
    temp_output pending :
  quiet cb ->
  forall masks idx (buffer : list (frame * mask)) f c d o ow b m s,
  length masks = length pending ->
  masks_from keyframes width height idx masks ->
  let chunks := fst (split_chunks chunk_size buffer (rgb_pairs pending masks)) in
  let rest := snd (split_chunks chunk_size buffer (rgb_pairs pending masks)) in
  exists sigs,
    frame_loop E self keyframes cb chunk_size width height total temp_output
               pending (idx, buffer.*1, buffer.*2) (World f c d o ow b m s)
    = (Py.Ok (idx + Z.of_nat (length pending), rest.*1, rest.*2),
       World (sink_frames o temp_output
                (map (written_frame E self) (concat chunks)) f)
             c (d + length pending)%nat o
             (ow ++ map (written_frame E self) (concat chunks))
             (b ++ map (fun ch => (ch.*1, ch.*2)) chunks)
             (m ++ model_inputs self (concat chunks)) (s ++ sigs))
    /\ Forall is_progress sigs.
Proof.
  intros Hq. induction pending as [|fr pending IH];
    intros masks idx buffer f c d o ow b m s Hlen Hmasks.
  - destruct masks; [|done]. cbn. exists []. split; [|done].
    by rewrite sink_frames_nil, model_inputs_nil, Z.add_0_r, Nat.add_0_r,
      !app_nil_r.
  - destruct masks as [|mk masks]; [done|]. cbn in Hlen.
    destruct Hmasks as [Hmk Hmasks].
    rewrite rgb_pairs_cons. cbn [split_chunks frame_loop].
    rewrite py_bind_eq. cbn [cap_read]. world_simpl.
    rewrite py_bind_eq. unfold lift at 1. rewrite Hmk.
    set (rgb := Cv2.cvtColor fr Cv2.COLOR_BGR2RGB).
    replace (Z.of_nat (length (buffer.*1 ++ [rgb])))
      with (Z.of_nat (length (buffer ++ [(rgb, mk)])))
      by (by rewrite !length_app, length_fmap).
    case Z.geb_spec; intros Hge.
    + rewrite py_bind_eq, py_bind_eq.
      replace (buffer.*1 ++ [rgb]) with ((buffer ++ [(rgb, mk)]).*1)
        by (by rewrite fmap_app).
      replace (buffer.*2 ++ [mk]) with ((buffer ++ [(rgb, mk)]).*2)
        by (by rewrite fmap_app).
      rewrite flush_spec. cbn [mret py_ret].
      rewrite py_bind_eq.
      destruct (quiet_call cb (idx + 1) total
                  (sink_frames o temp_output
                     (map (written_frame E self) (buffer ++ [(rgb, mk)])) f)
                  c (S d) o
                  (ow ++ map (written_frame E self) (buffer ++ [(rgb, mk)]))
                  (b ++ [((buffer ++ [(rgb, mk)]).*1, (buffer ++ [(rgb, mk)]).*2)])
                  (m ++ model_inputs self (buffer ++ [(rgb, mk)])) s Hq)
        as (sigs1 & -> & Hp1).
      destruct (IH masks (idx + 1) []
                  (sink_frames o temp_output
                     (map (written_frame E self) (buffer ++ [(rgb, mk)])) f)
                  c (S d) o
                  (ow ++ map (written_frame E self) (buffer ++ [(rgb, mk)]))
                  (b ++ [((buffer ++ [(rgb, mk)]).*1, (buffer ++ [(rgb, mk)]).*2)])
                  (m ++ model_inputs self (buffer ++ [(rgb, mk)])) (s ++ sigs1))
        as (sigs2 & Heq & Hp2); [lia | done |].
      cbn [fmap list_fmap] in Heq. rewrite Heq.
      exists (sigs1 ++ sigs2). split; [|by apply Forall_app].
      cbn [fst snd concat map length].
      rewrite <- ?app_assoc, !map_app, !sink_frames_app, !model_inputs_app.
      rewrite <- ?app_assoc. cbn [app].
      replace (idx + 1 + Z.of_nat (length pending))
        with (idx + Z.of_nat (S (length pending))) by lia.
      by replace (S d + length pending)%nat with (d + S (length pending))%nat
        by lia.
    + rewrite py_bind_eq. cbn [mret py_ret]. rewrite py_bind_eq.
      destruct (quiet_call cb (idx + 1) total f c (S d) o ow b m s Hq)
        as (sigs1 & -> & Hp1).
      replace (buffer.*1 ++ [rgb]) with ((buffer ++ [(rgb, mk)]).*1)
        by (by rewrite fmap_app).
      replace (buffer.*2 ++ [mk]) with ((buffer ++ [(rgb, mk)]).*2)
        by (by rewrite fmap_app).
      destruct (IH masks (idx + 1) (buffer ++ [(rgb, mk)]) f c (S d) o ow b m
                  (s ++ sigs1))
        as (sigs2 & -> & Hp2); [lia | done |].
      exists (sigs1 ++ sigs2). split; [|by apply Forall_app].
      rewrite <- app_assoc. cbn [length].
      replace (idx + 1 + Z.of_nat (length pending))
        with (idx + Z.of_nat (S (length pending))) by lia.
      by replace (S d + length pending)%nat with (d + S (length pending))%nat
        by lia.
Qed.

(** ** The loop with a callback whose reports are known *)

Lemma reports_call cb g a b f c d o ow bc mc s :
  reports cb g a b ->
  call_if cb a b (World f c d o ow bc mc s)
  = (Py.Ok tt, World f c d o ow bc mc (s ++ g a b)).
Proof.
  destruct cb as [h|]; cbn; [intros Hr; apply Hr|].
  intros ->. by rewrite app_nil_r.
Qed.

Lemma progress_trace_S g idx total n :
  progress_trace g idx total (S n)
  = g (idx + 1) total ++ progress_trace g (idx + 1) total n.
Proof.
  unfold progress_trace. cbn [seq map concat]. rewrite Z.add_0_r. f_equal.
  rewrite <- seq_shift, map_map. f_equal. apply map_ext. intros i.
  f_equal. lia.
Qed.

(** As [frame_loop_spec], with the signals written out; the callback needs
    to report only at the checkpoints of this loop. *)
Lemma frame_loop_reports E self keyframes cb g chunk_size width height total
    temp_output pending :
  forall masks idx (buffer : list (frame * mask)) f c d o ow b m s,
  (forall a, idx < a <= idx + Z.of_nat (length pending) ->
     reports cb g a total) ->
  length masks = length pending ->
  masks_from keyframes width height idx masks ->
  let chunks := fst (split_chunks chunk_size buffer (rgb_pairs pending masks)) in
  let rest := snd (split_chunks chunk_size buffer (rgb_pairs pending masks)) in
  frame_loop E self keyframes cb chunk_size width height total temp_output
             pending (idx, buffer.*1, buffer.*2) (World f c d o ow b m s)
  = (Py.Ok (idx + Z.of_nat (length pending), rest.*1, rest.*2),
     World (sink_frames o temp_output
              (map (written_frame E self) (concat chunks)) f)
           c (d + length pending)%nat o
           (ow ++ map (written_frame E self) (concat chunks))
           (b ++ map (fun ch => (ch.*1, ch.*2)) chunks)
           (m ++ model_inputs self (concat chunks))
           (s ++ progress_trace g idx total (length pending))).
Proof.
  induction pending as [|fr pending IH];
    intros masks idx buffer f c d o ow b m s Hr Hlen Hmasks.
  - destruct masks; [|done]. cbn.
    by rewrite sink_frames_nil, model_inputs_nil, Z.add_0_r, Nat.add_0_r,
      !app_nil_r.
  - destruct masks as [|mk masks]; [done|]. cbn in Hlen.
    destruct Hmasks as [Hmk Hmasks].
    assert (reports cb g (idx + 1) total) as Hr1.
    { apply Hr. cbn [length]. lia. }
    assert (forall a, idx + 1 < a <= idx + 1 + Z.of_nat (length pending) ->
              reports cb g a total) as Hr'.
    { intros a Ha. apply Hr. cbn [length]. lia. }
    rewrite rgb_pairs_cons. cbn [split_chunks frame_loop length].
    rewrite progress_trace_S.
    rewrite py_bind_eq. cbn [cap_read]. world_simpl.
    rewrite py_bind_eq. unfold lift at 1. rewrite Hmk.
    set (rgb := Cv2.cvtColor fr Cv2.COLOR_BGR2RGB).
    replace (Z.of_nat (length (buffer.*1 ++ [rgb])))
      with (Z.of_nat (length (buffer ++ [(rgb, mk)])))
      by (by rewrite !length_app, length_fmap).
    case Z.geb_spec; intros Hge.
    + rewrite py_bind_eq, py_bind_eq.
      replace (buffer.*1 ++ [rgb]) with ((buffer ++ [(rgb, mk)]).*1)
        by (by rewrite fmap_app).
      replace (buffer.*2 ++ [mk]) with ((buffer ++ [(rgb, mk)]).*2)
        by (by rewrite fmap_app).
      rewrite flush_spec. cbn [mret py_ret].
      rewrite py_bind_eq, (reports_call cb g) by done.
      pose proof (IH masks (idx + 1) []
                  (sink_frames o temp_output
                     (map (written_frame E self) (buffer ++ [(rgb, mk)])) f)
                  c (S d) o
                  (ow ++ map (written_frame E self) (buffer ++ [(rgb, mk)]))
                  (b ++ [((buffer ++ [(rgb, mk)]).*1, (buffer ++ [(rgb, mk)]).*2)])
                  (m ++ model_inputs self (buffer ++ [(rgb, mk)]))
                  (s ++ g (idx + 1) total) Hr') as Heq.
      cbn [fmap list_fmap] in Heq. rewrite Heq by (lia || done).
      cbn [fst snd concat map length].
      rewrite <- ?app_assoc, !map_app, !sink_frames_app, !model_inputs_app.
      rewrite <- ?app_assoc. cbn [app].
      replace (idx + 1 + Z.of_nat (length pending))
        with (idx + Z.of_nat (S (length pending))) by lia.
      by replace (S d + length pending)%nat with (d + S (length pending))%nat
        by lia.
    + rewrite py_bind_eq. cbn [mret py_ret].
      rewrite py_bind_eq, (reports_call cb g) by done.
      replace (buffer.*1 ++ [rgb]) with ((buffer ++ [(rgb, mk)]).*1)
        by (by rewrite fmap_app).
      replace (buffer.*2 ++ [mk]) with ((buffer ++ [(rgb, mk)]).*2)
        by (by rewrite fmap_app).
      rewrite (IH masks (idx + 1) (buffer ++ [(rgb, mk)]) f c (S d) o ow b m
                  (s ++ g (idx + 1) total) Hr') by (lia || done).
      rewrite <- app_assoc.
      replace (idx + 1 + Z.of_nat (length pending))
        with (idx + Z.of_nat (S (length pending))) by lia.
      by replace (S d + length pending)%nat with (d + S (length pending))%nat
        by lia.
Qed.

(** ** The last step: mux, or keep the raw stream *)

Lemma append_ne (s t : string) : t <> EmptyString -> s +:+ t <> s.
Proof.
  intros Ht. induction s as [|a s IH]; cbn.
  - done.
  - intros [= H]. by apply IH.
Qed.

Lemma temp_output_ne output_path : output_path +:+ ".temp.avi" <> output_path.
Proof. by apply append_ne. Qed.

Lemma get_ffmpeg_path_world E w : snd (get_ffmpeg_path E w) = w.
Proof.
  unfold get_ffmpeg_path. by destruct (imageio_ffmpeg E).
Qed.

(** Lines 163-169 with the raw stream in place: the call returns normally;
    the intermediate file is gone; at the output path is the muxed file
    when ffmpeg was found and succeeded, and the raw stream itself when it
    was not. No other file changes. *)
Lemma finalize_spec E temp_output output_path input_path w raw :
  temp_output <> output_path ->
  fs w !! temp_output = Some raw ->
  finalize E temp_output output_path input_path w
  = (Py.Ok tt,
     set_fs (fun files =>
               <[output_path := default raw (muxed E w temp_output input_path)]>
                 (delete temp_output files)) w).
Proof.
  intros Hne Hraw. unfold finalize, try_except, convert_to_mp4, muxed.
  rewrite py_bind_eq, py_bind_eq.
  pose proof (get_ffmpeg_path_world E w) as Hw.
  destruct (get_ffmpeg_path E w) as [[exe|e] w1]; cbn in Hw; subst w1.
  - unfold run_ffmpeg.
    destruct (ffmpeg E exe (fs w !! temp_output) (fs w !! input_path))
      as [out|[partial|]]; cbn.
    + unfold os_remove. cbn. rewrite lookup_insert_ne by done. rewrite Hraw.
      destruct w. unfold set_fs. cbn. by rewrite delete_insert_ne.
    + unfold shutil_move. cbn. rewrite lookup_insert_ne by done. rewrite Hraw.
      destruct w. unfold set_fs. cbn.
      rewrite delete_insert_ne by done. by rewrite insert_insert_eq.
    + unfold shutil_move. rewrite Hraw. by destruct w.
  - unfold shutil_move. rewrite Hraw. by destruct w.
Qed.

(** Lines 163-169 with nothing at the intermediate path: whatever ffmpeg
    does, the call raises FileNotFoundError, from [shutil.move]; no file
    but the one at the output path can have changed. *)
Lemma finalize_missing E temp_output output_path input_path w :
  temp_output <> output_path ->
  fs w !! temp_output = None ->
  exists files',
    finalize E temp_output output_path input_path w
    = (Py.Raise Py.FileNotFoundError, set_fs (fun _ => files') w)
    /\ files' !! temp_output = None
    /\ forall p, p <> output_path -> files' !! p = fs w !! p.
Proof.
  intros Hne Hnone. unfold finalize, try_except, convert_to_mp4.
  rewrite py_bind_eq, py_bind_eq.
  pose proof (get_ffmpeg_path_world E w) as Hw.
  destruct (get_ffmpeg_path E w) as [[exe|e] w1]; cbn in Hw; subst w1.
  - unfold run_ffmpeg.
    destruct (ffmpeg E exe (fs w !! temp_output) (fs w !! input_path))
      as [out|[partial|]]; destruct w as [f c d o ow b m s];
      unfold os_remove, shutil_move, set_fs; world_simpl; cbn [fs] in Hnone.
    + exists (<[output_path := out]> f).
      do 2 (world_simpl; rewrite lookup_insert_ne by done; rewrite Hnone).
      split_and!; [done | done |].
      intros p Hp. by rewrite lookup_insert_ne.
    + exists (<[output_path := partial]> f).
      world_simpl. rewrite lookup_insert_ne by done. rewrite Hnone.
      split_and!; [done | done |].
      intros p Hp. by rewrite lookup_insert_ne.
    + exists f. by rewrite Hnone.
  - exists (fs w). unfold shutil_move. rewrite Hnone.
    split_and!; [by destruct w | done | done].
Qed.

(** ** The whole of [process_video] *)

Lemma frame_mask_ok keyframes kf_dict width height idx :
  int_keyed keyframes = Py.Ok kf_dict -> 0 <= width -> 0 <= height ->
  exists mk, frame_mask keyframes width height idx = Py.Ok mk.
Proof.
  intros Hkf Hw Hh. unfold frame_mask.
  rewrite processor_get_zones_at_frame_eq, Hkf. cbn.
  destruct (get_zones_at_frame_spec kf_dict idx)
    as [(k & zs & _ & _ & _ & _ & ->)|[_ ->]]; cbn.
  - destruct (map zone_tuple zs).
    + rewrite zeros_ok by done. eauto.
    + unfold create_mask_from_zones. rewrite zeros_ok by done. cbn. eauto.
  - rewrite zeros_ok by done. eauto.
Qed.

Lemma masks_exist keyframes kf_dict width height n :
  int_keyed keyframes = Py.Ok kf_dict -> 0 <= width -> 0 <= height ->
  forall idx, exists masks,
    length masks = n /\ masks_from keyframes width height idx masks.
Proof.
  intros Hkf Hw Hh. induction n as [|n IH]; intros idx.
  - by exists [].
  - destruct (frame_mask_ok keyframes kf_dict width height idx Hkf Hw Hh)
      as [mk Hmk].
    destruct (IH (idx + 1)) as (masks & Hlen & Hmasks).
    exists (mk :: masks). cbn. by rewrite Hlen.
Qed.


Lemma rgb_pairs_length frames (masks : list mask) :
  length masks = length frames -> length (rgb_pairs frames masks) = length frames.
Proof.
  intros H. unfold rgb_pairs. rewrite length_zip_with, length_map. lia.
Qed.

Lemma fmap_nil_inv {A B} (g : A -> B) (l : list A) : g <$> l = [] -> l = [].
Proof. by destruct l. Qed.

(** The state in which the run reaches its last step, given what the loop
    over the frames has done: the decoder and the writer released; one
    write per decoded frame, in order; one batch call per chunk; and, when
    the writer has opened, the raw stream, complete, at the intermediate
    path. When the writer has not opened, the files are as they were. *)
Lemma process_video_after_loop E input_path output_path keyframes cb chunk_size
    files v masks idx sigs :
  files !! input_path = Some (FVideo v) ->
  length masks = length (v_frames v) ->
  let self := {| model := lama_available E |} in
  let temp_output := output_path +:+ ".temp.avi" in
  let pairs := rgb_pairs (v_frames v) masks in
  let raw := raw_stream E v masks in
  let opened := VideoWriter_isOpened E files temp_output (v_fps v)
                  (v_width v) (v_height v) in
  let files0 :=
    if opened
    then <[temp_output := FVideo (Video (v_width v) (v_height v) (v_fps v) 0 [])]> files
    else files in
  let o0 := if opened then Open else Unopened in
  let chunks := fst (split_chunks chunk_size [] pairs) in
  let rest := snd (split_chunks chunk_size [] pairs) in
  frame_loop E self keyframes cb chunk_size
             (Z.of_N (v_width v)) (Z.of_N (v_height v)) (v_frame_count v)
             temp_output (v_frames v) (0, [], [])
             (World files0 Open 0 o0 [] [] [] [])
  = (Py.Ok (idx, rest.*1, rest.*2),
     World (sink_frames o0 temp_output
              (map (written_frame E self) (concat chunks)) files0)
           Open (length (v_frames v)) o0
           (map (written_frame E self) (concat chunks))
           (map (fun ch => (ch.*1, ch.*2)) chunks)
           (model_inputs self (concat chunks)) sigs) ->
  process_video E input_path output_path keyframes cb chunk_size
                (init_world files)
  = finalize E temp_output output_path input_path
      (World (if opened then <[temp_output := raw]> files else files)
             Released (length (v_frames v)) Released
             (map (written_frame E self) pairs)
             (map (fun ch => (ch.*1, ch.*2)) (all_chunks chunk_size pairs))
             (model_inputs self pairs) sigs).
Proof.
  intros Hin Hlen self temp_output pairs raw opened files0 o0 chunks rest Hloop.
  unfold process_video, init_world. rewrite py_bind_eq.
  unfold VideoCapture. world_simpl. rewrite Hin.
  rewrite py_bind_eq. unfold VideoWriter at 1. world_simpl.
  fold temp_output. fold opened.
  assert ((if opened
           then (Py.Ok tt,
                 World (<[temp_output :=
                            FVideo (Video (v_width v) (v_height v) (v_fps v) 0 [])]>
                          files) Open 0 Open [] [] [] [])
           else (Py.Ok tt, World files Open 0 Unopened [] [] [] []))
          = (Py.Ok tt, World files0 Open 0 o0 [] [] [] [])) as ->
    by (subst files0 o0; by destruct opened).
  rewrite py_bind_eq. unfold LamaInpainter_init at 1. cbn [mret py_ret].
  rewrite py_bind_eq. fold self. rewrite Hloop. clear Hloop.
  pose proof (split_chunks_concat chunk_size [] pairs) as Hcat. cbn [app] in Hcat.
  unfold all_chunks. fold chunks rest. fold chunks rest in Hcat.
  assert (length pairs = length (v_frames v)) as Hpl by by apply rgb_pairs_length.
  assert (forall frs,
            sink_frames o0 temp_output frs files0
            = if opened
              then <[temp_output :=
                       FVideo (Video (v_width v) (v_height v) (v_fps v)
                                     (Z.of_nat (length frs)) frs)]> files
              else files) as Hsink.
  { intros frs. subst o0 files0. destruct opened; [|done]. cbn [sink_frames].
    erewrite write_frames_video by apply lookup_insert_eq. cbn.
    by rewrite insert_insert_eq. }
  assert (forall tail_writes tail_batches tail_inputs,
            tail_writes = map (written_frame E self) rest ->
            tail_inputs = model_inputs self rest ->
            tail_batches = match rest with
                           | [] => []
                           | _ => [(rest.*1, rest.*2)]
                           end ->
            World (sink_frames o0 temp_output
                     (map (written_frame E self) (concat chunks) ++ tail_writes)
                     files0)
                  Released (length (v_frames v)) Released
                  (map (written_frame E self) (concat chunks) ++ tail_writes)
                  (map (fun ch => (ch.*1, ch.*2)) chunks ++ tail_batches)
                  (model_inputs self (concat chunks) ++ tail_inputs) sigs
            = World (if opened then <[temp_output := raw]> files else files)
                    Released (length (v_frames v)) Released
                    (map (written_frame E self) pairs)
                    (map (fun ch => (ch.*1, ch.*2))
                         (chunks ++ match rest with
                                    | [] => []
                                    | _ => [rest]
                                    end))
                    (model_inputs self pairs) sigs) as Hend.
  { intros tw tb ti -> -> ->.
    rewrite <- map_app, <- model_inputs_app, Hcat, Hsink.
    rewrite length_map. subst raw. unfold raw_stream. fold pairs self.
    rewrite map_app. by destruct rest. }
  destruct rest as [|x rest'] eqn:Hrest.
  - cbn [fmap list_fmap]. rewrite py_bind_eq. cbn [mret py_ret].
    rewrite py_bind_eq. unfold cap_release at 1. world_simpl.
    rewrite py_bind_eq. unfold out_release at 1. world_simpl.
    f_equal.
    rewrite <- (Hend [] [] []) by (by rewrite ?model_inputs_nil).
    by rewrite !app_nil_r.
  - rewrite py_bind_eq.
    change (match (x :: rest').*1 with
            | [] => mret ()
            | _ :: _ => flush E self temp_output ((x :: rest').*1) ((x :: rest').*2)
            end)
      with (flush E self temp_output ((x :: rest').*1) ((x :: rest').*2)).
    rewrite flush_spec.
    rewrite py_bind_eq. unfold cap_release at 1. world_simpl.
    rewrite py_bind_eq. unfold out_release at 1. world_simpl.
    cbn [app]. f_equal.
    rewrite <- (Hend _ _ _ eq_refl eq_refl eq_refl).
    by rewrite sink_frames_app.
Qed.

(** The run with a callback that only reports. *)
Lemma process_video_run E input_path output_path keyframes cb chunk_size
    files v masks :
  quiet cb ->
  files !! input_path = Some (FVideo v) ->
  length masks = length (v_frames v) ->
  masks_from keyframes (Z.of_N (v_width v)) (Z.of_N (v_height v)) 0 masks ->
  let self := {| model := lama_available E |} in
  let temp_output := output_path +:+ ".temp.avi" in
  let pairs := rgb_pairs (v_frames v) masks in
  let raw := raw_stream E v masks in
  let opened := VideoWriter_isOpened E files temp_output (v_fps v)
                  (v_width v) (v_height v) in
  exists sigs,
    process_video E input_path output_path keyframes cb chunk_size
                  (init_world files)
    = finalize E temp_output output_path input_path
        (World (if opened then <[temp_output := raw]> files else files)
               Released (length (v_frames v))
               Released (map (written_frame E self) pairs)
               (map (fun ch => (ch.*1, ch.*2)) (all_chunks chunk_size pairs))
               (model_inputs self pairs) sigs)
    /\ Forall is_progress sigs.
Proof.
  intros Hq Hin Hlen Hmasks self temp_output pairs raw opened.
  destruct (frame_loop_spec E self keyframes cb chunk_size
              (Z.of_N (v_width v)) (Z.of_N (v_height v)) (v_frame_count v)
              temp_output (v_frames v) Hq masks 0 []
              (if opened
               then <[temp_output :=
                        FVideo (Video (v_width v) (v_height v) (v_fps v) 0 [])]> files
               else files)
              Open 0%nat (if opened then Open else Unopened) [] [] [] []
              Hlen Hmasks) as (sigs & Hloop & Hp).
  cbn [fmap list_fmap app] in Hloop.
  exists sigs. split; [|done].
  eapply process_video_after_loop; [exact Hin | exact Hlen | exact Hloop].
Qed.

(** The run with a callback whose reports at the checkpoints are known. *)
Lemma process_video_reports_run E input_path output_path keyframes cb g
    chunk_size files v masks :
  (forall a, 0 < a <= Z.of_nat (length (v_frames v)) ->
     reports cb g a (v_frame_count v)) ->
  files !! input_path = Some (FVideo v) ->
  length masks = length (v_frames v) ->
  masks_from keyframes (Z.of_N (v_width v)) (Z.of_N (v_height v)) 0 masks ->
  let self := {| model := lama_available E |} in
  let temp_output := output_path +:+ ".temp.avi" in
  let pairs := rgb_pairs (v_frames v) masks in
  let raw := raw_stream E v masks in
  let opened := VideoWriter_isOpened E files temp_output (v_fps v)
                  (v_width v) (v_height v) in
  process_video E input_path output_path keyframes cb chunk_size
                (init_world files)
  = finalize E temp_output output_path input_path
      (World (if opened then <[temp_output := raw]> files else files)
             Released (length (v_frames v))
             Released (map (written_frame E self) pairs)
             (map (fun ch => (ch.*1, ch.*2)) (all_chunks chunk_size pairs))
             (model_inputs self pairs)
             (progress_trace g 0 (v_frame_count v) (length (v_frames v)))).
Proof.
  intros Hr Hin Hlen Hmasks self temp_output pairs raw opened.
  pose proof (frame_loop_reports E self keyframes cb g chunk_size
              (Z.of_N (v_width v)) (Z.of_N (v_height v)) (v_frame_count v)
              temp_output (v_frames v) masks 0 []
              (if opened
               then <[temp_output :=
                        FVideo (Video (v_width v) (v_height v) (v_fps v) 0 [])]> files
               else files)
              Open 0%nat (if opened then Open else Unopened) [] [] [] []
              Hr Hlen Hmasks) as Hloop.
  cbn [fmap list_fmap app] in Hloop.
  eapply process_video_after_loop; [exact Hin | exact Hlen | exact Hloop].
Qed.

Lemma muxed_fs E w temp_output input_path :
  muxed E w temp_output input_path
  = muxed E (init_world (fs w)) temp_output input_path.
Proof. unfold muxed, get_ffmpeg_path. by destruct (imageio_ffmpeg E). Qed.

(** The last step of a run whose writer has opened. *)
Lemma finalize_raw E output_path input_path files raw c d o ow b m s :
  let temp_output := output_path +:+ ".temp.avi" in
  finalize E temp_output output_path input_path
    (World (<[temp_output := raw]> files) c d o ow b m s)
  = (Py.Ok tt,
     World (<[output_path :=
                default raw (muxed E (init_world (<[temp_output := raw]> files))
                                   temp_output input_path)]>
              (delete temp_output files))
           c d o ow b m s).
Proof.
  intros temp_output.
  erewrite finalize_spec;
    [|apply temp_output_ne | world_simpl; apply lookup_insert_eq].
  unfold set_fs. world_simpl. rewrite delete_insert_eq.
  by rewrite (muxed_fs E (World _ _ _ _ _ _ _ _)).
Qed.

(** The complete run when the writer opens, from the files before to the
    files after. *)
Lemma process_video_spec E input_path output_path keyframes cb chunk_size
    files v masks :
  quiet cb ->
  files !! input_path = Some (FVideo v) ->
  writer_opens_for E files output_path v ->
  length masks = length (v_frames v) ->
  masks_from keyframes (Z.of_N (v_width v)) (Z.of_N (v_height v)) 0 masks ->
  let self := {| model := lama_available E |} in
  let temp_output := output_path +:+ ".temp.avi" in
  let pairs := rgb_pairs (v_frames v) masks in
  let raw := raw_stream E v masks in
  exists sigs,
    process_video E input_path output_path keyframes cb chunk_size
                  (init_world files)
    = (Py.Ok tt,
       World (<[output_path :=
                  default raw (muxed E (init_world (<[temp_output := raw]> files))
                                     temp_output input_path)]>
                (delete temp_output files))
             Released (length (v_frames v)) Released
             (map (written_frame E self) pairs)
             (map (fun ch => (ch.*1, ch.*2)) (all_chunks chunk_size pairs))
             (model_inputs self pairs) sigs)
    /\ Forall is_progress sigs.
Proof.
  intros Hq Hin Hopen Hlen Hmasks self temp_output pairs raw.
  destruct (process_video_run E input_path output_path keyframes cb chunk_size
              files v masks Hq Hin Hlen Hmasks) as (sigs & -> & Hp).
  exists sigs. split; [|done]. fold self temp_output pairs raw.
  unfold writer_opens_for in Hopen. fold temp_output in Hopen. rewrite Hopen.
  apply finalize_raw.
Qed.

(** The complete run, with the signals written out, when the writer
    opens. *)
Lemma process_video_reports E input_path output_path keyframes cb g chunk_size
    files v masks :
  (forall a, 0 < a <= Z.of_nat (length (v_frames v)) ->
     reports cb g a (v_frame_count v)) ->
  files !! input_path = Some (FVideo v) ->
  writer_opens_for E files output_path v ->
  length masks = length (v_frames v) ->
  masks_from keyframes (Z.of_N (v_width v)) (Z.of_N (v_height v)) 0 masks ->
  let self := {| model := lama_available E |} in
  let temp_output := output_path +:+ ".temp.avi" in
  let pairs := rgb_pairs (v_frames v) masks in
  let raw := raw_stream E v masks in
  process_video E input_path output_path keyframes cb chunk_size
                (init_world files)
  = (Py.Ok tt,
     World (<[output_path :=
                default raw (muxed E (init_world (<[temp_output := raw]> files))
                                   temp_output input_path)]>
              (delete temp_output files))
           Released (length (v_frames v)) Released
           (map (written_frame E self) pairs)
           (map (fun ch => (ch.*1, ch.*2)) (all_chunks chunk_size pairs))
           (model_inputs self pairs)
           (progress_trace g 0 (v_frame_count v) (length (v_frames v)))).
Proof.
  intros Hr Hin Hopen Hlen Hmasks self temp_output pairs raw.
  rewrite (process_video_reports_run E input_path output_path keyframes cb g
             chunk_size files v masks Hr Hin Hlen Hmasks).
  fold self temp_output pairs raw.
  unfold writer_opens_for in Hopen. fold temp_output in Hopen. rewrite Hopen.
  apply finalize_raw.
Qed.

(** The last step of a run whose writer has not opened, with nothing at
    the intermediate path: FileNotFoundError, and no file but the one at
    the output path can have changed. *)
Lemma finalize_unopened E output_path input_path files c d o ow b m s :
  let temp_output := output_path +:+ ".temp.avi" in
  files !! temp_output = None ->
  exists files',
    finalize E temp_output output_path input_path (World files c d o ow b m s)
    = (Py.Raise Py.FileNotFoundError, World files' c d o ow b m s)
    /\ files' !! temp_output = None
    /\ forall p, p <> output_path -> files' !! p = files !! p.
Proof.
  intros temp_output Hnone.
  destruct (finalize_missing E temp_output output_path input_path
              (World files c d o ow b m s)) as (files' & Heq & Ht & Hp);
    [apply temp_output_ne | done |].
  exists files'. by rewrite Heq.
Qed.

(** The last step acts on the files only. *)
Lemma finalize_fields E temp_output output_path input_path f c d o ow b m s :
  exists r files',
    finalize E temp_output output_path input_path (World f c d o ow b m s)
    = (r, World files' c d o ow b m s).
Proof.
  unfold finalize, try_except, convert_to_mp4.
  rewrite py_bind_eq, py_bind_eq.
  pose proof (get_ffmpeg_path_world E (World f c d o ow b m s)) as Hw.
  destruct (get_ffmpeg_path E (World f c d o ow b m s)) as [[exe|e] w1];
    cbn in Hw; subst w1.
  - unfold run_ffmpeg. world_simpl.
    destruct (ffmpeg E exe (f !! temp_output) (f !! input_path))
      as [out|[partial|]]; unfold os_remove, shutil_move, set_fs; world_simpl.
    + destruct (<[output_path:=out]> f !! temp_output); [by eauto|].
      world_simpl. destruct (<[output_path:=out]> f !! temp_output); by eauto.
    + destruct (<[output_path:=partial]> f !! temp_output); by eauto.
    + destruct (f !! temp_output); by eauto.
  - unfold shutil_move, set_fs. world_simpl.
    destruct (f !! temp_output); by eauto.
Qed.


(** ** C1 *)



(** ** The worker *)

Import ProcessingWorker.

Lemma emit_progress current total f c d o ow bc mc s :
  Qt.fits_int current = true -> Qt.fits_int total = true ->
  emit (Progress current total) (World f c d o ow bc mc s)
  = (Py.Ok tt, World f c d o ow bc mc (s ++ [Progress current total])).
Proof. intros Hc Ht. unfold emit. cbn [emittable]. by rewrite Hc, Ht. Qed.

Lemma progress_callback_reports cancelled a b :
  cancelled a = false -> Qt.fits_int a = true -> Qt.fits_int b = true ->
  reports (Some (progress_callback cancelled)) (fun a b => [Progress a b]) a b.
Proof.
  intros Hnot Ha Hb f c d o ow bc mc s. unfold progress_callback.
  rewrite Hnot. by apply emit_progress.
Qed.

Lemma progress_trace_signals idx total n :
  progress_trace (fun a b => [Progress a b]) idx total n
  = map (fun i => Progress (idx + Z.of_nat i + 1) total) (seq 0 n).
Proof.
  unfold progress_trace. induction (seq 0 n) as [|i l IH]; cbn; [done|].
  by rewrite IH.
Qed.

Lemma progress_trace_progress_signals total n :
  progress_trace (fun a b => [Progress a b]) 0 total n
  = progress_signals total n.
Proof.
  rewrite progress_trace_signals. unfold progress_signals.
  apply map_ext. intros i. f_equal.
Qed.

Lemma progress_signals_is_progress total n :
  Forall is_progress (progress_signals total n).
Proof.
  unfold progress_signals. induction (seq 0 n) as [|i l IH]; cbn; [done|].
  by constructor.
Qed.

Lemma fits_int_checkpoint (n : nat) a :
  Qt.fits_int (Z.of_nat n) = true -> 0 < a <= Z.of_nat n ->
  Qt.fits_int a = true.
Proof. unfold Qt.fits_int. lia. Qed.

(** The callback of the worker at the checkpoints of a job that is not
    cancelled and whose progress reports fit the signal. *)
Lemma worker_reports cancelled v a :
  (forall current, cancelled current = false) ->
  progress_fits v ->
  0 < a <= Z.of_nat (length (v_frames v)) ->
  reports (Some (progress_callback cancelled)) (fun a b => [Progress a b])
          a (v_frame_count v).
Proof.
  intros Hnever [Htotal Hn] Ha. apply progress_callback_reports; [done| |done].
  by apply (fits_int_checkpoint (length (v_frames v))).
Qed.

(** A job that is not cancelled, on a video that opens, with a writer that
    opens: it ends with the [finished] signal, after one progress signal
    for every frame. *)
Lemma run_spec E cancelled video_path output_path keyframes files v masks :
  (forall current, cancelled current = false) ->
  files !! video_path = Some (FVideo v) ->
  writer_opens_for E files output_path v ->
  progress_fits v ->
  length masks = length (v_frames v) ->
  masks_from keyframes (Z.of_N (v_width v)) (Z.of_N (v_height v)) 0 masks ->
  let self := {| model := lama_available E |} in
  let temp_output := output_path +:+ ".temp.avi" in
  let pairs := rgb_pairs (v_frames v) masks in
  let raw := raw_stream E v masks in
  run E true cancelled video_path output_path keyframes (init_world files)
  = (Py.Ok tt,
     World (<[output_path :=
                default raw (muxed E (init_world (<[temp_output := raw]> files))
                                   temp_output video_path)]>
              (delete temp_output files))
           Released (length (v_frames v)) Released
           (map (written_frame E self) pairs)
           (map (fun ch => (ch.*1, ch.*2)) (all_chunks 50 pairs))
           (model_inputs self pairs)
           (progress_signals (v_frame_count v) (length (v_frames v))
            ++ [Finished output_path])).
Proof.
  intros Hnever Hin Hopen Hfits Hlen Hmasks self temp_output pairs raw.
  pose proof (process_video_reports E video_path output_path keyframes
                (Some (progress_callback cancelled)) (fun a b => [Progress a b])
                50 files v masks
                (fun a Ha => worker_reports cancelled v a Hnever Hfits Ha)
                Hin Hopen Hlen Hmasks) as Hrun.
  cbn zeta in Hrun. rewrite progress_trace_progress_signals in Hrun.
  unfold run, try_except. rewrite py_bind_eq. cbn [mret py_ret].
  by rewrite py_bind_eq, Hrun.
Qed.

(** The same job with a writer that does not open, and nothing at the
    intermediate path: after the progress signals it ends with an error
    signal, that of the FileNotFoundError of the last step. *)
Lemma run_unopened E cancelled video_path output_path keyframes files v masks :
  (forall current, cancelled current = false) ->
  files !! video_path = Some (FVideo v) ->
  ~ writer_opens_for E files output_path v ->
  files !! (output_path +:+ ".temp.avi") = None ->
  progress_fits v ->
  length masks = length (v_frames v) ->
  masks_from keyframes (Z.of_N (v_width v)) (Z.of_N (v_height v)) 0 masks ->
  let self := {| model := lama_available E |} in
  let pairs := rgb_pairs (v_frames v) masks in
  exists files',
    run E true cancelled video_path output_path keyframes (init_world files)
    = (Py.Ok tt,
       World files' Released (length (v_frames v)) Released
             (map (written_frame E self) pairs)
             (map (fun ch => (ch.*1, ch.*2)) (all_chunks 50 pairs))
             (model_inputs self pairs)
             (progress_signals (v_frame_count v) (length (v_frames v))
              ++ [Error (Py.exn_str Py.FileNotFoundError)]))
    /\ files' !! (output_path +:+ ".temp.avi") = None
    /\ forall p, p <> output_path -> files' !! p = files !! p.
Proof.
  intros Hnever Hin Hopen Hnone Hfits Hlen Hmasks self pairs.
  pose proof (process_video_reports_run E video_path output_path keyframes
                (Some (progress_callback cancelled)) (fun a b => [Progress a b])
                50 files v masks
                (fun a Ha => worker_reports cancelled v a Hnever Hfits Ha)
                Hin Hlen Hmasks) as Hrun.
  cbn zeta in Hrun. rewrite progress_trace_progress_signals in Hrun.
  unfold writer_opens_for in Hopen. apply not_true_is_false in Hopen.
  rewrite Hopen in Hrun.
  destruct (finalize_unopened E output_path video_path files Released
              (length (v_frames v)) Released
              (map (written_frame E self) pairs)
              (map (fun ch => (ch.*1, ch.*2)) (all_chunks 50 pairs))
              (model_inputs self pairs)
              (progress_signals (v_frame_count v) (length (v_frames v))) Hnone)
    as (files' & Hfin & Ht & Hp).
  exists files'. split; [|done].
  unfold run, try_except. rewrite py_bind_eq. cbn [mret py_ret].
  rewrite py_bind_eq, Hrun. fold self pairs. by rewrite Hfin.
Qed.

(** The same job whatever the writer does: after the progress signals it
    emits exactly one more signal. *)
Lemma run_any E cancelled video_path output_path keyframes files v masks :
  (forall current, cancelled current = false) ->
  files !! video_path = Some (FVideo v) ->
  progress_fits v ->
  length masks = length (v_frames v) ->
  masks_from keyframes (Z.of_N (v_width v)) (Z.of_N (v_height v)) 0 masks ->
  let self := {| model := lama_available E |} in
  let pairs := rgb_pairs (v_frames v) masks in
  exists files' last,
    run E true cancelled video_path output_path keyframes (init_world files)
    = (Py.Ok tt,
       World files' Released (length (v_frames v)) Released
             (map (written_frame E self) pairs)
             (map (fun ch => (ch.*1, ch.*2)) (all_chunks 50 pairs))
             (model_inputs self pairs)
             (progress_signals (v_frame_count v) (length (v_frames v))
              ++ [last])).
Proof.
  intros Hnever Hin Hfits Hlen Hmasks self pairs.
  pose proof (process_video_reports_run E video_path output_path keyframes
                (Some (progress_callback cancelled)) (fun a b => [Progress a b])
                50 files v masks
                (fun a Ha => worker_reports cancelled v a Hnever Hfits Ha)
                Hin Hlen Hmasks) as Hrun.
  cbn zeta in Hrun. rewrite progress_trace_progress_signals in Hrun.
  fold self pairs in Hrun.
  match type of Hrun with
  | _ = finalize _ _ _ _ (World ?f _ _ _ _ _ _ _) =>
      destruct (finalize_fields E (output_path +:+ ".temp.avi") output_path
                  video_path f Released (length (v_frames v)) Released
                  (map (written_frame E self) pairs)
                  (map (fun ch => (ch.*1, ch.*2)) (all_chunks 50 pairs))
                  (model_inputs self pairs)
                  (progress_signals (v_frame_count v) (length (v_frames v))))
        as (r & files' & Hfin)
  end.
  rewrite Hfin in Hrun.
  unfold run, try_except. rewrite py_bind_eq. cbn [mret py_ret].
  rewrite py_bind_eq, Hrun.
  destruct r as [[]|e].
  - by eexists files', _.
  - destruct (Py.is_ImportError e); [by eexists files', _|].
    destruct (Py.is_InterruptedError e); by eexists files', _.
Qed.

(** ** C6 *)

(** C6. For every completed raw stream at the intermediate path: the last
    step returns normally, after it the intermediate file is gone and the
    output path holds a file, no other file is touched; when ffmpeg is
    missing or fails, the file at the output path is the raw stream itself
    (moved, not copied); when ffmpeg succeeds, it is the muxed file. And a
    job that is not cancelled, on a video that opens, with a writer that
    opens and progress reports that fit the signal, ends with the
    [finished] signal and no error signal, whether ffmpeg succeeded or
    not, with the output path in place and no intermediate file. *)
Theorem finalize_muxes_or_moves_raw_stream :
  (forall (E : env) (output_path input_path : string) (w : world) (raw : file),
      let temp_output := output_path +:+ ".temp.avi" in
      fs w !! temp_output = Some raw ->
      exists w',
        finalize E temp_output output_path input_path w = (Py.Ok tt, w')
        /\ fs w' !! temp_output = None
        /\ is_Some (fs w' !! output_path)
        /\ (muxed E w temp_output input_path = None ->
            fs w' !! output_path = Some raw)
        /\ (forall out, muxed E w temp_output input_path = Some out ->
            fs w' !! output_path = Some out)
        /\ (forall p, p <> temp_output -> p <> output_path ->
            fs w' !! p = fs w !! p))
  /\ (forall (E : env) (cancelled : Z -> bool) (video_path output_path : string)
        (keyframes : list (key * list zone)) (kf_dict : list (Z * list zone))
        (files : gmap string file) (v : video),
      files !! video_path = Some (FVideo v) ->
      int_keyed keyframes = Py.Ok kf_dict ->
      (forall current, cancelled current = false) ->
      writer_opens_for E files output_path v ->
      progress_fits v ->
      let temp_output := output_path +:+ ".temp.avi" in
      exists masks sigs w',
        let before := init_world (<[temp_output := raw_stream E v masks]> files) in
        run E true cancelled video_path output_path keyframes (init_world files)
          = (Py.Ok tt, w')
        /\ signals w' = sigs ++ [Finished output_path]
        /\ Forall is_progress sigs
        /\ fs w' !! temp_output = None
        /\ is_Some (fs w' !! output_path)
        /\ (muxed E before temp_output video_path = None ->
            fs w' !! output_path = Some (raw_stream E v masks))
        /\ (forall out, muxed E before temp_output video_path = Some out ->
            fs w' !! output_path = Some out)).
Proof.
  split.
  - intros E output_path input_path w raw temp_output Hraw.
    pose proof (temp_output_ne output_path) as Hne. fold temp_output in Hne.
    eexists. split; [by apply finalize_spec|].
    destruct w as [f c d o ow b m s]. unfold set_fs. world_simpl.
    cbn [fs] in Hraw.
    split_and!.
    + rewrite lookup_insert_ne by done. apply lookup_delete_eq.
    + rewrite lookup_insert_eq. eauto.
    + intros ->. by rewrite lookup_insert_eq.
    + intros out ->. by rewrite lookup_insert_eq.
    + intros p Hp1 Hp2. rewrite lookup_insert_ne by done.
      by rewrite lookup_delete_ne.
  - intros E cancelled video_path output_path keyframes kf_dict files v
      Hin Hkf Hnever Hopen Hfits temp_output.
    destruct (masks_exist keyframes kf_dict (Z.of_N (v_width v))
                (Z.of_N (v_height v)) (length (v_frames v)) Hkf)
      with (idx := 0) as (masks & Hlen & Hmasks); [lia | lia |].
    pose proof (run_spec E cancelled video_path output_path keyframes files v
                  masks Hnever Hin Hopen Hfits Hlen Hmasks) as Hrun.
    pose proof (temp_output_ne output_path) as Hne. fold temp_output in Hne.
    eexists masks, _, _. cbn zeta. split; [exact Hrun|]. world_simpl.
    fold temp_output. split_and!; try done.
    + apply progress_signals_is_progress.
    + rewrite lookup_insert_ne by done. apply lookup_delete_eq.
    + rewrite lookup_insert_eq. eauto.
    + intros ->. by rewrite lookup_insert_eq.
    + intros out ->. by rewrite lookup_insert_eq.
Qed.

Lemma finalize_muxes_or_moves_raw_stream_witness :
  let E := Env true (fun f _ => f) (fun f _ => f) ImageioMissing None
               (fun _ _ _ => MuxFailed None) xvid_opens in
  let v := Video 2 2 30 1 [[[(1, 2, 3); (4, 5, 6)]; [(7, 8, 9); (1, 2, 3)]]] in
  let raw := FVideo v in
  (exists w',
      finalize E "out.mp4.temp.avi" "out.mp4" "in.mp4"
               (init_world {[ "out.mp4.temp.avi" := raw ]}) = (Py.Ok tt, w')
      /\ fs w' !! "out.mp4.temp.avi" = None
      /\ fs w' !! "out.mp4" = Some raw)
  /\ (exists sigs w',
        run E true (fun _ => false) "in.mp4" "out.mp4"
            [(StrKey "0", [TupleZone 0 0 1 1])]
            (init_world {[ "in.mp4" := raw ]}) = (Py.Ok tt, w')
        /\ signals w' = sigs ++ [Finished "out.mp4"]
        /\ fs w' !! "out.mp4.temp.avi" = None
        /\ is_Some (fs w' !! "out.mp4")).
Proof.
  intros E v raw. split.
  - destruct (proj1 finalize_muxes_or_moves_raw_stream E "out.mp4" "in.mp4"
                (init_world {[ "out.mp4.temp.avi" := raw ]}) raw)
      as (w' & Hrun & Hgone & _ & Hfail & _).
    + reflexivity.
    + exists w'. split; [exact Hrun|]. split; [exact Hgone|].
      apply Hfail. reflexivity.
  - destruct (proj2 finalize_muxes_or_moves_raw_stream E (fun _ => false)
                "in.mp4" "out.mp4" [(StrKey "0", [TupleZone 0 0 1 1])]
                [(0, [TupleZone 0 0 1 1])] {[ "in.mp4" := raw ]} v)
      as (masks & sigs & w' & Hrun & Hsig & _ & Hgone & Hout & _).
    + reflexivity.
    + reflexivity.
    + reflexivity.
    + reflexivity.
    + split; reflexivity.
    + exists sigs, w'. repeat split; assumption.
Defined.

(** ** C4 *)

Lemma written_frame_without_model E self fr (mk : mask) :
  model self = false ->
  written_frame E self (Cv2.cvtColor fr Cv2.COLOR_BGR2RGB, mk) = fr.
Proof.
  intros Hm. unfold written_frame, inpaint_result. cbn [fst snd].
  rewrite Hm, andb_false_r. apply cvtColor_involutive.
Qed.

Lemma written_frames_without_model E self frames (masks : list mask) :
  model self = false -> length masks = length frames ->
  map (written_frame E self) (rgb_pairs frames masks) = frames.
Proof.
  intros Hm. revert masks. induction frames as [|fr frames IH];
    intros [|mk masks] Hlen; try done.
  rewrite rgb_pairs_cons. cbn [map]. rewrite written_frame_without_model by done.
  f_equal. apply IH. by injection Hlen.
Qed.

Lemma model_inputs_without_model self pairs :
  model self = false -> model_inputs self pairs = [].
Proof. intros Hm. unfold model_inputs. by rewrite Hm. Qed.

(** C4, counterexample. The LaMa model cannot be loaded; the job runs on a
    video of one frame of 2 x 2 pixels with a zone on it. No configuration
    error is raised: the frame is decoded, it is written, unchanged, the
    output file is made, and the job reports [finished]. *)
Lemma unavailable_model_does_not_abort :
  let E := Env false (fun _ _ => [[(0, 0, 0)]]) (fun f _ => f) ImageioMissing
               None (fun _ _ _ => MuxFailed None) xvid_opens in
  let v := Video 2 2 30 1 [[[(1, 2, 3); (4, 5, 6)]; [(7, 8, 9); (1, 2, 3)]]] in
  let w' := snd (run E true (fun _ => false) "in.mp4" "out.mp4"
                     [(StrKey "0", [TupleZone 0 0 1 1])]
                     (init_world {[ "in.mp4" := FVideo v ]})) in
  signals w' = [Progress 1 1; Finished "out.mp4"]
  /\ decoded w' = 1%nat
  /\ out_writes w' = [[[(1, 2, 3); (4, 5, 6)]; [(7, 8, 9); (1, 2, 3)]]]
  /\ fs w' !! "out.mp4" = Some (FVideo v).
Proof. vm_compute. repeat split; reflexivity. Qed.

(** C4, as the code has it. When the propainter module itself cannot be
    imported, the worker reports the error "ProPainter module not found"
    and nothing else happens: no frame is decoded, no file is written.
    When only the LaMa model cannot be loaded, nothing fails on that
    account: for every video that opens, process_video decodes every frame
    and hands every frame unchanged to the writer, and never calls the
    model; when the writer opens, it returns normally and the stream that
    reaches the output path, as it is or through ffmpeg, is the video of
    the source frames; and the job that is not cancelled then reports
    [finished]. *)
Theorem unavailable_model_passes_frames_through :
  (forall (E : env) (cancelled : Z -> bool) (video_path output_path : string)
        (keyframes : list (key * list zone)) (w : world),
      run E false cancelled video_path output_path keyframes w
      = (Py.Ok tt,
         World (fs w) (cap_state w) (decoded w) (out_state w) (out_writes w)
               (batch_calls w) (model_calls w)
               (signals w ++ [Error ("ProPainter module not found."
                                     +:+ String "010" ""
                                     +:+ "Run: python download_model.py")])))
  /\ (forall (E : env) (input_path output_path : string)
        (keyframes : list (key * list zone)) (kf_dict : list (Z * list zone))
        (cb : option callback) (chunk_size : Z)
        (files : gmap string file) (v : video),
      lama_available E = false ->
      files !! input_path = Some (FVideo v) ->
      int_keyed keyframes = Py.Ok kf_dict ->
      quiet cb ->
      let temp_output := output_path +:+ ".temp.avi" in
      let raw := FVideo (Video (v_width v) (v_height v) (v_fps v)
                               (Z.of_nat (length (v_frames v))) (v_frames v)) in
      exists r w',
        process_video E input_path output_path keyframes cb chunk_size
                      (init_world files) = (r, w')
        /\ decoded w' = length (v_frames v)
        /\ out_writes w' = v_frames v
        /\ model_calls w' = []
        /\ Forall is_progress (signals w')
        /\ (writer_opens_for E files output_path v ->
            r = Py.Ok tt
            /\ fs w' !! output_path
               = Some (default raw
                         (muxed E (init_world (<[temp_output := raw]> files))
                                temp_output input_path))))
  /\ (forall (E : env) (cancelled : Z -> bool) (video_path output_path : string)
        (keyframes : list (key * list zone)) (kf_dict : list (Z * list zone))
        (files : gmap string file) (v : video),
      lama_available E = false ->
      files !! video_path = Some (FVideo v) ->
      int_keyed keyframes = Py.Ok kf_dict ->
      (forall current, cancelled current = false) ->
      writer_opens_for E files output_path v ->
      progress_fits v ->
      exists sigs w',
        run E true cancelled video_path output_path keyframes (init_world files)
          = (Py.Ok tt, w')
        /\ signals w' = sigs ++ [Finished output_path]
        /\ Forall is_progress sigs
        /\ out_writes w' = v_frames v
        /\ model_calls w' = []
        /\ is_Some (fs w' !! output_path)).
Proof.
  split_and!.
  - intros E cancelled video_path output_path keyframes w. by destruct w.
  - intros E input_path output_path keyframes kf_dict cb chunk_size files v
      Hno Hin Hkf Hq temp_output raw.
    destruct (masks_exist keyframes kf_dict (Z.of_N (v_width v))
                (Z.of_N (v_height v)) (length (v_frames v)) Hkf)
      with (idx := 0) as (masks & Hlen & Hmasks); [lia | lia |].
    destruct (process_video_run E input_path output_path keyframes cb
                chunk_size files v masks Hq Hin Hlen Hmasks)
      as (sigs & Hrun & Hp).
    cbn zeta in Hrun. fold temp_output in Hrun. rewrite Hrun. clear Hrun.
    assert (map (written_frame E {| model := lama_available E |})
                (rgb_pairs (v_frames v) masks) = v_frames v) as Hsame
      by by apply written_frames_without_model.
    assert (model_inputs {| model := lama_available E |}
                         (rgb_pairs (v_frames v) masks) = []) as Hnone
      by by apply model_inputs_without_model.
    assert (raw_stream E v masks = raw) as Hraw.
    { unfold raw_stream. rewrite Hsame, rgb_pairs_length by done. done. }
    rewrite Hsame, Hnone, Hraw.
    unfold writer_opens_for. fold temp_output.
    destruct (VideoWriter_isOpened E files temp_output (v_fps v) (v_width v)
                (v_height v)) eqn:Hopen.
    + eexists _, _. split; [apply finalize_raw|]. world_simpl.
      split_and!; try done. intros _. split; [done|].
      apply lookup_insert_eq.
    + destruct (finalize_fields E temp_output output_path input_path files
                  Released (length (v_frames v)) Released (v_frames v)
                  (map (fun ch => (ch.*1, ch.*2))
                       (all_chunks chunk_size (rgb_pairs (v_frames v) masks)))
                  [] sigs) as (r & files' & ->).
      eexists _, _. split; [reflexivity|]. world_simpl. by split_and!.
  - intros E cancelled video_path output_path keyframes kf_dict files v
      Hno Hin Hkf Hnever Hopen Hfits.
    destruct (masks_exist keyframes kf_dict (Z.of_N (v_width v))
                (Z.of_N (v_height v)) (length (v_frames v)) Hkf)
      with (idx := 0) as (masks & Hlen & Hmasks); [lia | lia |].
    pose proof (run_spec E cancelled video_path output_path keyframes files v
                  masks Hnever Hin Hopen Hfits Hlen Hmasks) as Hrun.
    eexists _, _. split; [exact Hrun|]. world_simpl. split_and!; try done.
    + apply progress_signals_is_progress.
    + by apply written_frames_without_model.
    + by apply model_inputs_without_model.
    + rewrite lookup_insert_eq. eauto.
Qed.

Lemma unavailable_model_passes_frames_through_witness :
  let E := Env false (fun _ _ => [[(0, 0, 0)]]) (fun f _ => f) ImageioMissing
               None (fun _ _ _ => MuxFailed None) xvid_opens in
  let v := Video 2 2 30 2 [[[(1, 2, 3); (4, 5, 6)]; [(7, 8, 9); (1, 2, 3)]];
                           [[(4, 5, 6); (1, 2, 3)]; [(1, 2, 3); (7, 8, 9)]]] in
  exists w',
    process_video E "in.mp4" "out.mp4" [(StrKey "0", [TupleZone 0 0 1 1])]
                  None 50 (init_world {[ "in.mp4" := FVideo v ]})
      = (Py.Ok tt, w')
    /\ decoded w' = 2%nat
    /\ out_writes w' = v_frames v
    /\ model_calls w' = []
    /\ fs w' !! "out.mp4" = Some (FVideo v).
Proof.
  intros E v.
  destruct (proj1 (proj2 unavailable_model_passes_frames_through) E
              "in.mp4" "out.mp4" [(StrKey "0", [TupleZone 0 0 1 1])]
              [(0, [TupleZone 0 0 1 1])] None 50 {[ "in.mp4" := FVideo v ]} v)
    as (r & w' & Hrun & Hdec & Hout & Hcalls & _ & Hopen).
  - reflexivity.
  - reflexivity.
  - reflexivity.
  - exact I.
  - destruct Hopen as [-> Hfile]; [reflexivity|].
    exists w'. repeat split; assumption.
Defined.

(** ** C5 *)

(** The loop when the callback of the worker sees the cancellation flag set
    at one of its checkpoints: InterruptedError leaves the loop, with the
    decoder and the writer as they were and the frames flushed so far in
    the intermediate file. *)
Lemma frame_loop_cancelled E self keyframes cancelled chunk_size width height
    total temp_output pending :
  Qt.fits_int total = true ->
  forall masks idx (buffer : list (frame * mask)) f c d o ow b m s (j : nat),
  length masks = length pending ->
  masks_from keyframes width height idx masks ->
  (0 < j <= length pending)%nat ->
  cancelled (idx + Z.of_nat j) = true ->
  (forall a, idx < a <= idx + Z.of_nat j -> Qt.fits_int a = true) ->
  exists frs dd bs ms sigs,
    frame_loop E self keyframes (Some (progress_callback cancelled)) chunk_size
               width height total temp_output
               pending (idx, buffer.*1, buffer.*2) (World f c d o ow b m s)
    = (Py.Raise Py.InterruptedError,
       World (sink_frames o temp_output frs f) c dd o (ow ++ frs) (b ++ bs)
             (m ++ ms) (s ++ sigs))
    /\ Forall is_progress sigs.
Proof.
  intros Htotal. induction pending as [|fr pending IH];
    intros masks idx buffer f c d o ow b m s j Hlen Hmasks Hj Hcancel Hfit.
  - cbn in Hj. lia.
  - destruct masks as [|mk masks]; [done|]. cbn in Hlen.
    destruct Hmasks as [Hmk Hmasks].
    cbn [frame_loop].
    rewrite py_bind_eq. cbn [cap_read]. world_simpl.
    rewrite py_bind_eq. unfold lift at 1. rewrite Hmk.
    set (rgb := Cv2.cvtColor fr Cv2.COLOR_BGR2RGB).
    replace (buffer.*1 ++ [rgb]) with ((buffer ++ [(rgb, mk)]).*1)
      by (by rewrite fmap_app).
    replace (buffer.*2 ++ [mk]) with ((buffer ++ [(rgb, mk)]).*2)
      by (by rewrite fmap_app).
    assert (cancelled (idx + 1) = false ->
            (0 < j - 1 <= length pending)%nat
            /\ cancelled (idx + 1 + Z.of_nat (j - 1)) = true
            /\ (forall a, idx + 1 < a <= idx + 1 + Z.of_nat (j - 1) ->
                  Qt.fits_int a = true)) as Hnext.
    { intros Hnot. assert (j <> 1%nat) as Hj1.
      { intros ->. change (Z.of_nat 1) with 1 in Hcancel. congruence. }
      cbn in Hj. split; [lia|]. split.
      - by replace (idx + 1 + Z.of_nat (j - 1)) with (idx + Z.of_nat j) by lia.
      - intros a Ha. apply Hfit. lia. }
    assert (Qt.fits_int (idx + 1) = true) as Hfit1 by (apply Hfit; lia).
    case Z.geb_spec; intros Hge.
    + rewrite py_bind_eq, py_bind_eq, flush_spec. cbn [mret py_ret].
      rewrite py_bind_eq. cbn [call_if]. unfold progress_callback at 1.
      destruct (cancelled (idx + 1)) eqn:Hc1.
      * exists (map (written_frame E self) (buffer ++ [(rgb, mk)])), (S d),
          [((buffer ++ [(rgb, mk)]).*1, (buffer ++ [(rgb, mk)]).*2)],
          (model_inputs self (buffer ++ [(rgb, mk)])), [].
        by rewrite app_nil_r.
      * destruct (Hnext eq_refl) as (Hj' & Hcancel' & Hfit').
        rewrite emit_progress by done.
        destruct (IH masks (idx + 1) []
                    (sink_frames o temp_output
                       (map (written_frame E self) (buffer ++ [(rgb, mk)])) f)
                    c (S d) o
                    (ow ++ map (written_frame E self) (buffer ++ [(rgb, mk)]))
                    (b ++ [((buffer ++ [(rgb, mk)]).*1, (buffer ++ [(rgb, mk)]).*2)])
                    (m ++ model_inputs self (buffer ++ [(rgb, mk)]))
                    (s ++ [Progress (idx + 1) total]) (j - 1)%nat)
          as (frs & dd & bs & ms & sigs & Heq & Hp); [lia | done..|].
        cbn [fmap list_fmap] in Heq. rewrite Heq.
        eexists _, dd, _, _, (Progress (idx + 1) total :: sigs).
        rewrite <- sink_frames_app, <- !app_assoc. split; [done|].
        by constructor.
    + rewrite py_bind_eq. cbn [mret py_ret]. rewrite py_bind_eq.
      cbn [call_if]. unfold progress_callback at 1.
      destruct (cancelled (idx + 1)) eqn:Hc1.
      * exists [], (S d), [], [], [].
        by rewrite sink_frames_nil, !app_nil_r.
      * destruct (Hnext eq_refl) as (Hj' & Hcancel' & Hfit').
        rewrite emit_progress by done.
        destruct (IH masks (idx + 1) (buffer ++ [(rgb, mk)]) f c (S d) o ow b m
                    (s ++ [Progress (idx + 1) total]) (j - 1)%nat)
          as (frs & dd & bs & ms & sigs & -> & Hp); [lia | done..|].
        eexists frs, dd, bs, ms, (Progress (idx + 1) total :: sigs).
        rewrite <- !app_assoc. split; [done|]. by constructor.
Qed.

(** The job that is cancelled at a checkpoint. *)
Lemma run_cancelled E cancelled video_path output_path keyframes kf_dict
    files v (j : nat) :
  files !! video_path = Some (FVideo v) ->
  int_keyed keyframes = Py.Ok kf_dict ->
  (0 < j <= length (v_frames v))%nat ->
  cancelled (Z.of_nat j) = true ->
  progress_fits v ->
  let temp_output := output_path +:+ ".temp.avi" in
  let opened := VideoWriter_isOpened E files temp_output (v_fps v)
                  (v_width v) (v_height v) in
  let files0 :=
    if opened
    then <[temp_output := FVideo (Video (v_width v) (v_height v) (v_fps v) 0 [])]> files
    else files in
  let o0 := if opened then Open else Unopened in
  exists frs dd bs ms sigs,
    run E true cancelled video_path output_path keyframes (init_world files)
    = (Py.Ok tt,
       World (sink_frames o0 temp_output frs files0)
             Open dd o0 frs bs ms (sigs ++ [Error "Processing cancelled"]))
    /\ Forall is_progress sigs.
Proof.
  intros Hin Hkf Hj Hcancel [Htotal Hn] temp_output opened files0 o0.
  destruct (masks_exist keyframes kf_dict (Z.of_N (v_width v))
              (Z.of_N (v_height v)) (length (v_frames v)) Hkf)
    with (idx := 0) as (masks & Hlen & Hmasks); [lia | lia |].
  destruct (frame_loop_cancelled E {| model := lama_available E |} keyframes
              cancelled 50 (Z.of_N (v_width v)) (Z.of_N (v_height v))
              (v_frame_count v) temp_output (v_frames v) Htotal
              masks 0 [] files0 Open 0%nat o0 [] [] [] [] j Hlen Hmasks Hj
              Hcancel)
    as (frs & dd & bs & ms & sigs & Hloop & Hp).
  { intros a Ha. apply (fits_int_checkpoint (length (v_frames v))); [done|lia]. }
  cbn [fmap list_fmap app] in Hloop.
  exists frs, dd, bs, ms, sigs. split; [|done].
  unfold run, try_except. rewrite py_bind_eq. cbn [mret py_ret].
  rewrite py_bind_eq. unfold process_video, init_world.
  rewrite py_bind_eq. unfold VideoCapture. world_simpl. rewrite Hin.
  rewrite py_bind_eq. unfold VideoWriter at 1. world_simpl.
  fold temp_output. fold opened.
  assert ((if opened
           then (Py.Ok tt,
                 World (<[temp_output :=
                            FVideo (Video (v_width v) (v_height v) (v_fps v) 0 [])]>
                          files) Open 0 Open [] [] [] [])
           else (Py.Ok tt, World files Open 0 Unopened [] [] [] []))
          = (Py.Ok tt, World files0 Open 0 o0 [] [] [] [])) as ->
    by (subst files0 o0; by destruct opened).
  rewrite py_bind_eq. unfold LamaInpainter_init at 1. cbn [mret py_ret].
  rewrite py_bind_eq, Hloop. done.
Qed.

(** C5, what the code does. For every job on a video that opens, whose
    progress reports fit the signal, cancelled at one of its checkpoints
    (the flag is seen set at the callback of frame j, 1 <= j <= N): the job
    ends with the error signal "Processing cancelled" after progress
    signals only, and the output path is as it was before the job; but the
    decoder has not been released, and when the writer has opened, it has
    not been released either and the intermediate file <output>.temp.avi
    is still there. (When the writer has not opened, the files are as they
    were.) The instance: a video of three frames of 2 x 2 pixels, cancelled
    while the second frame is processed; on the same input without
    cancellation both are released and the intermediate file is
    removed. *)
Theorem cancellation_leaves_intermediate_file_and_handles :
  (forall (E : env) (cancelled : Z -> bool) (video_path output_path : string)
        (keyframes : list (key * list zone)) (kf_dict : list (Z * list zone))
        (files : gmap string file) (v : video) (j : nat),
      files !! video_path = Some (FVideo v) ->
      int_keyed keyframes = Py.Ok kf_dict ->
      (0 < j <= length (v_frames v))%nat ->
      cancelled (Z.of_nat j) = true ->
      progress_fits v ->
      exists sigs w',
        run E true cancelled video_path output_path keyframes (init_world files)
          = (Py.Ok tt, w')
        /\ signals w' = sigs ++ [Error "Processing cancelled"]
        /\ Forall is_progress sigs
        /\ fs w' !! output_path = files !! output_path
        /\ cap_state w' = Open
        /\ (writer_opens_for E files output_path v ->
            out_state w' = Open
            /\ exists partial,
                 fs w' !! (output_path +:+ ".temp.avi") = Some (FVideo partial))
        /\ (~ writer_opens_for E files output_path v ->
            out_state w' = Unopened /\ fs w' = files))
  /\ (let E := Env true (fun f _ => f) (fun f _ => f) ImageioMissing
                   (Some "ffmpeg") (fun _ raw _ =>
                      match raw with
                      | Some r => MuxDone r
                      | None => MuxFailed None
                      end) xvid_opens in
      let v := Video 2 2 30 3
                 [[[(1, 1, 1); (1, 1, 1)]; [(1, 1, 1); (1, 1, 1)]];
                  [[(2, 2, 2); (2, 2, 2)]; [(2, 2, 2); (2, 2, 2)]];
                  [[(3, 3, 3); (3, 3, 3)]; [(3, 3, 3); (3, 3, 3)]]] in
      let job cancelled :=
        run E true cancelled "in.mp4" "out.mp4"
            [(StrKey "0", [TupleZone 0 0 1 1])]
            (init_world {[ "in.mp4" := FVideo v ]}) in
      let cancelled_run := snd (job (fun current => 2 <=? current)) in
      let normal_run := snd (job (fun _ => false)) in
      (signals cancelled_run = [Progress 1 3; Error "Processing cancelled"]
       /\ fs cancelled_run !! "out.mp4" = None
       /\ fs cancelled_run !! "out.mp4.temp.avi"
          = Some (FVideo (Video 2 2 30 0 []))
       /\ cap_state cancelled_run = Open
       /\ out_state cancelled_run = Open
       /\ decoded cancelled_run = 2%nat)
      /\ (signals normal_run
            = [Progress 1 3; Progress 2 3; Progress 3 3; Finished "out.mp4"]
          /\ is_Some (fs normal_run !! "out.mp4")
          /\ fs normal_run !! "out.mp4.temp.avi" = None
          /\ cap_state normal_run = Released
          /\ out_state normal_run = Released)).
Proof.
  split.
  - intros E cancelled video_path output_path keyframes kf_dict files v j
      Hin Hkf Hj Hcancel Hfits.
    destruct (run_cancelled E cancelled video_path output_path keyframes
                kf_dict files v j Hin Hkf Hj Hcancel Hfits)
      as (frs & dd & bs & ms & sigs & Hrun & Hp).
    cbn zeta in Hrun.
    eexists sigs, _. split; [exact Hrun|]. world_simpl.
    unfold writer_opens_for.
    destruct (VideoWriter_isOpened E files (output_path +:+ ".temp.avi")
                (v_fps v) (v_width v) (v_height v)) eqn:Hopen;
      cbn [sink_frames].
    + erewrite write_frames_video by apply lookup_insert_eq.
      rewrite insert_insert_eq.
      split_and!; try done.
      * rewrite lookup_insert_ne by apply temp_output_ne. done.
      * intros _. split; [done|]. eexists. apply lookup_insert_eq.
    + split_and!; try done.
  - vm_compute. repeat split; try reflexivity. eauto.
Qed.

Lemma cancellation_leaves_intermediate_file_and_handles_witness :
  let E := Env true (fun f _ => f) (fun f _ => f) ImageioMissing None
               (fun _ _ _ => MuxFailed None) xvid_opens in
  let v := Video 2 2 30 2 [[[(1, 2, 3); (4, 5, 6)]; [(7, 8, 9); (1, 2, 3)]];
                           [[(4, 5, 6); (1, 2, 3)]; [(1, 2, 3); (7, 8, 9)]]] in
  exists sigs w' partial,
    run E true (fun current => 1 <=? current) "in.mp4" "out.mp4"
        [(StrKey "0", [TupleZone 0 0 1 1])]
        (init_world {[ "in.mp4" := FVideo v ]}) = (Py.Ok tt, w')
    /\ signals w' = sigs ++ [Error "Processing cancelled"]
    /\ fs w' !! "out.mp4.temp.avi" = Some (FVideo partial)
    /\ cap_state w' = Open
    /\ out_state w' = Open.
Proof.
  intros E v.
  destruct (proj1 cancellation_leaves_intermediate_file_and_handles E
              (fun current => 1 <=? current) "in.mp4" "out.mp4"
              [(StrKey "0", [TupleZone 0 0 1 1])] [(0, [TupleZone 0 0 1 1])]
              {[ "in.mp4" := FVideo v ]} v 1%nat)
    as (sigs & w' & Hrun & Hsig & _ & _ & Hcap & Hopen & _).
  - reflexivity.
  - reflexivity.
  - cbn. lia.
  - reflexivity.
  - split; reflexivity.
  - destruct Hopen as (Hout & partial & Htemp); [reflexivity|].
    exists sigs, w', partial. repeat split; assumption.
Defined.

(* ===================================================================== *)
(** * The returned list is a copy                                         *)
(* ===================================================================== *)

Section HeapFacts.
Context {Zone : Type}.
Implicit Types (kfs : list (Z * positive)) (h : gmap positive (list Zone)).

Lemma contents_keys kfs h :
  Dict.keys (KeyframeHeap.contents kfs h) = Dict.keys kfs.
Proof.
  unfold KeyframeHeap.contents, Dict.keys. rewrite map_map. by apply map_ext.
Qed.

Lemma contents_get kfs h k :
  Dict.get (KeyframeHeap.contents kfs h) k
  = (fun r => default [] (h !! r)) <$> Dict.get kfs k.
Proof.
  induction kfs as [|[k' r] kfs IH]; cbn; [done|]. by case_decide.
Qed.

Lemma get_zones_at_frame_unfold (d : list (Z * list Zone)) frame :
  KeyframeManager.get_zones_at_frame d frame
  = match filter (fun k => k <= frame) (Dict.keys d) with
    | [] => Py.Ok []
    | valid => nearest ← Py.max valid; Dict.subscript d nearest
    end.
Proof.
  unfold KeyframeManager.get_zones_at_frame.
  destruct d as [|kv d]; [reflexivity|]. cbv zeta. by destruct (filter _ _).
Qed.

Lemma heap_get_zones_at_frame_unfold kfs frame h :
  KeyframeHeap.get_zones_at_frame kfs frame h
  = match filter (fun k => k <= frame) (Dict.keys kfs) with
    | [] => (Py.Ok (fresh (dom h)), <[fresh (dom h) := []]> h)
    | valid =>
        match (nearest ← Py.max valid; Dict.subscript kfs nearest) with
        | Py.Ok stored =>
            (Py.Ok (fresh (dom h)),
             <[fresh (dom h) := default [] (h !! stored)]> h)
        | Py.Raise e => (Py.Raise e, h)
        end
    end.
Proof.
  unfold KeyframeHeap.get_zones_at_frame, KeyframeHeap.alloc.
  destruct kfs as [|kv kfs']; [reflexivity|]. cbv zeta.
  destruct (filter _ _); [reflexivity|].
  by destruct (_ ≫= _).
Qed.

(** The lookup on the heap allocates a new list that holds what the lookup
    on the contents returns. *)
Lemma heap_get_zones_at_frame kfs frame h :
  exists zs,
    KeyframeManager.get_zones_at_frame (KeyframeHeap.contents kfs h) frame
      = Py.Ok zs
    /\ KeyframeHeap.get_zones_at_frame kfs frame h
       = (Py.Ok (fresh (dom h)), <[fresh (dom h) := zs]> h).
Proof.
  rewrite get_zones_at_frame_unfold, heap_get_zones_at_frame_unfold.
  rewrite contents_keys.
  destruct (filter (fun k => k <= frame) (Dict.keys kfs)) as [|v0 vs] eqn:Hvalid;
    [by exists []|].
  destruct (py_max_spec (v0 :: vs)) as (m & Hm & Hin & _); [done|].
  rewrite <- Hvalid in Hin. apply list_elem_of_filter in Hin as [_ Hin].
  destruct (dict_key_get kfs m Hin) as [r Hr].
  rewrite Hm. cbn. unfold Dict.subscript.
  rewrite contents_get, Hr. cbn. eauto.
Qed.

Lemma contents_unchanged kfs h h' :
  (forall r, r ∈ dom h -> h' !! r = h !! r) ->
  KeyframeHeap.allocated kfs h ->
  KeyframeHeap.contents kfs h' = KeyframeHeap.contents kfs h.
Proof.
  intros Hsame Halloc. unfold KeyframeHeap.contents.
  apply map_ext_in. intros [k r] Hin. cbn.
  unfold KeyframeHeap.allocated in Halloc. rewrite Forall_forall in Halloc.
  apply list_elem_of_In in Hin. specialize (Halloc _ Hin). cbn in Halloc.
  by rewrite Hsame.
Qed.
End HeapFacts.

(** C10. For every timeline whose lists are allocated and every frame
    index: get_zones_at_frame returns a reference to a new list object,
    different from every list stored in the timeline, holding the zones
    that the lookup yields. Whatever is then done to the returned list in
    place (appending, removing, any change) leaves every list that existed
    before, and so the contents of the timeline, as they were, and a
    second call of get_zones_at_frame returns the same zones again. *)
Theorem get_zones_at_frame_returns_a_copy
    {Zone : Type} (kfs : list (Z * positive))
    (h : gmap positive (list Zone)) (frame : Z) :
  KeyframeHeap.allocated kfs h ->
  exists (r : positive) (zs : list Zone),
    KeyframeHeap.get_zones_at_frame kfs frame h = (Py.Ok r, <[r := zs]> h)
    /\ KeyframeManager.get_zones_at_frame (KeyframeHeap.contents kfs h) frame
       = Py.Ok zs
    /\ h !! r = None
    /\ (r ∉ map snd kfs)
    /\ forall change : list Zone -> list Zone,
         let h' := KeyframeHeap.mutate r change (<[r := zs]> h) in
         h' !! r = Some (change zs)
         /\ (forall r0, r0 ∈ dom h -> h' !! r0 = h !! r0)
         /\ KeyframeHeap.contents kfs h' = KeyframeHeap.contents kfs h
         /\ exists r', KeyframeHeap.get_zones_at_frame kfs frame h'
                       = (Py.Ok r', <[r' := zs]> h').
Proof.
  intros Halloc.
  destruct (heap_get_zones_at_frame kfs frame h) as (zs & Hval & Hheap).
  set (r := fresh (dom h)) in *.
  assert (r ∉ dom h) as Hfresh by apply is_fresh.
  exists r, zs. split_and!; try done.
  - by apply not_elem_of_dom.
  - intros Hin. apply list_elem_of_fmap in Hin as ([k r0] & -> & Hin).
    unfold KeyframeHeap.allocated in Halloc. rewrite Forall_forall in Halloc.
    by specialize (Halloc _ Hin).
  - intros change h'.
    assert (forall r0, r0 ∈ dom h -> h' !! r0 = h !! r0) as Hsame.
    { intros r0 Hr0. unfold h', KeyframeHeap.mutate.
      assert (r0 <> r) by (intros ->; done).
      rewrite lookup_alter_ne by done. by rewrite lookup_insert_ne. }
    assert (KeyframeHeap.contents kfs h' = KeyframeHeap.contents kfs h) as Hcont
      by by apply contents_unchanged.
    split_and!; try done.
    + unfold h', KeyframeHeap.mutate. by rewrite lookup_alter_eq, lookup_insert_eq.
    + destruct (heap_get_zones_at_frame kfs frame h') as (zs' & Hval' & Hheap').
      rewrite Hcont, Hval in Hval'. injection Hval' as <-. eauto.
Qed.

Lemma get_zones_at_frame_returns_a_copy_witness :
  let h : gmap positive (list Z) := {[ 1%positive := [7; 8] ]} in
  exists (r : positive) (zs : list Z),
    KeyframeHeap.get_zones_at_frame [(0, 1%positive)] 5 h
      = (Py.Ok r, <[r := zs]> h)
    /\ zs = [7; 8]
    /\ KeyframeHeap.contents [(0, 1%positive)]
         (KeyframeHeap.list_append r 9 (<[r := zs]> h))
       = [(0, [7; 8])].
Proof.
  intros h.
  destruct (get_zones_at_frame_returns_a_copy [(0, 1%positive)] h 5)
    as (r & zs & Hrun & Hval & _ & _ & Hchange).
  - apply Forall_cons_2; [|apply Forall_nil_2].
    apply elem_of_dom. exists [7; 8]. reflexivity.
  - exists r, zs. split; [exact Hrun|]. split.
    + vm_compute in Hval. congruence.
    + destruct (Hchange (fun zs => zs ++ [9])) as (_ & _ & Hcont & _).
      exact Hcont.
Defined.

(* ===================================================================== *)
(** * Editing the timeline                                                *)
(* ===================================================================== *)

Section DictEdits.
Context {K V : Type} `{EqDecision K}.
Implicit Types (d : list (K * V)) (k : K) (v : V).

Lemma dict_mem_true d k : Dict.mem d k = true <-> k ∈ Dict.keys d.
Proof.
  unfold Dict.mem. split.
  - destruct (Dict.get d k) eqn:E; [|done]. intros _.
    by apply dict_get_Some_key in E.
  - intros [v ->]%dict_key_get. done.
Qed.

Lemma dict_mem_false d k : Dict.mem d k = false <-> k ∉ Dict.keys d.
Proof.
  rewrite <- dict_mem_true. by destruct (Dict.mem d k).
Qed.

Lemma dict_set_set d k v v' : Dict.set (Dict.set d k v) k v' = Dict.set d k v'.
Proof.
  induction d as [|[k0 v0] d IH]; cbn.
  - by rewrite decide_True.
  - destruct (decide (k0 = k)) as [->|Hne]; cbn.
    + by rewrite decide_True.
    + rewrite decide_False by done. by rewrite IH.
Qed.

Lemma dict_set_same d k v : Dict.get d k = Some v -> Dict.set d k v = d.
Proof.
  induction d as [|[k0 v0] d IH]; cbn; [done|].
  destruct (decide (k0 = k)) as [->|Hne]; [by intros [= ->]|].
  intros Hd. by rewrite IH.
Qed.

Lemma dict_del_set_fresh d k v :
  k ∉ Dict.keys d -> Dict.del (Dict.set d k v) k = d.
Proof.
  induction d as [|[k0 v0] d IH]; cbn.
  - intros _. by rewrite decide_True.
  - intros [Hne Hk]%not_elem_of_cons.
    rewrite decide_False by done. cbn. rewrite decide_False by done.
    by rewrite IH.
Qed.

Lemma dict_get_del_ne d k k' :
  k <> k' -> Dict.get (Dict.del d k) k' = Dict.get d k'.
Proof.
  intros Hne. induction d as [|[k0 v0] d IH]; cbn; [done|].
  destruct (decide (k0 = k)) as [->|Hne0]; cbn.
  - by rewrite decide_False.
  - by rewrite IH.
Qed.

Lemma filter_ne_id (l : list K) k :
  k ∉ l -> filter (fun k' => k' <> k) l = l.
Proof.
  induction l as [|a l IH]; [done|].
  intros [Hne Hl]%not_elem_of_cons.
  rewrite filter_cons_True by done. by rewrite IH.
Qed.

(** [del d[k]] takes the key out of the keys and leaves the others in
    their order. *)
Lemma dict_keys_del d k :
  Dict.wf d ->
  Dict.keys (Dict.del d k) = filter (fun k' => k' <> k) (Dict.keys d).
Proof.
  unfold Dict.wf, Dict.keys. induction d as [|[k0 v0] d IH]; [done|].
  cbn [Dict.del map fst]. intros [Hk0 Hd]%NoDup_cons.
  destruct (decide (k0 = k)) as [->|Hne]; cbn [map fst].
  - rewrite filter_cons_False by (intros Hx; by apply Hx).
    by rewrite filter_ne_id.
  - rewrite filter_cons_True by done. by rewrite IH.
Qed.

Lemma dict_del_wf d k : Dict.wf d -> Dict.wf (Dict.del d k).
Proof.
  intros Hwf. unfold Dict.wf. rewrite dict_keys_del by done.
  by apply NoDup_filter.
Qed.

Lemma dict_get_del_eq d k : Dict.wf d -> Dict.get (Dict.del d k) k = None.
Proof.
  intros Hwf. apply dict_get_None. rewrite dict_keys_del by done.
  intros [Hne _]%list_elem_of_filter. by apply Hne.
Qed.

Lemma dict_in_get d k v : Dict.wf d -> (k, v) ∈ d -> Dict.get d k = Some v.
Proof.
  unfold Dict.wf, Dict.keys. induction d as [|[k0 v0] d IH]; cbn.
  - intros _ Hin. by apply elem_of_nil in Hin.
  - intros [Hk0 Hd]%NoDup_cons [[= -> ->]|Hin]%elem_of_cons.
    + by rewrite decide_True.
    + rewrite decide_False; [by apply IH|].
      intros ->. apply Hk0. apply list_elem_of_fmap. by exists (k, v).
Qed.

Lemma dict_in_set d k v kv :
  kv ∈ Dict.set d k v -> kv = (k, v) \/ kv ∈ d.
Proof.
  induction d as [|[k0 v0] d IH]; cbn.
  - intros ->%list_elem_of_singleton. by left.
  - destruct (decide (k0 = k)) as [->|Hne].
    + intros [->|Hin]%elem_of_cons; [by left | right; by right].
    + intros [->|Hin]%elem_of_cons; [right; left|].
      destruct (IH Hin) as [->|Hd]; [by left | right; by right].
Qed.

Lemma dict_in_del d k kv : kv ∈ Dict.del d k -> kv ∈ d.
Proof.
  induction d as [|[k0 v0] d IH]; cbn; [done|].
  destruct (decide (k0 = k)) as [->|Hne].
  - intros Hin. by right.
  - intros [->|Hin]%elem_of_cons; [left | right; by apply IH].
Qed.
End DictEdits.

Section TimelineEdits.
Context {Zone : Type}.
Implicit Types (kfs : list (Z * list Zone)) (f g : Z) (z : Zone).

(** [add_zone] is one assignment: the zones keyed at the frame, followed
    by the new zone. *)
Lemma add_zone_set kfs f z :
  KeyframeManager.add_zone kfs f z
  = Dict.set kfs f (default [] (Dict.get kfs f) ++ [z]).
Proof.
  unfold KeyframeManager.add_zone, Dict.mem.
  destruct (Dict.get kfs f) as [zs|] eqn:E; cbn.
  - by rewrite E.
  - rewrite dict_get_set, decide_True by done. cbn. apply dict_set_set.
Qed.

(** The lookup is decided by the greatest keyframe at or before the
    frame. *)
Lemma get_zones_at_frame_at kfs g k zs :
  k ∈ Dict.keys kfs -> k <= g ->
  (forall k', k' ∈ Dict.keys kfs -> k' <= g -> k' <= k) ->
  Dict.get kfs k = Some zs ->
  KeyframeManager.get_zones_at_frame kfs g = Py.Ok zs.
Proof.
  intros Hk Hle Hmax Hget.
  destruct (get_zones_at_frame_spec kfs g)
    as [(k0 & zs0 & Hk0 & Hle0 & Hmax0 & Hget0 & ->)|[Hall _]].
  - assert (k0 = k) as -> by (specialize (Hmax _ Hk0 Hle0);
                               specialize (Hmax0 _ Hk Hle); lia).
    congruence.
  - specialize (Hall _ Hk). lia.
Qed.

Lemma get_zones_at_frame_before kfs g :
  (forall k, k ∈ Dict.keys kfs -> g < k) ->
  KeyframeManager.get_zones_at_frame kfs g = Py.Ok [].
Proof.
  intros Hall.
  destruct (get_zones_at_frame_spec kfs g)
    as [(k0 & zs0 & Hk0 & Hle0 & _)|[_ ->]]; [|done].
  specialize (Hall _ Hk0). lia.
Qed.

(** Two timelines that agree on the keyframes at or before a frame give
    the same zones there. *)
Lemma get_zones_at_frame_ext kfs kfs' g :
  (forall k, k <= g -> (k ∈ Dict.keys kfs <-> k ∈ Dict.keys kfs')) ->
  (forall k, k <= g -> Dict.get kfs' k = Dict.get kfs k) ->
  KeyframeManager.get_zones_at_frame kfs' g
  = KeyframeManager.get_zones_at_frame kfs g.
Proof.
  intros Hkeys Hget.
  destruct (get_zones_at_frame_spec kfs g)
    as [(k0 & zs0 & Hk0 & Hle0 & Hmax0 & Hget0 & ->)|[Hall ->]].
  - apply (get_zones_at_frame_at kfs' g k0 zs0); try done.
    + by apply Hkeys.
    + intros k' Hk' Hle'. apply Hmax0; [|done]. by apply Hkeys.
    + by rewrite Hget.
  - apply get_zones_at_frame_before. intros k Hk.
    destruct (decide (k <= g)) as [Hle|]; [|lia].
    apply Hkeys in Hk; [|done]. by apply Hall.
Qed.

Lemma add_zone_keys kfs f z k :
  k ∈ Dict.keys (KeyframeManager.add_zone kfs f z)
  <-> k = f \/ k ∈ Dict.keys kfs.
Proof.
  rewrite add_zone_set, dict_keys_set. case_decide as Hin.
  - split; [by right | by intros [->|?]].
  - rewrite elem_of_app, list_elem_of_singleton. tauto.
Qed.

Lemma add_zone_get kfs f z k :
  Dict.get (KeyframeManager.add_zone kfs f z) k
  = if decide (f = k) then Some (default [] (Dict.get kfs f) ++ [z])
    else Dict.get kfs k.
Proof. by rewrite add_zone_set, dict_get_set. Qed.
End TimelineEdits.

(** X1. A zone added at frame f is stored at the end of the zones keyed
    at f, every other keyframe keeps its zones, and the lookups change as
    follows: before f nothing changes; from f up to the next keyframe the
    lookup returns exactly the zones keyed at f with the new zone last (so
    when f was not a keyframe before, the zones that frame f inherited
    from an earlier keyframe are no longer returned there); from the next
    keyframe on nothing changes. *)
Theorem add_zone_starts_a_keyframe
    {Zone : Type} (kfs : list (Z * list Zone)) (f : Z) (z : Zone) :
  let kfs' := KeyframeManager.add_zone kfs f z in
  let here := default [] (Dict.get kfs f) ++ [z] in
  Dict.get kfs' f = Some here
  /\ (forall k, k <> f -> Dict.get kfs' k = Dict.get kfs k)
  /\ (forall g, g < f ->
        KeyframeManager.get_zones_at_frame kfs' g
        = KeyframeManager.get_zones_at_frame kfs g)
  /\ (forall g, f <= g ->
        (forall k, k ∈ Dict.keys kfs -> k <= g -> k <= f) ->
        KeyframeManager.get_zones_at_frame kfs' g = Py.Ok here)
  /\ (forall g k, k ∈ Dict.keys kfs -> f < k -> k <= g ->
        KeyframeManager.get_zones_at_frame kfs' g
        = KeyframeManager.get_zones_at_frame kfs g).
Proof.
  intros kfs' here. split_and!.
  - unfold kfs'. by rewrite add_zone_get, decide_True.
  - intros k Hk. unfold kfs'. by rewrite add_zone_get, decide_False.
  - intros g Hg. apply get_zones_at_frame_ext.
    + intros k Hk. unfold kfs'. rewrite add_zone_keys.
      split; [by right | intros [->|?]; [lia | done]].
    + intros k Hk. unfold kfs'. rewrite add_zone_get, decide_False by lia. done.
  - intros g Hg Hmax. apply (get_zones_at_frame_at kfs' g f here); try done.
    + unfold kfs'. apply add_zone_keys. by left.
    + intros k' Hk' Hle'. unfold kfs' in Hk'. apply add_zone_keys in Hk' as [->|Hk'].
      * lia.
      * by apply Hmax.
    + unfold kfs'. by rewrite add_zone_get, decide_True.
  - intros g k Hk Hfk Hkg.
    destruct (get_zones_at_frame_spec kfs g)
      as [(k0 & zs0 & Hk0 & Hle0 & Hmax0 & Hget0 & ->)|[Hall _]].
    + assert (f < k0) by (specialize (Hmax0 _ Hk Hkg); lia).
      apply (get_zones_at_frame_at kfs' g k0 zs0); try done.
      * unfold kfs'. apply add_zone_keys. by right.
      * intros k' Hk' Hle'. unfold kfs' in Hk'.
        apply add_zone_keys in Hk' as [->|Hk']; [lia | by apply Hmax0].
      * unfold kfs'. rewrite add_zone_get, decide_False by lia. done.
    + specialize (Hall _ Hk). lia.
Qed.

Lemma add_zone_starts_a_keyframe_witness :
  KeyframeManager.get_zones_at_frame
    (KeyframeManager.add_zone [(0, ["a"]); (10, ["b"])] 5 "c") 3
  = KeyframeManager.get_zones_at_frame [(0, ["a"]); (10, ["b"])] 3
  /\ KeyframeManager.get_zones_at_frame
       (KeyframeManager.add_zone [(0, ["a"]); (10, ["b"])] 5 "c") 7
     = Py.Ok ["c"]
  /\ KeyframeManager.get_zones_at_frame
       (KeyframeManager.add_zone [(0, ["a"]); (10, ["b"])] 5 "c") 12
     = KeyframeManager.get_zones_at_frame [(0, ["a"]); (10, ["b"])] 12.
Proof.
  destruct (add_zone_starts_a_keyframe [(0, ["a"]); (10, ["b"])] 5 "c")
    as (_ & _ & Hbefore & Hfrom & Hafter).
  split_and!.
  - apply Hbefore. lia.
  - apply Hfrom; [lia|]. intros k Hk Hle. cbn in Hk.
    apply elem_of_cons in Hk as [->|Hk]; [lia|].
    apply list_elem_of_singleton in Hk as ->. lia.
  - apply (Hafter 12 10); [|lia|lia]. right. left.
Defined.

Section TimelineRemovals.
Context {Zone : Type}.
Implicit Types (kfs : list (Z * list Zone)) (f g i : Z) (z : Zone).

Lemma dict_get_None_key {V} (d : list (Z * V)) k :
  Dict.get d k = None -> k ∉ Dict.keys d.
Proof.
  intros Hget Hin. apply dict_key_get in Hin as [v Hv]. congruence.
Qed.

Lemma dict_del_key {V} (d : list (Z * V)) k kv :
  Dict.wf d -> kv ∈ Dict.del d k -> fst kv <> k.
Proof.
  intros Hwf Hin. assert (fst kv ∈ Dict.keys (Dict.del d k)) as Hk.
  { apply list_elem_of_fmap. by exists kv. }
  rewrite dict_keys_del in Hk by done.
  by apply list_elem_of_filter in Hk as [Hne _].
Qed.

(** What a successful [remove_zone] leaves. *)
Lemma remove_zone_ok kfs f i zs :
  Dict.get kfs f = Some zs -> 0 <= i < Z.of_nat (length zs) ->
  KeyframeManager.remove_zone kfs f i
  = (match delete (Z.to_nat i) zs with
     | [] => Dict.del (Dict.set kfs f []) f
     | zs' => Dict.set kfs f zs'
     end, true).
Proof.
  intros Hget Hi. unfold KeyframeManager.remove_zone, KeyframeManager.pop_at.
  rewrite Hget.
  replace ((0 <=? i) && (i <? Z.of_nat (length zs))) with true
    by (symmetry; apply andb_true_intro; split;
        [apply Z.leb_le | apply Z.ltb_lt]; lia).
  by destruct (delete (Z.to_nat i) zs).
Qed.

Lemma remove_zone_refused kfs f i :
  (forall zs, Dict.get kfs f = Some zs -> ~ 0 <= i < Z.of_nat (length zs)) ->
  KeyframeManager.remove_zone kfs f i = (kfs, false).
Proof.
  intros Hno. unfold KeyframeManager.remove_zone.
  destruct (Dict.get kfs f) as [zs|]; [|done].
  specialize (Hno zs eq_refl).
  destruct (0 <=? i) eqn:H0; [|done].
  destruct (i <? Z.of_nat (length zs)) eqn:H1; [|done].
  apply Z.leb_le in H0. apply Z.ltb_lt in H1. lia.
Qed.

Lemma remove_zone_cases kfs f i :
  (exists zs, Dict.get kfs f = Some zs /\ 0 <= i < Z.of_nat (length zs))
  \/ (forall zs, Dict.get kfs f = Some zs -> ~ 0 <= i < Z.of_nat (length zs)).
Proof.
  destruct (Dict.get kfs f) as [zs|]; [|by right].
  destruct (decide (0 <= i < Z.of_nat (length zs))) as [Hi|Hi].
  - left. by exists zs.
  - right. by intros zs' [= <-].
Qed.

Lemma remove_keyframe_eq kfs f :
  KeyframeManager.remove_keyframe kfs f
  = if decide (f ∈ Dict.keys kfs) then (Dict.del kfs f, true) else (kfs, false).
Proof.
  unfold KeyframeManager.remove_keyframe.
  destruct (Dict.mem kfs f) eqn:Hm.
  - apply dict_mem_true in Hm. by rewrite decide_True.
  - apply dict_mem_false in Hm. by rewrite decide_False.
Qed.

(** The zones at a frame depend only on which keyframes lie at or before
    it. *)
Lemma get_zones_at_frame_same_keyframes kfs g g' :
  (forall k, k ∈ Dict.keys kfs -> k <= g <-> k <= g') ->
  KeyframeManager.get_zones_at_frame kfs g
  = KeyframeManager.get_zones_at_frame kfs g'.
Proof.
  intros Hsame.
  destruct (get_zones_at_frame_spec kfs g)
    as [(k0 & zs0 & Hk0 & Hle0 & Hmax0 & Hget0 & ->)|[Hall ->]]; symmetry.
  - apply (get_zones_at_frame_at kfs g' k0 zs0); try done.
    + by apply Hsame.
    + intros k' Hk' Hle'. apply Hmax0; [done|]. by apply Hsame.
  - apply get_zones_at_frame_before. intros k Hk.
    destruct (decide (k <= g')) as [Hle|]; [|lia].
    apply Hsame in Hle; [|done]. specialize (Hall _ Hk). lia.
Qed.

Lemma timeline_ok_add_zone kfs f z :
  timeline_ok kfs -> timeline_ok (KeyframeManager.add_zone kfs f z).
Proof.
  intros [Hwf Hne]. rewrite add_zone_set. split; [by apply dict_set_wf|].
  apply Forall_forall. intros kv [->|Hin]%dict_in_set.
  - cbn. by destruct (default [] (Dict.get kfs f)).
  - rewrite Forall_forall in Hne. by apply Hne.
Qed.

Lemma timeline_ok_remove_zone kfs f i :
  timeline_ok kfs -> timeline_ok (fst (KeyframeManager.remove_zone kfs f i)).
Proof.
  intros [Hwf Hne].
  destruct (remove_zone_cases kfs f i) as [(zs & Hget & Hi)|Hno].
  - rewrite (remove_zone_ok _ _ _ _ Hget Hi). cbn [fst].
    rewrite Forall_forall in Hne.
    destruct (delete (Z.to_nat i) zs) as [|z0 zs'] eqn:Hdel.
    + split; [by apply dict_del_wf, dict_set_wf|].
      apply Forall_forall. intros kv Hin.
      pose proof (dict_del_key _ _ _ (dict_set_wf _ f [] Hwf) Hin) as Hk.
      apply dict_in_del, dict_in_set in Hin as [->|Hin]; [done | by apply Hne].
    + split; [by apply dict_set_wf|].
      apply Forall_forall. intros kv [->|Hin]%dict_in_set; [done | by apply Hne].
  - by rewrite (remove_zone_refused _ _ _ Hno).
Qed.

Lemma timeline_ok_remove_keyframe kfs f :
  timeline_ok kfs -> timeline_ok (fst (KeyframeManager.remove_keyframe kfs f)).
Proof.
  intros [Hwf Hne]. rewrite remove_keyframe_eq. case_decide; [|done]. cbn [fst].
  split; [by apply dict_del_wf|].
  rewrite Forall_forall in Hne. apply Forall_forall.
  intros kv Hin%dict_in_del. by apply Hne.
Qed.

Lemma timeline_ok_apply_edit kfs (e : edit Zone) :
  timeline_ok kfs -> timeline_ok (apply_edit kfs e).
Proof.
  intros Hok. destruct e as [f z|f i|f|]; cbn [apply_edit].
  - by apply timeline_ok_add_zone.
  - by apply timeline_ok_remove_zone.
  - by apply timeline_ok_remove_keyframe.
  - split; [apply NoDup_nil_2 | apply Forall_nil_2].
Qed.

Lemma timeline_ok_edits (edits : list (edit Zone)) kfs :
  timeline_ok kfs -> timeline_ok (fold_left apply_edit edits kfs).
Proof.
  revert kfs. induction edits as [|e edits IH]; intros kfs Hok; [done|].
  cbn. by apply IH, timeline_ok_apply_edit.
Qed.

Lemma zone_total_nonneg kfs : 0 <= zone_total kfs.
Proof. unfold zone_total. lia. Qed.

Lemma zone_total_cons k zs kfs :
  zone_total ((k, zs) :: kfs) = Z.of_nat (length zs) + zone_total kfs.
Proof. unfold zone_total. cbn. rewrite length_app. lia. Qed.

Lemma zone_total_set kfs f zs :
  zone_total (Dict.set kfs f zs)
  = zone_total kfs - Z.of_nat (length (default [] (Dict.get kfs f)))
    + Z.of_nat (length zs).
Proof.
  induction kfs as [|[k0 zs0] kfs IH]; cbn [Dict.set Dict.get].
  - rewrite zone_total_cons. cbn. lia.
  - destruct (decide (k0 = f)) as [->|Hne].
    + rewrite !zone_total_cons. cbn. lia.
    + rewrite !zone_total_cons, IH. lia.
Qed.

Lemma zone_total_del kfs f :
  zone_total (Dict.del kfs f)
  = zone_total kfs - Z.of_nat (length (default [] (Dict.get kfs f))).
Proof.
  induction kfs as [|[k0 zs0] kfs IH]; cbn [Dict.del Dict.get].
  - cbn. lia.
  - destruct (decide (k0 = f)) as [->|Hne].
    + rewrite !zone_total_cons. cbn. lia.
    + rewrite !zone_total_cons, IH. lia.
Qed.

Lemma zone_total_item kfs k zs :
  (k, zs) ∈ kfs -> Z.of_nat (length zs) <= zone_total kfs.
Proof.
  induction kfs as [|[k0 zs0] kfs IH].
  - intros Hin. by apply elem_of_nil in Hin.
  - rewrite zone_total_cons. intros [[= -> ->]|Hin]%elem_of_cons.
    + pose proof (zone_total_nonneg kfs). lia.
    + specialize (IH Hin). lia.
Qed.

Lemma delete_last (zs : list Zone) z : delete (length zs) (zs ++ [z]) = zs.
Proof. induction zs as [|z0 zs IH]; cbn; [done|]. f_equal. exact IH. Qed.

Lemma length_delete_in_range (zs : list Zone) n :
  (n < length zs)%nat -> length (delete n zs) = pred (length zs).
Proof.
  revert n. induction zs as [|z0 zs IH]; intros n Hn; cbn in *; [lia|].
  destruct n as [|n]; cbn; [done|]. rewrite IH by lia. lia.
Qed.
End TimelineRemovals.

(** X2. remove_zone removes a zone exactly when the frame is a keyframe
    and 0 <= index < the number of its zones (a negative index is refused,
    it does not count from the end); otherwise it returns False and leaves
    the timeline as it was. When it removes, the zones keyed at the frame
    are the former ones without the one at the index, the keyframe itself
    is gone when that was its only zone, and no other keyframe changes. *)
Theorem remove_zone_checks_frame_and_index
    {Zone : Type} (kfs : list (Z * list Zone)) (f i : Z) :
  let kfs' := fst (KeyframeManager.remove_zone kfs f i) in
  let removed := snd (KeyframeManager.remove_zone kfs f i) in
  (removed = true
   <-> exists zs, Dict.get kfs f = Some zs /\ 0 <= i < Z.of_nat (length zs))
  /\ (removed = false -> kfs' = kfs)
  /\ (forall k, k <> f -> Dict.get kfs' k = Dict.get kfs k)
  /\ (forall zs,
        Dict.wf kfs -> Dict.get kfs f = Some zs ->
        0 <= i < Z.of_nat (length zs) ->
        Dict.wf kfs'
        /\ Dict.get kfs' f
           = match delete (Z.to_nat i) zs with
             | [] => None
             | zs' => Some zs'
             end
        /\ (f ∈ Dict.keys kfs' <-> (1 < length zs)%nat)).
Proof.
  intros kfs' removed. unfold kfs', removed. clear kfs' removed.
  destruct (remove_zone_cases kfs f i) as [(zs & Hget & Hi)|Hno].
  - rewrite (remove_zone_ok _ _ _ _ Hget Hi). cbn [fst snd].
    split_and!.
    + split; [eauto | done].
    + done.
    + intros k Hk. destruct (delete (Z.to_nat i) zs).
      * rewrite dict_get_del_ne by done.
        by rewrite dict_get_set, decide_False.
      * by rewrite dict_get_set, decide_False.
    + intros zs0 Hwf Hget0 _. assert (zs0 = zs) as -> by congruence.
      pose proof (length_delete_in_range zs (Z.to_nat i) ltac:(lia)) as Hlen.
      destruct (delete (Z.to_nat i) zs) as [|z0 zs'] eqn:Hdel.
      * cbn in Hlen. split_and!.
        -- by apply dict_del_wf, dict_set_wf.
        -- by apply dict_get_del_eq, dict_set_wf.
        -- split; [|lia]. intros Hin. apply dict_key_get in Hin as [v Hv].
           rewrite dict_get_del_eq in Hv by (by apply dict_set_wf). done.
      * cbn in Hlen. split_and!.
        -- by apply dict_set_wf.
        -- by rewrite dict_get_set, decide_True.
        -- split; [lia|]. intros _.
           apply (dict_get_Some_key _ _ (z0 :: zs')).
           by rewrite dict_get_set, decide_True.
  - rewrite (remove_zone_refused _ _ _ Hno). cbn [fst snd]. split_and!; try done.
    + split; [done|]. intros (zs & Hget & Hi). by destruct (Hno zs Hget).
    + intros zs _ Hget Hi. by destruct (Hno zs Hget).
Qed.

Lemma remove_zone_checks_frame_and_index_witness :
  fst (KeyframeManager.remove_zone [(0, ["a"; "b"]); (10, ["c"])] 0 (-1))
  = [(0, ["a"; "b"]); (10, ["c"])]
  /\ Dict.get (fst (KeyframeManager.remove_zone
                      [(0, ["a"; "b"]); (10, ["c"])] 10 0)) 0
     = Some ["a"; "b"]
  /\ Dict.get (fst (KeyframeManager.remove_zone
                      [(0, ["a"; "b"]); (10, ["c"])] 10 0)) 10
     = None.
Proof.
  split_and!.
  - apply (remove_zone_checks_frame_and_index
             [(0, ["a"; "b"]); (10, ["c"])] 0 (-1)).
    reflexivity.
  - rewrite (proj1 (proj2 (proj2 (remove_zone_checks_frame_and_index
               [(0, ["a"; "b"]); (10, ["c"])] 10 0))) 0); [reflexivity | lia].
  - apply (proj2 (proj2 (proj2 (remove_zone_checks_frame_and_index
             [(0, ["a"; "b"]); (10, ["c"])] 10 0))) ["c"]).
    + unfold Dict.wf, Dict.keys. cbn [map fst].
      apply (bool_decide_unpack _). vm_compute. exact I.
    + reflexivity.
    + cbn. lia.
Defined.

(** X3. Every timeline that the editing calls (add_zone, remove_zone,
    remove_keyframe, clear, in any order and with any arguments) make of
    the empty one has no frame number twice and no keyframe without a
    zone. So on such a timeline is_empty is True exactly when the total
    zone count is 0, and from its first keyframe on get_zones_at_frame
    never returns the empty list. *)
Theorem edits_keep_keyframes_non_empty
    {Zone : Type} (edits : list (edit Zone)) :
  let kfs := fold_left apply_edit edits [] in
  timeline_ok kfs
  /\ (KeyframeManager.is_empty kfs = true
      <-> KeyframeManager.get_zone_count kfs None = Py.Ok 0)
  /\ (forall k g, k ∈ Dict.keys kfs -> k <= g ->
        exists z zs, KeyframeManager.get_zones_at_frame kfs g = Py.Ok (z :: zs)).
Proof.
  intros kfs.
  assert (timeline_ok kfs) as Hok.
  { apply timeline_ok_edits. split; [apply NoDup_nil_2 | apply Forall_nil_2]. }
  split; [done|]. destruct Hok as [Hwf Hne]. split.
  - unfold KeyframeManager.is_empty, KeyframeManager.get_zone_count.
    destruct kfs as [|[k0 zs0] kfs']; [done|].
    apply Forall_cons in Hne as [Hzs0 _]. cbn in Hzs0.
    rewrite bool_decide_eq_false_2 by done. split; [done|].
    intros [= Hlen]. destruct zs0; [done|]. cbn in Hlen. lia.
  - intros k g Hk Hle.
    destruct (get_zones_at_frame_spec kfs g)
      as [(k0 & zs0 & Hk0 & Hle0 & Hmax0 & Hget0 & ->)|[Hall _]].
    + apply dict_get_In in Hget0. rewrite Forall_forall in Hne.
      specialize (Hne _ Hget0). cbn in Hne. destruct zs0; [done | eauto].
    + specialize (Hall _ Hk). lia.
Qed.

Lemma edits_keep_keyframes_non_empty_witness :
  exists z zs,
    KeyframeManager.get_zones_at_frame
      (fold_left apply_edit
         [AddZone 4 "a"; AddZone 9 "b"; RemoveZone 9 0; AddZone 4 "c";
          RemoveZone 4 0] []) 20
    = Py.Ok (z :: zs).
Proof.
  apply (proj2 (proj2 (edits_keep_keyframes_non_empty
           [AddZone 4 "a"; AddZone 9 "b"; RemoveZone 9 0; AddZone 4 "c";
            RemoveZone 4 0])) 4 20).
  - vm_compute. left.
  - lia.
Defined.

(** X4. Removing the zone that add_zone has just added (the last index at
    that frame) gives back the timeline as it was, item for item, provided
    the frame was not keyed with an empty list of zones before (which the
    editing calls never leave). *)
Theorem remove_zone_undoes_add_zone
    {Zone : Type} (kfs : list (Z * list Zone)) (f : Z) (z : Zone) :
  Dict.get kfs f <> Some [] ->
  KeyframeManager.remove_zone (KeyframeManager.add_zone kfs f z) f
    (Z.of_nat (length (default [] (Dict.get kfs f))))
  = (kfs, true).
Proof.
  intros Hne. rewrite add_zone_set.
  set (zs := default [] (Dict.get kfs f)).
  erewrite remove_zone_ok;
    [|by rewrite dict_get_set, decide_True | rewrite length_app; cbn; lia].
  rewrite Nat2Z.id, delete_last. f_equal.
  destruct (Dict.get kfs f) as [zs0|] eqn:Hget; subst zs; cbn.
  - destruct zs0 as [|z0 zs0]; [done|].
    rewrite dict_set_set. by apply dict_set_same.
  - rewrite dict_set_set. by apply dict_del_set_fresh, dict_get_None_key.
Qed.

Lemma remove_zone_undoes_add_zone_witness :
  KeyframeManager.remove_zone
    (KeyframeManager.add_zone [(0, ["a"]); (10, ["b"])] 10 "c") 10 1
  = ([(0, ["a"]); (10, ["b"])], true)
  /\ KeyframeManager.remove_zone
       (KeyframeManager.add_zone [(0, ["a"]); (10, ["b"])] 5 "c") 5 0
     = ([(0, ["a"]); (10, ["b"])], true).
Proof.
  split.
  - apply (remove_zone_undoes_add_zone [(0, ["a"]); (10, ["b"])] 10 "c").
    vm_compute. congruence.
  - apply (remove_zone_undoes_add_zone [(0, ["a"]); (10, ["b"])] 5 "c").
    vm_compute. congruence.
Defined.

(** X5. The total zone count follows the edits: add_zone raises it by
    exactly 1, a remove_zone that returns True lowers it by exactly 1,
    remove_keyframe lowers it by the number of zones keyed at the frame,
    clear makes it 0; the count asked for one frame never raises an
    exception and lies between 0 and the total. *)
Theorem zone_count_follows_the_edits
    {Zone : Type} (kfs : list (Z * list Zone)) (f i : Z) (z : Zone) :
  KeyframeManager.get_zone_count kfs None = Py.Ok (zone_total kfs)
  /\ KeyframeManager.get_zone_count (KeyframeManager.add_zone kfs f z) None
     = Py.Ok (zone_total kfs + 1)
  /\ (snd (KeyframeManager.remove_zone kfs f i) = true ->
      KeyframeManager.get_zone_count
        (fst (KeyframeManager.remove_zone kfs f i)) None
      = Py.Ok (zone_total kfs - 1))
  /\ KeyframeManager.get_zone_count
       (fst (KeyframeManager.remove_keyframe kfs f)) None
     = Py.Ok (zone_total kfs
              - Z.of_nat (length (default [] (Dict.get kfs f))))
  /\ KeyframeManager.get_zone_count (KeyframeManager.clear kfs) None = Py.Ok 0
  /\ (forall g, exists n,
        KeyframeManager.get_zone_count kfs (Some g) = Py.Ok n
        /\ 0 <= n <= zone_total kfs).
Proof.
  assert (forall d : list (Z * list Zone),
            KeyframeManager.get_zone_count d None = Py.Ok (zone_total d))
    as Hcount by done.
  split_and!.
  - done.
  - rewrite Hcount, add_zone_set, zone_total_set, length_app. cbn.
    f_equal. lia.
  - intros Hrem.
    destruct (remove_zone_cases kfs f i) as [(zs & Hget & Hi)|Hno].
    + rewrite (remove_zone_ok _ _ _ _ Hget Hi), Hcount. cbn [fst]. f_equal.
      pose proof (length_delete_in_range zs (Z.to_nat i) ltac:(lia)) as Hlen.
      destruct (delete (Z.to_nat i) zs) as [|z0 zs'] eqn:Hdel.
      * rewrite zone_total_del, zone_total_set, dict_get_set, decide_True by done.
        rewrite Hget. cbn in *. lia.
      * rewrite zone_total_set, Hget. cbn in *. lia.
    + by rewrite (remove_zone_refused _ _ _ Hno) in Hrem.
  - rewrite Hcount, remove_keyframe_eq. case_decide as Hin; cbn [fst].
    + by rewrite zone_total_del.
    + rewrite (dict_get_None kfs f Hin). cbn. f_equal. lia.
  - done.
  - intros g. unfold KeyframeManager.get_zone_count.
    destruct (get_zones_at_frame_spec kfs g)
      as [(k0 & zs0 & Hk0 & Hle0 & Hmax0 & Hget0 & ->)|[Hall ->]]; cbn.
    + eexists. split; [done|]. apply dict_get_In, zone_total_item in Hget0. lia.
    + eexists. split; [done|]. pose proof (zone_total_nonneg kfs). cbn. lia.
Qed.

Lemma zone_count_follows_the_edits_witness :
  KeyframeManager.get_zone_count
    (fst (KeyframeManager.remove_zone [(0, ["a"; "b"]); (10, ["c"])] 0 1)) None
  = Py.Ok (zone_total [(0, ["a"; "b"]); (10, ["c"])] - 1).
Proof.
  apply (zone_count_follows_the_edits [(0, ["a"; "b"]); (10, ["c"])] 0 1 "z").
  reflexivity.
Defined.

(** X6. On a timeline with no frame number twice, remove_keyframe returns
    True exactly when the frame is a keyframe; afterwards the frame is no
    keyframe, the other keyframes are there in the same order with their
    zones, frames before it look up what they did, and the frames from it
    up to the next keyframe look up what the frame just before it does:
    they inherit from the previous keyframe, or have no zones when there
    is none. *)
Theorem remove_keyframe_falls_back_to_previous
    {Zone : Type} (kfs : list (Z * list Zone)) (f : Z) :
  Dict.wf kfs ->
  let kfs' := fst (KeyframeManager.remove_keyframe kfs f) in
  (snd (KeyframeManager.remove_keyframe kfs f) = true <-> f ∈ Dict.keys kfs)
  /\ Dict.wf kfs'
  /\ Dict.keys kfs' = filter (fun k => k <> f) (Dict.keys kfs)
  /\ Dict.get kfs' f = None
  /\ (forall k, k <> f -> Dict.get kfs' k = Dict.get kfs k)
  /\ (forall g, g < f ->
        KeyframeManager.get_zones_at_frame kfs' g
        = KeyframeManager.get_zones_at_frame kfs g)
  /\ (forall g, f <= g ->
        (forall k, k ∈ Dict.keys kfs -> k <= g -> k <= f) ->
        KeyframeManager.get_zones_at_frame kfs' g
        = KeyframeManager.get_zones_at_frame kfs (f - 1)).
Proof.
  intros Hwf kfs'.
  assert (kfs' = if decide (f ∈ Dict.keys kfs) then Dict.del kfs f else kfs)
    as Hkfs'.
  { unfold kfs'. rewrite remove_keyframe_eq. by case_decide. }
  assert (Dict.keys kfs' = filter (fun k => k <> f) (Dict.keys kfs)) as Hkeys.
  { rewrite Hkfs'. case_decide as Hin; [by apply dict_keys_del|].
    by rewrite filter_ne_id. }
  assert (forall k, k <> f -> Dict.get kfs' k = Dict.get kfs k) as Hget.
  { intros k Hk. rewrite Hkfs'. case_decide; [|done].
    by apply dict_get_del_ne. }
  assert (forall k, k ∈ Dict.keys kfs' <-> k <> f /\ k ∈ Dict.keys kfs)
    as Hin'.
  { intros k. by rewrite Hkeys, list_elem_of_filter. }
  assert (forall g, g < f ->
            KeyframeManager.get_zones_at_frame kfs' g
            = KeyframeManager.get_zones_at_frame kfs g) as Hbefore.
  { intros g Hg. apply get_zones_at_frame_ext.
    - intros k Hk. rewrite Hin'. split; [|tauto]. intros Hin. split; [lia | done].
    - intros k Hk. apply Hget. lia. }
  split_and!; try done.
  - rewrite remove_keyframe_eq. by case_decide.
  - rewrite Hkfs'. case_decide; [by apply dict_del_wf | done].
  - apply dict_get_None. rewrite Hin'. tauto.
  - intros g Hg Hmax. rewrite <- Hbefore by lia.
    apply get_zones_at_frame_same_keyframes.
    intros k Hk. apply Hin' in Hk as [Hne Hk]. split; [|lia].
    intros Hle. specialize (Hmax _ Hk Hle). lia.
Qed.

Lemma remove_keyframe_falls_back_to_previous_witness :
  KeyframeManager.get_zones_at_frame
    (fst (KeyframeManager.remove_keyframe
            [(0, ["a"]); (10, ["b"]); (20, ["c"])] 10)) 15
  = KeyframeManager.get_zones_at_frame
      [(0, ["a"]); (10, ["b"]); (20, ["c"])] (10 - 1).
Proof.
  apply (remove_keyframe_falls_back_to_previous
           [(0, ["a"]); (10, ["b"]); (20, ["c"])] 10).
  - unfold Dict.wf, Dict.keys. cbn [map fst].
    apply (bool_decide_unpack _). vm_compute. exact I.
  - lia.
  - intros k Hk Hle. cbn in Hk.
    apply elem_of_cons in Hk as [->|Hk]; [lia|].
    apply elem_of_cons in Hk as [->|Hk]; [lia|].
    apply list_elem_of_singleton in Hk as ->. lia.
Defined.

(* ===================================================================== *)
(** * Reading a dict of keyframes, writing the sidecar file               *)
(* ===================================================================== *)

Lemma foldM_app {A B} (f : B -> A -> Py.result B) (xs ys : list A) (acc : B) :
  Py.foldM f (xs ++ ys) acc = Py.bind (Py.foldM f xs acc) (Py.foldM f ys).
Proof.
  revert acc. induction xs as [|x xs IH]; intros acc; cbn; [done|].
  destruct (f acc x); cbn; [apply IH | done].
Qed.

(** [from_dict] on a dict with one more item at the end. *)
Lemma from_dict_snoc {V} (data : list (string * V)) s v (kfs' : list (Z * V)) :
  KeyframeManager.from_dict (data ++ [(s, v)]) = Py.Ok kfs' ->
  exists kfs k,
    KeyframeManager.from_dict data = Py.Ok kfs /\ Py.int s = Py.Ok k
    /\ kfs' = Dict.set kfs k v.
Proof.
  unfold KeyframeManager.from_dict. rewrite foldM_app.
  destruct (Py.foldM _ data []) as [kfs|e]; cbn; [|done].
  destruct (Py.int s) as [k|e]; cbn; [|done].
  intros [= <-]. eauto.
Qed.

Lemma dict_set_length {K V} `{EqDecision K} (d : list (K * V)) k v :
  (length (Dict.set d k v) <= S (length d))%nat.
Proof.
  induction d as [|[k0 v0] d IH]; cbn; [lia|].
  case_decide; cbn; lia.
Qed.

(** X7. When from_dict succeeds on a dict of items (in their order), the
    timeline it builds has no frame number twice, and the value under a
    frame number k is the value of the last item whose key int() reads as
    k: keys such as "1", "01", " 1" and "+1" name the same frame, and the
    last of them wins. Every key of the dict is read by int() and is a
    frame number of the result, which has at most as many keyframes as the
    dict has items. *)
Theorem from_dict_keeps_the_last_item
    {V : Type} (data : list (string * V)) (kfs : list (Z * V)) :
  KeyframeManager.from_dict data = Py.Ok kfs ->
  Dict.wf kfs
  /\ (forall k v, Dict.get kfs k = Some v <-> exists i, last_item_for data k i v)
  /\ (forall s v, (s, v) ∈ data ->
        exists k, Py.int s = Py.Ok k /\ k ∈ Dict.keys kfs)
  /\ (length kfs <= length data)%nat.
Proof.
  revert kfs. induction data as [|[s v] data IH] using rev_ind; intros kfs'.
  - intros [= <-]. split_and!.
    + apply NoDup_nil_2.
    + intros k v. split; [done|]. by intros (i & s & Hi & _).
    + intros s v Hin. by apply elem_of_nil in Hin.
    + done.
  - intros (kfs & k & Hdata & Hk & ->)%from_dict_snoc.
    destruct (IH kfs Hdata) as (Hwf & Hget & Hkeys & Hlen). split_and!.
    + by apply dict_set_wf.
    + intros k0 v0. rewrite dict_get_set. case_decide as Hkk; subst.
      * split.
        -- intros [= <-]. exists (length data), s. split_and!.
           ++ by rewrite lookup_app_r, Nat.sub_diag by lia.
           ++ done.
           ++ intros j s' v' Hj Hlook. apply lookup_lt_Some in Hlook.
              rewrite length_app in Hlook. cbn in Hlook. lia.
        -- intros (i & s0 & Hi & Hs0 & Hlast).
           destruct (decide (i < length data)%nat) as [Hlt|Hge].
           ++ destruct (Hlast (length data) s v Hlt); [|done].
              by rewrite lookup_app_r, Nat.sub_diag by lia.
           ++ pose proof (lookup_lt_Some _ _ _ Hi) as Hi'.
              rewrite length_app in Hi'. cbn in Hi'.
              assert (i = length data) as -> by lia.
              rewrite lookup_app_r, Nat.sub_diag in Hi by lia. cbn in Hi.
              congruence.
      * rewrite Hget. split.
        -- intros (i & s0 & Hi & Hs0 & Hlast). exists i, s0.
           pose proof (lookup_lt_Some _ _ _ Hi) as Hi'. split_and!.
           ++ by rewrite lookup_app_l.
           ++ done.
           ++ intros j s' v' Hj Hlook.
              destruct (decide (j < length data)%nat) as [Hlt|Hge].
              ** rewrite lookup_app_l in Hlook by done. by eapply Hlast.
              ** pose proof (lookup_lt_Some _ _ _ Hlook) as Hj'.
                 rewrite length_app in Hj'. cbn in Hj'.
                 assert (j = length data) as -> by lia.
                 rewrite lookup_app_r, Nat.sub_diag in Hlook by lia.
                 cbn in Hlook. injection Hlook as <- <-. congruence.
        -- intros (i & s0 & Hi & Hs0 & Hlast).
           destruct (decide (i < length data)%nat) as [Hlt|Hge].
           ++ exists i, s0. split_and!.
              ** by rewrite lookup_app_l in Hi.
              ** done.
              ** intros j s' v' Hj Hlook. apply (Hlast j s' v' Hj).
                 rewrite lookup_app_l; [done|]. by eapply lookup_lt_Some.
           ++ pose proof (lookup_lt_Some _ _ _ Hi) as Hi'.
              rewrite length_app in Hi'. cbn in Hi'.
              assert (i = length data) as -> by lia.
              rewrite lookup_app_r, Nat.sub_diag in Hi by lia. cbn in Hi.
              congruence.
    + intros s0 v0 [Hin|Hin]%elem_of_app.
      * destruct (Hkeys _ _ Hin) as (k0 & Hk0 & Hin0). exists k0.
        split; [done|]. rewrite dict_keys_set. case_decide; [done|].
        apply elem_of_app. by left.
      * apply list_elem_of_singleton in Hin as [= -> ->]. exists k.
        split; [done|]. apply (dict_get_Some_key _ _ v).
        by rewrite dict_get_set, decide_True.
    + rewrite length_app. cbn. pose proof (dict_set_length kfs k v). lia.
Qed.

Lemma from_dict_keeps_the_last_item_witness :
  Dict.wf [(1, "b")]
  /\ (forall k v, Dict.get [(1, "b")] k = Some v
        <-> exists i, last_item_for [("1", "a"); ("01", "b")] k i v).
Proof.
  destruct (from_dict_keeps_the_last_item [("1", "a"); ("01", "b")] [(1, "b")])
    as (Hwf & Hget & _).
  - vm_compute. reflexivity.
  - split; [exact Hwf | exact Hget].
Defined.

(** X8. save_to_file writes the zones file next to the video, at the
    video's path followed by [.zones.json], which is never the path of the
    video itself: the video and every other file are left as they are.
    When the zones file can be opened for writing the call returns its
    path and the file holds the JSON form of to_dict(); when it cannot,
    OSError reaches the caller and no file changes. *)
Theorem save_to_file_writes_only_the_sidecar
    (kfs : list (Z * Py.value)) (video_path : string) (fs : gmap string file) :
  let sidecar := KeyframeManager.zones_path video_path in
  let saved := KeyframeManager.save_to_file kfs video_path fs in
  sidecar <> video_path
  /\ snd saved !! video_path = fs !! video_path
  /\ (forall p, p <> sidecar -> snd saved !! p = fs !! p)
  /\ (fs !! sidecar <> Some FLocked ->
      saved = (Py.Ok sidecar,
               <[sidecar := FJson (Json.dump
                    (Py.VDict (KeyframeManager.to_dict kfs)))]> fs))
  /\ (fs !! sidecar = Some FLocked -> saved = (Py.Raise Py.OSError, fs)).
Proof.
  intros sidecar saved.
  assert (sidecar <> video_path) as Hne by (by apply append_ne).
  assert (forall p, p <> sidecar -> snd saved !! p = fs !! p) as Hframe.
  { intros p Hp. unfold saved, KeyframeManager.save_to_file. fold sidecar.
    destruct (fs !! sidecar) as [[]|]; cbn; try done;
      by rewrite lookup_insert_ne. }
  split_and!; try done.
  - by apply Hframe.
  - intros Hl. unfold saved, KeyframeManager.save_to_file. fold sidecar.
    by destruct (fs !! sidecar) as [[]|].
  - intros Hl. unfold saved, KeyframeManager.save_to_file. fold sidecar.
    by rewrite Hl.
Qed.

Lemma save_to_file_writes_only_the_sidecar_witness :
  KeyframeManager.save_to_file [(3, Py.VList [])] "clip.mp4"
    {[ "clip.mp4" := FBinary ]}
  = (Py.Ok "clip.mp4.zones.json",
     <[ "clip.mp4.zones.json"
        := FJson (Json.dump (Py.VDict (KeyframeManager.to_dict
                                         [(3, Py.VList [])]))) ]>
       {[ "clip.mp4" := FBinary ]}).
Proof.
  apply (save_to_file_writes_only_the_sidecar [(3, Py.VList [])] "clip.mp4"
           {[ "clip.mp4" := FBinary ]}).
  vm_compute. congruence.
Defined.

(* ===================================================================== *)
(** * More on the pipeline                                                *)
(* ===================================================================== *)

(** ** A source that does not open *)

(** X9. When the input path is not a video that opens (a missing file
    included), process_video raises ValueError with the message [Could not
    open video: <path>] before it does anything else: no file is created
    or changed, no writer is opened, the callback is not called. The
    worker turns this into one error signal with that message, and emits
    neither progress nor the finished signal. *)
Theorem unopenable_input_changes_nothing
    (E : env) (input_path output_path : string)
    (keyframes : list (key * list zone)) (cb : option callback)
    (chunk_size : Z) (cancelled : Z -> bool) (w : world) :
  (forall v, fs w !! input_path <> Some (FVideo v)) ->
  process_video E input_path output_path keyframes cb chunk_size w
  = (Py.Raise (Py.ValueError ("Could not open video: " +:+ input_path)), w)
  /\ exists w',
       run E true cancelled input_path output_path keyframes w = (Py.Ok tt, w')
       /\ signals w'
          = signals w ++ [Error ("Could not open video: " +:+ input_path)]
       /\ fs w' = fs w /\ cap_state w' = cap_state w
       /\ out_state w' = out_state w /\ decoded w' = decoded w
       /\ out_writes w' = out_writes w.
Proof.
  intros Hno.
  assert (process_video E input_path output_path keyframes cb chunk_size w
          = (Py.Raise (Py.ValueError ("Could not open video: " +:+ input_path)), w))
    as Hrun.
  { unfold process_video. rewrite py_bind_eq. unfold VideoCapture.
    destruct (fs w !! input_path) as [[| | | |v]|] eqn:Hf; try done.
    by destruct (Hno v). }
  split; [exact Hrun|].
  assert (process_video E input_path output_path keyframes
            (Some (progress_callback cancelled)) 50 w
          = (Py.Raise (Py.ValueError ("Could not open video: " +:+ input_path)), w))
    as Hrun'.
  { unfold process_video. rewrite py_bind_eq. unfold VideoCapture.
    destruct (fs w !! input_path) as [[| | | |v]|] eqn:Hf; try done.
    by destruct (Hno v). }
  eexists. unfold run, try_except. rewrite py_bind_eq. cbn [mret py_ret].
  rewrite py_bind_eq, Hrun'. cbn [Py.is_ImportError Py.is_InterruptedError].
  unfold emit. split; [reflexivity|]. by world_simpl.
Qed.

Lemma unopenable_input_changes_nothing_witness :
  process_video
    (Env true (fun f _ => f) (fun f _ => f) ImageioMissing None
         (fun _ _ _ => MuxFailed None) xvid_opens)
    "notes.txt" "out.mp4" [(StrKey "0", [TupleZone 0 0 1 1])] None 50
    (init_world {[ "notes.txt" := FText "hello" ]})
  = (Py.Raise (Py.ValueError "Could not open video: notes.txt"),
     init_world {[ "notes.txt" := FText "hello" ]}).
Proof.
  apply (unopenable_input_changes_nothing
           (Env true (fun f _ => f) (fun f _ => f) ImageioMissing None
                (fun _ _ _ => MuxFailed None) xvid_opens)
           "notes.txt" "out.mp4" [(StrKey "0", [TupleZone 0 0 1 1])] None 50
           (fun _ => false) (init_world {[ "notes.txt" := FText "hello" ]})).
  intros v. vm_compute. congruence.
Defined.

(** ** The files of a run *)



(** ** The progress signals of a job *)

(** X11. A job that is not cancelled, on a video that opens and a dict
    whose keys are frame numbers, when the numbers reported fit the signal
    (the frame count the container gives and the number N of frames
    decoded are C ints), emits N + 1 signals: first, for each of the N
    frames decoded, one progress signal, the i-th (from 1) being
    progress(i, total) where total is the frame count the container gives,
    then one last signal. So the last progress signal is progress(N,
    total), which differs from (total, total) when the container's frame
    count is not the number of frames decoded. When the writer has opened,
    the last signal is finished(output path). When it has not, and nothing
    was at the intermediate path, the last signal is an error signal, that
    of the FileNotFoundError of the last step, and there is no finished
    signal. *)
Theorem worker_reports_every_frame_then_finished
    (E : env) (cancelled : Z -> bool) (video_path output_path : string)
    (keyframes : list (key * list zone)) (kf_dict : list (Z * list zone))
    (files : gmap string file) (v : video) :
  files !! video_path = Some (FVideo v) ->
  int_keyed keyframes = Py.Ok kf_dict ->
  (forall current, cancelled current = false) ->
  progress_fits v ->
  let n := length (v_frames v) in
  exists w' last,
    run E true cancelled video_path output_path keyframes (init_world files)
    = (Py.Ok tt, w')
    /\ signals w' = progress_signals (v_frame_count v) n ++ [last]
    /\ length (signals w') = S n
    /\ (forall i, (i < n)%nat ->
          signals w' !! i = Some (Progress (Z.of_nat i + 1) (v_frame_count v)))
    /\ signals w' !! n = Some last
    /\ (writer_opens_for E files output_path v -> last = Finished output_path)
    /\ (~ writer_opens_for E files output_path v ->
        files !! (output_path +:+ ".temp.avi") = None ->
        exists message, last = Error message).
Proof.
  intros Hin Hkf Hnever Hfits n.
  destruct (masks_exist keyframes kf_dict (Z.of_N (v_width v))
              (Z.of_N (v_height v)) n Hkf)
    with (idx := 0) as (masks & Hlen & Hmasks); [lia | lia |].
  assert (length (progress_signals (v_frame_count v) n) = n) as Hl.
  { unfold progress_signals. by rewrite length_map, length_seq. }
  assert (forall last,
            length (progress_signals (v_frame_count v) n ++ [last]) = S n
            /\ (forall i, (i < n)%nat ->
                  (progress_signals (v_frame_count v) n ++ [last]) !! i
                  = Some (Progress (Z.of_nat i + 1) (v_frame_count v)))
            /\ (progress_signals (v_frame_count v) n ++ [last]) !! n
               = Some last) as Hsigs.
  { intros last. split_and!.
    - rewrite length_app, Hl. cbn. lia.
    - intros i Hi. rewrite lookup_app_l by lia.
      unfold progress_signals.
      rewrite list_lookup_fmap, lookup_seq_lt by done. done.
    - rewrite lookup_app_r by lia. by rewrite Hl, Nat.sub_diag. }
  assert (writer_opens_for E files output_path v
          \/ ~ writer_opens_for E files output_path v) as [Hopen|Hnot].
  { unfold writer_opens_for.
    destruct (VideoWriter_isOpened E files (output_path +:+ ".temp.avi")
                (v_fps v) (v_width v) (v_height v)); [by left | by right]. }
  - pose proof (run_spec E cancelled video_path output_path keyframes files v
                  masks Hnever Hin Hopen Hfits Hlen Hmasks) as Hrun.
    eexists _, (Finished output_path). split; [exact Hrun|]. world_simpl.
    fold n. destruct (Hsigs (Finished output_path)) as (H1 & H2 & H3).
    split_and!; try done.
  - destruct (files !! (output_path +:+ ".temp.avi")) as [stale|] eqn:Hstale.
    + destruct (run_any E cancelled video_path output_path keyframes files
                  v masks Hnever Hin Hfits Hlen Hmasks)
        as (files' & last & Hrun).
      eexists _, last. split; [exact Hrun|]. world_simpl.
      fold n. destruct (Hsigs last) as (H1 & H2 & H3).
      split_and!; try done.
    + destruct (run_unopened E cancelled video_path output_path keyframes files
                  v masks Hnever Hin Hnot Hstale Hfits Hlen Hmasks)
        as (files' & Hrun & _).
      eexists _, (Error (Py.exn_str Py.FileNotFoundError)).
      split; [exact Hrun|]. world_simpl.
      fold n. destruct (Hsigs (Error (Py.exn_str Py.FileNotFoundError)))
        as (H1 & H2 & H3).
      split_and!; try done. intros _ _. eauto.
Qed.

Lemma worker_reports_every_frame_then_finished_witness :
  let E := Env true (fun f _ => f) (fun f _ => f) ImageioMissing None
               (fun _ _ _ => MuxFailed None) xvid_opens in
  let v := Video 2 2 30 5 [[[(1, 2, 3); (4, 5, 6)]; [(7, 8, 9); (1, 2, 3)]];
                           [[(4, 5, 6); (1, 2, 3)]; [(1, 2, 3); (7, 8, 9)]]] in
  exists w',
    run E true (fun _ => false) "in.mp4" "out.mp4"
        [(StrKey "0", [TupleZone 0 0 1 1])]
        (init_world {[ "in.mp4" := FVideo v ]}) = (Py.Ok tt, w')
    /\ signals w' = [Progress 1 5; Progress 2 5; Finished "out.mp4"].
Proof.
  intros E v.
  destruct (worker_reports_every_frame_then_finished E (fun _ => false)
              "in.mp4" "out.mp4" [(StrKey "0", [TupleZone 0 0 1 1])]
              [(0, [TupleZone 0 0 1 1])] {[ "in.mp4" := FVideo v ]} v)
    as (w' & last & Hrun & Hsig & _ & _ & _ & Hopen & _).
  - reflexivity.
  - reflexivity.
  - reflexivity.
  - split; reflexivity.
  - exists w'. split; [exact Hrun|]. rewrite Hsig, Hopen; reflexivity.
Defined.

(** ** The number of batch calls *)

Section ChunkCount.
Context {A : Type}.
Implicit Types (buffer xs : list A).




End ChunkCount.



(** ** Frames without zones *)






(** ** A dict with a key that is no frame number *)

Lemma int_of_key_cases k :
  (exists z, int_of_key k = Py.Ok z)
  \/ int_of_key k
     = Py.Raise (Py.ValueError "invalid literal for int() with base 10").
Proof.
  destruct k as [s|z]; cbn; [|eauto]. unfold Py.int.
  destruct (Py.int_opt s); eauto.
Qed.

Lemma int_keyed_raises keyframes (acc : list (Z * list zone)) k :
  k ∈ map fst keyframes -> (forall z, int_of_key k <> Py.Ok z) ->
  Py.foldM (fun d kv => k ← int_of_key (fst kv); Py.Ok (Dict.set d k (snd kv)))
           keyframes acc
  = Py.Raise (Py.ValueError "invalid literal for int() with base 10").
Proof.
  intros Hin Hk. revert acc.
  induction keyframes as [|[k0 v0] keyframes IH]; intros acc.
  - by apply elem_of_nil in Hin.
  - cbn. destruct (int_of_key_cases k0) as [[z Hz]|Hr].
    + rewrite Hz. cbn. apply IH. cbn in Hin.
      apply elem_of_cons in Hin as [->|Hin]; [|done]. by destruct (Hk z).
    + by rewrite Hr.
Qed.

(** X14. When the dict of keyframes has a key that int() does not read,
    process_video on a video with at least one frame raises ValueError at
    the first frame: by then the decoder is open, the writer has been
    created and, when it has opened, the intermediate file exists, empty;
    nothing is written, no batch call is made, and the exception leaves
    the function with the intermediate file in place and neither handle
    released. The worker reports it as an error signal. The keys are read
    frame by frame: on a video with no frames the same dict raises nothing
    and, when the writer has opened, the run completes. *)
Theorem malformed_key_aborts_at_the_first_frame
    (E : env) (input_path output_path : string)
    (keyframes : list (key * list zone)) (k : key)
    (cb : option callback) (chunk_size : Z) (cancelled : Z -> bool)
    (files : gmap string file) (v : video) :
  files !! input_path = Some (FVideo v) ->
  k ∈ map fst keyframes ->
  (forall z, int_of_key k <> Py.Ok z) ->
  let temp_output := output_path +:+ ".temp.avi" in
  let opened := VideoWriter_isOpened E files temp_output (v_fps v)
                  (v_width v) (v_height v) in
  let stopped :=
    World (if opened
           then <[temp_output :=
                    FVideo (Video (v_width v) (v_height v) (v_fps v) 0 [])]> files
           else files)
          Open 1 (if opened then Open else Unopened) [] [] [] [] in
  (v_frames v <> [] ->
   exists msg,
     process_video E input_path output_path keyframes cb chunk_size
                   (init_world files)
     = (Py.Raise (Py.ValueError msg), stopped)
     /\ run E true cancelled input_path output_path keyframes (init_world files)
        = (Py.Ok tt,
           World (fs stopped) Open 1 (out_state stopped) [] [] [] [Error msg]))
  /\ (v_frames v = [] -> quiet cb -> writer_opens_for E files output_path v ->
      exists w',
        process_video E input_path output_path keyframes cb chunk_size
                      (init_world files) = (Py.Ok tt, w')
        /\ out_writes w' = [] /\ fs w' !! temp_output = None).
Proof.
  intros Hin Hk Hbad temp_output opened stopped. split.
  - intros Hne. destruct (v_frames v) as [|fr frames] eqn:Hfr; [done|].
    exists "invalid literal for int() with base 10".
    assert (forall cb0 chunk0,
              process_video E input_path output_path keyframes cb0 chunk0
                            (init_world files)
              = (Py.Raise (Py.ValueError "invalid literal for int() with base 10"),
                 stopped)) as Hrun.
    { intros cb0 chunk0. unfold process_video, init_world. rewrite py_bind_eq.
      unfold VideoCapture. world_simpl. rewrite Hin.
      rewrite py_bind_eq. unfold VideoWriter at 1. world_simpl.
      fold temp_output. fold opened.
      assert ((if opened
               then (Py.Ok tt,
                     World (<[temp_output :=
                                FVideo (Video (v_width v) (v_height v) (v_fps v) 0 [])]>
                              files) Open 0 Open [] [] [] [])
               else (Py.Ok tt, World files Open 0 Unopened [] [] [] []))
              = (Py.Ok tt,
                 World (fs stopped) Open 0 (out_state stopped) [] [] [] [])) as ->
        by (subst stopped; by destruct opened).
      rewrite py_bind_eq. unfold LamaInpainter_init at 1. cbn [mret py_ret].
      rewrite py_bind_eq. rewrite Hfr. cbn [frame_loop].
      rewrite py_bind_eq. cbn [cap_read]. world_simpl.
      rewrite py_bind_eq. unfold lift at 1.
      unfold frame_mask, Processor.get_zones_at_frame.
      destruct keyframes as [|kv keyframes'].
      { by apply elem_of_nil in Hk. }
      unfold int_keyed. rewrite (int_keyed_raises _ _ k Hk Hbad). done. }
    split; [apply Hrun|].
    unfold run, try_except. rewrite py_bind_eq. cbn [mret py_ret].
    rewrite py_bind_eq, Hrun. done.
  - intros Hnil Hq Hopen.
    destruct (process_video_spec E input_path output_path keyframes cb
                chunk_size files v [] Hq Hin Hopen) as (sigs & Hrun & _).
    + by rewrite Hnil.
    + done.
    + eexists. split; [exact Hrun|]. world_simpl. rewrite Hnil. split; [done|].
      pose proof (temp_output_ne output_path) as Hne.
      rewrite lookup_insert_ne by done. apply lookup_delete_eq.
Qed.

Lemma malformed_key_aborts_at_the_first_frame_witness :
  let E := Env true (fun f _ => f) (fun f _ => f) ImageioMissing None
               (fun _ _ _ => MuxFailed None) xvid_opens in
  let v := Video 2 2 30 1 [[[(1, 2, 3); (4, 5, 6)]; [(7, 8, 9); (1, 2, 3)]]] in
  exists msg,
    run E true (fun _ => false) "in.mp4" "out.mp4"
        [(StrKey "0", [TupleZone 0 0 1 1]); (StrKey "intro", [])]
        (init_world {[ "in.mp4" := FVideo v ]})
    = (Py.Ok tt,
       World (<[ "out.mp4.temp.avi" := FVideo (Video 2 2 30 0 []) ]>
                {[ "in.mp4" := FVideo v ]})
             Open 1 Open [] [] [] [Error msg]).
Proof.
  intros E v.
  destruct (malformed_key_aborts_at_the_first_frame E "in.mp4" "out.mp4"
              [(StrKey "0", [TupleZone 0 0 1 1]); (StrKey "intro", [])]
              (StrKey "intro") None 50 (fun _ => false)
              {[ "in.mp4" := FVideo v ]} v)
    as [Hstop _].
  - reflexivity.
  - right. left.
  - intros z. vm_compute. congruence.
  - destruct Hstop as (msg & _ & Hrun).
    + cbn. congruence.
    + exists msg. exact Hrun.
Defined.

(* ===================================================================== *)
(** * The player                                                          *)
(* ===================================================================== *)

Lemma get_frame_cap self n :
  VideoPlayer.cap (snd (VideoPlayer.get_frame self n)) = VideoPlayer.cap self.
Proof.
  unfold VideoPlayer.get_frame.
  destruct (VideoPlayer.cap self) as [[v|]|] eqn:Hcap; try done.
  by destruct (VideoPlayer.read_at v _).
Qed.

Lemma player_ok_get_frame files self k n :
  player_ok files (VideoPlayer.State self k) ->
  player_ok files (VideoPlayer.State (snd (VideoPlayer.get_frame self n)) k).
Proof.
  intros Hok. unfold player_ok in *.
  cbn [VideoPlayer.player VideoPlayer.open_captures] in *.
  rewrite get_frame_cap. unfold VideoPlayer.get_frame.
  destruct (VideoPlayer.cap self) as [[v|]|] eqn:Hcap; cbn [snd];
    [|exact Hok|exact Hok].
  destruct (VideoPlayer.read_at v
              (Z.max 0 (Z.min n (VideoPlayer.total_frames self - 1))))
    as [fr|] eqn:Hread; cbn [snd]; [|exact Hok].
  destruct Hok as (Hopen & Hpath & Htot & Hw & Hh & Hfps & Hcur & Hreadable).
  cbn. split_and!; try done; [lia | lia | right; by rewrite Hread].
Qed.

Lemma player_ok_release files st :
  player_ok files st -> player_ok files (VideoPlayer.release st).
Proof.
  destruct st as [self k]. unfold player_ok, VideoPlayer.release.
  cbn [VideoPlayer.player VideoPlayer.open_captures].
  destruct (VideoPlayer.cap self) as [[v|]|] eqn:Hcap; cbn; try by rewrite Hcap.
  - intros (-> & _ & _ & _ & _ & Hfps & _). done.
  - intros (-> & _ & _ & _ & Hfps). done.
Qed.

Lemma release_not_loaded files st :
  player_ok files st ->
  VideoPlayer.cap (VideoPlayer.player (VideoPlayer.release st)) = None
  /\ VideoPlayer.open_captures (VideoPlayer.release st) = 0%nat
  /\ VideoPlayer.fps (VideoPlayer.player (VideoPlayer.release st)) <> 0.
Proof.
  destruct st as [self k]. unfold player_ok, VideoPlayer.release.
  cbn [VideoPlayer.player VideoPlayer.open_captures].
  destruct (VideoPlayer.cap self) as [[v|]|] eqn:Hcap; cbn.
  - intros (-> & _ & _ & _ & _ & Hfps & _). done.
  - intros (-> & _ & _ & _ & Hfps). done.
  - intros (-> & _ & _ & _ & Hfps). by rewrite Hcap.
Qed.

Lemma player_ok_load files path st :
  player_ok files st -> player_ok files (snd (VideoPlayer.load files path st)).
Proof.
  intros Hok. pose proof (player_ok_release files st Hok) as Hrel.
  destruct (release_not_loaded files st Hok) as (Hcap & Hopen & Hfps).
  unfold VideoPlayer.load.
  destruct (VideoPlayer.release st) as [self k]. cbn in Hcap, Hopen, Hfps. subst k.
  unfold player_ok in Hrel. cbn in Hrel. rewrite Hcap in Hrel.
  destruct Hrel as (_ & Hpath & Htot & Hcur & _).
  cbn [VideoPlayer.player VideoPlayer.open_captures].
  destruct (files !! path) as [[| | | |v]|] eqn:Hf; cbn; try done.
  split_and!;
    first [done | lia | by left | by eauto
          | case Z.eqb_spec; [done | intros Hne; exact Hne]].
Qed.

Lemma player_ok_step files st c :
  player_ok files st -> player_ok files (player_step files st c).
Proof.
  intros Hok. destruct st as [self k]. destruct c; cbn [player_step];
    cbn [VideoPlayer.player VideoPlayer.open_captures].
  - by apply player_ok_load.
  - by apply player_ok_get_frame.
  - by apply player_ok_get_frame.
  - by apply player_ok_get_frame.
  - by apply player_ok_get_frame.
  - by apply player_ok_release.
Qed.

Lemma player_ok_calls files calls st :
  player_ok files st -> player_ok files (fold_left (player_step files) calls st).
Proof.
  revert st. induction calls as [|c calls IH]; intros st Hst; [done|].
  cbn [fold_left]. by apply IH, player_ok_step.
Qed.

(** X15. Whatever calls are made on a player, in any order and with any
    arguments (load of any path, get_frame of any number, next_frame,
    previous_frame, jump_frames, release), between two calls: at most one
    capture is open, and one is open exactly when is_loaded; video_path is
    set exactly when is_loaded, and then names the video that is open;
    current_frame is never negative and never above max(0, total_frames -
    1), and it is 0 or the index of a frame that was read; a player that
    is not loaded has total_frames = 0 and current_frame = 0; fps is never
    0. *)
Theorem player_state_is_consistent
    (files : gmap string file) (calls : list player_call) :
  let st := fold_left (player_step files) calls
              (VideoPlayer.State VideoPlayer.init 0) in
  let self := VideoPlayer.player st in
  player_ok files st
  /\ VideoPlayer.open_captures st
     = (if VideoPlayer.is_loaded self then 1 else 0)%nat
  /\ (VideoPlayer.is_loaded self = true
      <-> is_Some (VideoPlayer.video_path self))
  /\ 0 <= VideoPlayer.current_frame self
     <= Z.max 0 (VideoPlayer.total_frames self - 1)
  /\ (VideoPlayer.is_loaded self = false ->
      VideoPlayer.total_frames self = 0 /\ VideoPlayer.current_frame self = 0)
  /\ VideoPlayer.fps self <> 0.
Proof.
  intros st self.
  assert (player_ok files st) as Hok.
  { apply player_ok_calls. cbn. done. }
  split; [exact Hok|]. unfold player_ok in Hok. cbv zeta in Hok.
  fold self in Hok. clearbody self. clearbody st.
  unfold VideoPlayer.is_loaded.
  destruct (VideoPlayer.cap self) as [[v|]|].
  - destruct Hok as (Hopen & (path & Hpath & _) & _ & _ & _ & Hfps & Hcur & _).
    rewrite Hpath. split_and!; try done; lia.
  - destruct Hok as (Hopen & Hpath & Htot & Hcur & Hfps).
    rewrite Hpath, Htot, Hcur. split_and!; done.
  - destruct Hok as (Hopen & Hpath & Htot & Hcur & Hfps).
    rewrite Hpath, Htot, Hcur. split_and!; done.
Qed.

(** ** Reading frames *)

Lemma get_frame_read self v frame_num fr :
  VideoPlayer.cap self = Some (VideoPlayer.Opened v) ->
  VideoPlayer.read_at v
    (Z.max 0 (Z.min frame_num (VideoPlayer.total_frames self - 1))) = Some fr ->
  VideoPlayer.get_frame self frame_num
  = (Some (Cv2.cvtColor fr Cv2.COLOR_BGR2RGB),
     VideoPlayer.Player (VideoPlayer.cap self) (VideoPlayer.total_frames self)
       (VideoPlayer.fps self) (VideoPlayer.width self) (VideoPlayer.height self)
       (Z.max 0 (Z.min frame_num (VideoPlayer.total_frames self - 1)))
       (VideoPlayer.video_path self)).
Proof.
  intros Hcap Hread. unfold VideoPlayer.get_frame. by rewrite Hcap, Hread.
Qed.

Lemma get_frame_unread self v frame_num :
  VideoPlayer.cap self = Some (VideoPlayer.Opened v) ->
  VideoPlayer.read_at v
    (Z.max 0 (Z.min frame_num (VideoPlayer.total_frames self - 1))) = None ->
  VideoPlayer.get_frame self frame_num = (None, self).
Proof.
  intros Hcap Hread. unfold VideoPlayer.get_frame. by rewrite Hcap, Hread.
Qed.

Lemma read_at_in_range v n :
  0 <= n < Z.of_nat (length (v_frames v)) ->
  exists fr, v_frames v !! Z.to_nat n = Some fr
             /\ VideoPlayer.read_at v n = Some fr.
Proof.
  intros Hn. destruct (lookup_lt_is_Some_2 (v_frames v) (Z.to_nat n)) as [fr Hfr];
    [lia|].
  exists fr. split; [done|]. unfold VideoPlayer.read_at.
  case Z.ltb_spec; [lia | done].
Qed.

Lemma read_at_beyond v n :
  Z.of_nat (length (v_frames v)) <= n -> VideoPlayer.read_at v n = None.
Proof.
  intros Hn. unfold VideoPlayer.read_at. case Z.ltb_spec; [done|]. intros _.
  apply lookup_ge_None. lia.
Qed.

(** X16. On a loaded video whose container gives the true number N >= 1
    of frames, get_frame never fails, whatever number it is asked for: it
    returns the frame with index max(0, min(frame_num, N - 1)) in RGB and
    makes that index the current frame, changing nothing else. A number in
    range is taken as it is, a negative one gives frame 0, one at or beyond
    the end gives the last frame; so next_frame on the last frame and
    previous_frame on the first stay where they are. The frame that the
    timeline's jump buttons compute for a step is the frame jump_frames
    lands on. *)
Theorem get_frame_lands_on_the_clamped_frame
    (self : VideoPlayer.t) (v : video) (frame_num : Z) :
  VideoPlayer.cap self = Some (VideoPlayer.Opened v) ->
  VideoPlayer.total_frames self = v_frame_count v ->
  counted v ->
  v_frames v <> [] ->
  let n := Z.of_nat (length (v_frames v)) in
  let landed := Z.max 0 (Z.min frame_num (n - 1)) in
  exists fr,
    v_frames v !! Z.to_nat landed = Some fr
    /\ VideoPlayer.get_frame self frame_num
       = (Some (Cv2.cvtColor fr Cv2.COLOR_BGR2RGB),
          VideoPlayer.Player (VideoPlayer.cap self)
            (VideoPlayer.total_frames self) (VideoPlayer.fps self)
            (VideoPlayer.width self) (VideoPlayer.height self) landed
            (VideoPlayer.video_path self))
    /\ 0 <= landed < n
    /\ (0 <= frame_num < n -> landed = frame_num)
    /\ (frame_num < 0 -> landed = 0)
    /\ (n <= frame_num -> landed = n - 1)
    /\ (VideoPlayer.current_frame self = n - 1 ->
        VideoPlayer.current_frame (snd (VideoPlayer.next_frame self)) = n - 1)
    /\ (VideoPlayer.current_frame self = 0 ->
        VideoPlayer.current_frame (snd (VideoPlayer.previous_frame self)) = 0)
    /\ (forall delta,
          VideoPlayer.current_frame (snd (VideoPlayer.jump_frames self delta))
          = Timeline.jump_target (VideoPlayer.total_frames self)
              (VideoPlayer.current_frame self) delta).
Proof.
  intros Hcap Htot Hcount Hne n landed. unfold counted in Hcount.
  assert (0 < n) as Hn by (unfold n; destruct (v_frames v); [done | cbn; lia]).
  assert (forall m, exists fr,
            v_frames v !! Z.to_nat (Z.max 0 (Z.min m (n - 1))) = Some fr
            /\ VideoPlayer.get_frame self m
               = (Some (Cv2.cvtColor fr Cv2.COLOR_BGR2RGB),
                  VideoPlayer.Player (VideoPlayer.cap self)
                    (VideoPlayer.total_frames self) (VideoPlayer.fps self)
                    (VideoPlayer.width self) (VideoPlayer.height self)
                    (Z.max 0 (Z.min m (n - 1)))
                    (VideoPlayer.video_path self))) as Hget.
  { intros m.
    destruct (read_at_in_range v (Z.max 0 (Z.min m (n - 1)))) as (fr & Hfr & Hread);
      [fold n; lia|].
    exists fr. split; [done|].
    rewrite (get_frame_read self v m fr Hcap); rewrite Htot, Hcount; fold n; done. }
  destruct (Hget frame_num) as (fr & Hfr & Hrun). exists fr.
  split_and!; try done; try (unfold landed; lia).
  - intros Hcur. unfold VideoPlayer.next_frame.
    destruct (Hget (VideoPlayer.current_frame self + 1)) as (fr' & _ & ->).
    cbn. lia.
  - intros Hcur. unfold VideoPlayer.previous_frame.
    destruct (Hget (VideoPlayer.current_frame self - 1)) as (fr' & _ & ->).
    cbn. lia.
  - intros delta. unfold VideoPlayer.jump_frames, Timeline.jump_target.
    destruct (Hget (VideoPlayer.current_frame self + delta)) as (fr' & _ & ->).
    cbn. rewrite Htot, Hcount. fold n. lia.
Qed.

Lemma get_frame_lands_on_the_clamped_frame_witness :
  let v := Video 1 1 30 2 [[[(1, 2, 3)]]; [[(4, 5, 6)]]] in
  let self := VideoPlayer.Player (Some (VideoPlayer.Opened v)) 2 30 1 1 0
                (Some "in.mp4") in
  exists fr,
    v_frames v !! Z.to_nat (Z.max 0 (Z.min 7 (2 - 1))) = Some fr
    /\ VideoPlayer.get_frame self 7
       = (Some (Cv2.cvtColor fr Cv2.COLOR_BGR2RGB),
          VideoPlayer.Player (Some (VideoPlayer.Opened v)) 2 30 1 1
            (Z.max 0 (Z.min 7 (2 - 1))) (Some "in.mp4")).
Proof.
  intros v self.
  destruct (get_frame_lands_on_the_clamped_frame self v 7)
    as (fr & Hfr & Hrun & _).
  - reflexivity.
  - reflexivity.
  - reflexivity.
  - cbn. congruence.
  - exists fr. split; [exact Hfr | exact Hrun].
Defined.

(** X17. A get_frame that returns None leaves the player exactly as it
    was, current_frame included. It returns None when no video is loaded;
    and on a loaded video when the container promises more frames than
    the stream has and the frame asked for lies beyond the stream. When
    the frame count is 1 or less (0 when the container gives none), every
    request, for any frame number, is a request for frame 0. *)
Theorem get_frame_failure_leaves_the_player
    (self : VideoPlayer.t) (frame_num : Z) :
  (fst (VideoPlayer.get_frame self frame_num) = None ->
   snd (VideoPlayer.get_frame self frame_num) = self)
  /\ (VideoPlayer.is_loaded self = false ->
      VideoPlayer.get_frame self frame_num = (None, self))
  /\ (forall v,
        VideoPlayer.cap self = Some (VideoPlayer.Opened v) ->
        Z.of_nat (length (v_frames v)) <= frame_num
          < VideoPlayer.total_frames self ->
        VideoPlayer.get_frame self frame_num = (None, self))
  /\ (forall v,
        VideoPlayer.cap self = Some (VideoPlayer.Opened v) ->
        VideoPlayer.total_frames self <= 1 ->
        VideoPlayer.get_frame self frame_num = VideoPlayer.get_frame self 0).
Proof.
  split_and!.
  - unfold VideoPlayer.get_frame.
    destruct (VideoPlayer.cap self) as [[v|]|]; try done.
    by destruct (VideoPlayer.read_at v _).
  - unfold VideoPlayer.is_loaded, VideoPlayer.get_frame.
    by destruct (VideoPlayer.cap self) as [[v|]|].
  - intros v Hcap Hn. apply (get_frame_unread self v); [done|].
    apply read_at_beyond. lia.
  - intros v Hcap Htot. unfold VideoPlayer.get_frame. rewrite Hcap.
    replace (Z.max 0 (Z.min frame_num (VideoPlayer.total_frames self - 1)))
      with 0 by lia.
    by replace (Z.max 0 (Z.min 0 (VideoPlayer.total_frames self - 1)))
      with 0 by lia.
Qed.

Lemma get_frame_failure_leaves_the_player_witness :
  let v := Video 1 1 30 9 [[[(1, 2, 3)]]; [[(4, 5, 6)]]] in
  let self := VideoPlayer.Player (Some (VideoPlayer.Opened v)) 9 30 1 1 1
                (Some "in.mp4") in
  VideoPlayer.get_frame self 5 = (None, self).
Proof.
  intros v self.
  apply (proj1 (proj2 (proj2 (get_frame_failure_leaves_the_player self 5))) v).
  - reflexivity.
  - cbn. lia.
Defined.

(** ** Loading *)

(** X18. load first releases what the player holds. When the path is a
    video that opens, the player ends loaded on it, at frame 0, with the
    frame count and size of that video and a frame rate that is not 0 (30
    when the container gives 0), and exactly one capture open, the one of
    the former video having been released. When the path does not open,
    load returns False and the player is left not loaded, even if a video
    was loaded before: no capture is open, video_path is None, the frame
    count and the current frame are 0 (the size and frame rate of the
    former video stay), and get_frame returns None. *)
Theorem load_replaces_the_video
    (files : gmap string file) (path : string) (st : VideoPlayer.state) :
  player_ok files st ->
  let old := VideoPlayer.player st in
  (forall v, files !! path = Some (FVideo v) ->
     VideoPlayer.load files path st
     = (true,
        VideoPlayer.State
          (VideoPlayer.Player (Some (VideoPlayer.Opened v)) (v_frame_count v)
             (if v_fps v =? 0 then 30 else v_fps v)
             (Z.of_N (v_width v)) (Z.of_N (v_height v)) 0 (Some path))
          1))
  /\ ((forall v, files !! path <> Some (FVideo v)) ->
      VideoPlayer.load files path st
      = (false,
         VideoPlayer.State
           (VideoPlayer.Player (Some VideoPlayer.NotOpened) 0
              (VideoPlayer.fps old) (VideoPlayer.width old)
              (VideoPlayer.height old) 0 None)
           0)
      /\ VideoPlayer.is_loaded
           (VideoPlayer.player (snd (VideoPlayer.load files path st))) = false
      /\ forall frame_num,
           fst (VideoPlayer.get_frame
                  (VideoPlayer.player (snd (VideoPlayer.load files path st)))
                  frame_num) = None).
Proof.
  intros Hok old.
  assert (VideoPlayer.release st
          = VideoPlayer.State
              (VideoPlayer.Player None 0 (VideoPlayer.fps old)
                 (VideoPlayer.width old) (VideoPlayer.height old) 0 None) 0)
    as Hrel.
  { destruct st as [self k]. unfold player_ok in Hok. unfold old.
    cbn [VideoPlayer.player VideoPlayer.open_captures] in *.
    unfold VideoPlayer.release. cbn [VideoPlayer.player VideoPlayer.open_captures].
    destruct self as [c tf fp wd ht cf vp]. cbn in *.
    destruct c as [[v|]|].
    - by destruct Hok as (-> & _).
    - by destruct Hok as (-> & _).
    - by destruct Hok as (-> & -> & -> & -> & _). }
  split.
  - intros v Hv. unfold VideoPlayer.load. by rewrite Hrel, Hv.
  - intros Hno.
    assert (VideoPlayer.load files path st
            = (false,
               VideoPlayer.State
                 (VideoPlayer.Player (Some VideoPlayer.NotOpened) 0
                    (VideoPlayer.fps old) (VideoPlayer.width old)
                    (VideoPlayer.height old) 0 None) 0)) as Hload.
    { unfold VideoPlayer.load. rewrite Hrel.
      destruct (files !! path) as [[| | | |v]|] eqn:Hf; try done.
      by destruct (Hno v). }
    rewrite Hload. done.
Qed.

Lemma load_replaces_the_video_witness :
  let v := Video 4 3 0 2 [[[(1, 2, 3)]]; [[(4, 5, 6)]]] in
  let files : gmap string file :=
    {[ "a.mp4" := FVideo v; "notes.txt" := FText "x" ]} in
  let loaded := snd (VideoPlayer.load files "a.mp4"
                       (VideoPlayer.State VideoPlayer.init 0)) in
  loaded = VideoPlayer.State
             (VideoPlayer.Player (Some (VideoPlayer.Opened v)) 2 30 4 3 0
                (Some "a.mp4")) 1
  /\ VideoPlayer.load files "notes.txt" loaded
     = (false,
        VideoPlayer.State
          (VideoPlayer.Player (Some VideoPlayer.NotOpened) 0 30 4 3 0 None) 0).
Proof.
  intros v files loaded.
  assert (loaded = VideoPlayer.State
             (VideoPlayer.Player (Some (VideoPlayer.Opened v)) 2 30 4 3 0
                (Some "a.mp4")) 1) as Hloaded.
  { unfold loaded.
    rewrite (proj1 (load_replaces_the_video files "a.mp4"
                      (VideoPlayer.State VideoPlayer.init 0)
                      ltac:(cbn; done)) v); reflexivity. }
  split; [exact Hloaded|].
  apply (load_replaces_the_video files "notes.txt" loaded).
  - rewrite Hloaded. cbn. split_and!; try done; try lia.
    exists "a.mp4". split; reflexivity.
  - intros v'. vm_compute. congruence.
Defined.

(* ===================================================================== *)
(** * From the mouse to a zone, from the drop-down to a frame             *)
(* ===================================================================== *)

Lemma released_zone_eq x1 y1 x2 y2 :
  VideoCanvas.released_zone (x1, y1) (x2, y2)
  = if (Z.abs (Z.max x1 x2 - Z.min x1 x2) >? 5)
       && (Z.abs (Z.max y1 y2 - Z.min y1 y2) >? 5)
    then Some (TupleZone (Z.min x1 x2) (Z.min y1 y2) (Z.max x1 x2) (Z.max y1 y2))
    else None.
Proof. reflexivity. Qed.

(** X19. For a video of size width x height and any two ends of a drag,
    brought into the video as _canvas_to_video_coords does, and once the
    test of line 203 on the two points has passed: the zone that
    mouseReleaseEvent emits does not depend on the direction of the drag;
    none is emitted exactly when the two ends are 5 pixels or less apart
    in x or in y; and an emitted zone (x1, y1, x2, y2) is a tuple with
    0 <= x1, x2 <= width, 0 <= y1, y2 <= height, x2 - x1 > 5 and
    y2 - y1 > 5. So it satisfies the invariant of a zone, and the mask that
    create_mask_from_zones builds for it is the rectangle grown by 12
    pixels and is not empty. *)
Theorem drawn_zone_is_a_valid_zone (width height a b c d : Z) :
  0 <= width -> 0 <= height ->
  let start := VideoCanvas.clamp_to_video (width, height) a b in
  let current := VideoCanvas.clamp_to_video (width, height) c d in
  VideoCanvas.released_zone start current
  = VideoCanvas.released_zone current start
  /\ (VideoCanvas.released_zone start current = None
      <-> Z.abs (fst current - fst start) <= 5
          \/ Z.abs (snd current - snd start) <= 5)
  /\ (forall z, VideoCanvas.released_zone start current = Some z ->
        (exists x1 y1 x2 y2,
            z = TupleZone x1 y1 x2 y2
            /\ 0 <= x1 /\ x2 <= width /\ 0 <= y1 /\ y2 <= height
            /\ 5 < x2 - x1 /\ 5 < y2 - y1)
        /\ zone_ok width height z
        /\ exists mask : list (list Z),
             Processor.create_mask_from_zones width height [z] = Py.Ok mask
             /\ marks 12 width height [z] mask
             /\ Np.any_positive mask = true).
Proof.
  intros Hw Hh start current.
  unfold start, current, VideoCanvas.clamp_to_video. cbn [fst snd].
  set (x1 := Z.max 0 (Z.min a width)). set (y1 := Z.max 0 (Z.min b height)).
  set (x2 := Z.max 0 (Z.min c width)). set (y2 := Z.max 0 (Z.min d height)).
  assert (0 <= x1 <= width) by lia. assert (0 <= y1 <= height) by lia.
  assert (0 <= x2 <= width) by lia. assert (0 <= y2 <= height) by lia.
  clearbody x1 y1 x2 y2. rewrite !released_zone_eq. split_and!.
  - rewrite (Z.max_comm x2 x1), (Z.min_comm x2 x1).
    by rewrite (Z.max_comm y2 y1), (Z.min_comm y2 y1).
  - destruct (Z.abs (Z.max x1 x2 - Z.min x1 x2) >? 5) eqn:Hx;
      destruct (Z.abs (Z.max y1 y2 - Z.min y1 y2) >? 5) eqn:Hy; cbn;
      rewrite ?Z.gtb_ltb in Hx, Hy;
      first [apply Z.ltb_lt in Hx | apply Z.ltb_ge in Hx];
      first [apply Z.ltb_lt in Hy | apply Z.ltb_ge in Hy];
      (split; [try done; intros _; lia | try done; intros [?|?]; lia]).
  - intros z.
    destruct (Z.abs (Z.max x1 x2 - Z.min x1 x2) >? 5) eqn:Hx; [|done].
    destruct (Z.abs (Z.max y1 y2 - Z.min y1 y2) >? 5) eqn:Hy; [|done].
    cbn. intros [= <-].
    rewrite Z.gtb_ltb in Hx, Hy. apply Z.ltb_lt in Hx, Hy.
    assert (zone_ok width height
              (TupleZone (Z.min x1 x2) (Z.min y1 y2) (Z.max x1 x2) (Z.max y1 y2)))
      as Hok by (cbn; lia).
    split_and!.
    + eexists _, _, _, _. split; [done|]. lia.
    + exact Hok.
    + assert (Forall (zone_ok width height)
                [TupleZone (Z.min x1 x2) (Z.min y1 y2) (Z.max x1 x2) (Z.max y1 y2)])
        as Hoks by (by constructor).
      assert (0 < width) by lia. assert (0 < height) by lia.
      eexists. split_and!.
      * unfold Processor.create_mask_from_zones. by rewrite zeros_ok by lia.
      * apply dilated_marks; [done|]. by apply painted_marks.
      * apply any_positive_true.
        exists (Z.to_nat (Z.min y1 y2)), (Z.to_nat (Z.min x1 x2)), 255.
        split; [|lia].
        pose proof (dilated_marks width height _ _ Hoks
                      (painted_marks width height _ ltac:(lia) ltac:(lia) Hoks))
          as [_ Hentries].
        rewrite Hentries by lia. cbn [existsb]. unfold in_grown. cbn [zone_coords].
        rewrite !Z2Nat.id by lia.
        repeat (case Z.leb_spec; [intros _ | lia]).
        repeat (case Z.ltb_spec; [intros _ | lia]). done.
Qed.

Lemma drawn_zone_is_a_valid_zone_witness :
  zone_ok 640 480 (TupleZone 0 100 40 480).
Proof.
  apply (drawn_zone_is_a_valid_zone 640 480 40 500 (-3) 100); [lia | lia |].
  reflexivity.
Defined.

(** ** The drop-down of keyframes *)

Lemma on_keyframe_selected_int text k :
  Py.int text = Py.Ok k ->
  Timeline.on_keyframe_selected text
  = if Qt.fits_int k then Py.Ok (Some k) else Py.Raise Py.OverflowError.
Proof.
  intros Hk. unfold Timeline.on_keyframe_selected.
  rewrite bool_decide_eq_true_2 by (intros ->; vm_compute in Hk; done).
  unfold Timeline.select_keyframe. rewrite Hk. cbn. unfold Qt.pass_int.
  by destruct (Qt.fits_int k).
Qed.

Lemma on_keyframe_selected_unread text :
  (forall k, Py.int text <> Py.Ok k) ->
  Timeline.on_keyframe_selected text = Py.Ok None.
Proof.
  intros Hno. unfold Timeline.on_keyframe_selected.
  case_bool_decide; [|done]. unfold Timeline.select_keyframe.
  unfold Py.int in *. destruct (Py.int_opt text) as [k|]; [|done].
  by destruct (Hno k).
Qed.

(** X20. After set_keyframes the drop-down holds "None" followed by one
    item for each keyframe given, the keyframes in increasing order, each
    written by str(). Choosing "None" passes no frame on. Choosing a text
    that int() reads as a number that fits a C int, such as the item of a
    keyframe below 2^31, passes on exactly that number, to the signal and
    to the slider. A text that int() does not read is ignored. A text that
    int() reads as a number that does not fit a C int, such as the item of
    a keyframe of 2^31 or more, makes the handler raise OverflowError,
    which its [except ValueError] does not catch. For the list that the
    application gives it, get_all_keyframe_numbers() of the timeline, the
    items after "None" are those numbers in their order. *)
Theorem keyframe_dropdown_reads_back (keyframes : list Z) :
  let items := Timeline.set_keyframes keyframes in
  (exists sorted,
      items = "None" :: map Py.str sorted
      /\ Sorted Z.le sorted /\ sorted ≡ₚ keyframes)
  /\ length items = S (length keyframes)
  /\ Timeline.on_keyframe_selected "None" = Py.Ok None
  /\ (forall k, k ∈ keyframes ->
        Py.str k ∈ items
        /\ (Qt.fits_int k = true ->
            Timeline.on_keyframe_selected (Py.str k) = Py.Ok (Some k))
        /\ (Qt.fits_int k = false ->
            Timeline.on_keyframe_selected (Py.str k)
            = Py.Raise Py.OverflowError))
  /\ (forall text, text ∈ items ->
        text = "None" \/ exists k, k ∈ keyframes /\ text = Py.str k)
  /\ (forall text k, Py.int text = Py.Ok k -> Qt.fits_int k = true ->
        Timeline.on_keyframe_selected text = Py.Ok (Some k))
  /\ (forall text, (forall k, Py.int text <> Py.Ok k) ->
        Timeline.on_keyframe_selected text = Py.Ok None)
  /\ (forall (Zone : Type) (kfs : list (Z * list Zone)),
        Timeline.set_keyframes (KeyframeManager.get_all_keyframe_numbers kfs)
        = "None" :: map Py.str (KeyframeManager.get_all_keyframe_numbers kfs)).
Proof.
  intros items. unfold items, Timeline.set_keyframes.
  pose proof (merge_sort_Permutation Z.le keyframes) as Hperm.
  split_and!.
  - exists (merge_sort Z.le keyframes). split_and!; try done.
    apply (Sorted_merge_sort Z.le).
  - cbn. by rewrite length_map, Hperm.
  - done.
  - intros k Hk. split_and!.
    + right. apply list_elem_of_fmap. exists k. by rewrite Hperm.
    + intros Hfit. by rewrite (on_keyframe_selected_int _ k (int_str k)), Hfit.
    + intros Hfit. by rewrite (on_keyframe_selected_int _ k (int_str k)), Hfit.
  - intros text [->|Hin]%elem_of_cons; [by left | right].
    apply list_elem_of_fmap in Hin as (k & -> & Hk). exists k.
    by rewrite Hperm in Hk.
  - intros text k Hk Hfit. by rewrite (on_keyframe_selected_int _ k Hk), Hfit.
  - apply on_keyframe_selected_unread.
  - intros Zone kfs. unfold KeyframeManager.get_all_keyframe_numbers.
    f_equal. f_equal.
    apply (Sorted_unique Z.le).
    + apply (Sorted_merge_sort Z.le).
    + apply (Sorted_merge_sort Z.le).
    + by rewrite !merge_sort_Permutation.
Qed.

Lemma keyframe_dropdown_reads_back_witness :
  Py.str 12 ∈ Timeline.set_keyframes [30; 12; 99999999999]
  /\ Timeline.on_keyframe_selected (Py.str 12) = Py.Ok (Some 12)
  /\ Timeline.on_keyframe_selected (Py.str 99999999999)
     = Py.Raise Py.OverflowError.
Proof.
  destruct (keyframe_dropdown_reads_back [30; 12; 99999999999])
    as (_ & _ & _ & Hitems & _).
  destruct (Hitems 12) as (Hin & Hok & _); [right; left|].
  destruct (Hitems 99999999999) as (_ & _ & Hbad); [right; right; left|].
  split; [exact Hin|]. split; [apply Hok | apply Hbad]; reflexivity.
Defined.

(* ===================================================================== *)
(** * The dict given to the worker, with list objects                     *)
(* ===================================================================== *)

Section Sharing.
Context {Zone : Type}.
Implicit Types (kfs : list (Z * positive)) (h : gmap positive (list Zone)).

Lemma exported_contents_get (d : list (string * positive)) h s :
  Dict.get (exported_contents d h) s
  = (fun r => default [] (h !! r)) <$> Dict.get d s.
Proof.
  unfold exported_contents. induction d as [|[s0 r0] d IH]; cbn; [done|].
  case_decide; [done | exact IH].
Qed.

Lemma exported_contents_unchanged (d : list (string * positive)) h h' :
  (forall r, r ∈ map snd d -> h' !! r = h !! r) ->
  exported_contents d h' = exported_contents d h.
Proof.
  intros Hsame. unfold exported_contents. apply map_ext_in.
  intros [s r] Hin. cbn. rewrite Hsame; [done|].
  apply list_elem_of_fmap. exists (s, r). split; [done|].
  by apply list_elem_of_In.
Qed.
End Sharing.

(** X21. to_dict() builds a new dict but puts into it the very list
    objects of the timeline. So when, after to_dict(), a zone is added at a
    frame that is a keyframe already, the list under that frame's key in
    the dict given out changes with it: it holds the new zone as its last
    element. When the zone is added at a frame that was no keyframe, the
    dict given out does not change: it has no item for that frame and all
    its lists are as they were. *)
Theorem to_dict_shares_the_zone_lists
    {Zone : Type} (kfs : list (Z * positive)) (h : gmap positive (list Zone))
    (f : Z) (z : Zone) :
  Dict.wf kfs ->
  KeyframeHeap.allocated kfs h ->
  let exported := KeyframeManager.to_dict kfs in
  let h' := snd (KeyframeHeap.add_zone kfs f z h) in
  (forall k r, Dict.get kfs k = Some r ->
     Dict.get exported (Py.str k) = Some r)
  /\ (forall r, Dict.get kfs f = Some r ->
        Dict.get (exported_contents exported h') (Py.str f)
        = Some (default [] (h !! r) ++ [z])
        /\ Dict.get (exported_contents exported h) (Py.str f)
           = Some (default [] (h !! r)))
  /\ (Dict.get kfs f = None ->
        exported_contents exported h' = exported_contents exported h
        /\ Dict.get exported (Py.str f) = None).
Proof.
  intros Hwf Halloc exported h'.
  assert (exported = map (fun kv => (Py.str (fst kv), snd kv)) kfs) as Hexp
    by (by apply to_dict_map).
  assert (forall k, Dict.get exported (Py.str k) = Dict.get kfs k) as Hget.
  { intros k. rewrite Hexp. clear. induction kfs as [|[k0 r0] kfs IH]; cbn; [done|].
    destruct (decide (k0 = k)) as [->|Hne].
    - by rewrite decide_True.
    - rewrite decide_False; [exact IH|]. intros Heq. by apply str_inj in Heq. }
  split_and!.
  - intros k r Hk. by rewrite Hget.
  - intros r Hr. rewrite !exported_contents_get, Hget, Hr. cbn.
    unfold h', KeyframeHeap.add_zone. rewrite Hr. cbn.
    unfold KeyframeHeap.list_append, KeyframeHeap.mutate.
    split; [|done]. f_equal. rewrite lookup_alter_eq.
    assert (r ∈ dom h) as [zs Hzs]%elem_of_dom.
    { unfold KeyframeHeap.allocated in Halloc. rewrite Forall_forall in Halloc.
      apply dict_get_In in Hr. by apply (Halloc (f, r)). }
    by rewrite Hzs.
  - intros Hnone. split; [|by rewrite Hget].
    apply exported_contents_unchanged. intros r Hin.
    unfold h', KeyframeHeap.add_zone. rewrite Hnone.
    unfold KeyframeHeap.alloc, KeyframeHeap.list_append, KeyframeHeap.mutate.
    cbn [snd].
    assert (r ∈ dom h) as Hr.
    { rewrite Hexp, map_map in Hin. cbn in Hin.
      apply list_elem_of_fmap in Hin as ([k0 r0] & -> & Hin0).
      unfold KeyframeHeap.allocated in Halloc. rewrite Forall_forall in Halloc.
      by apply (Halloc (k0, r0)). }
    assert (r <> fresh (dom h)) as Hne by (intros ->; by apply is_fresh in Hr).
    rewrite lookup_alter_ne by done. by rewrite lookup_insert_ne.
Qed.

Lemma to_dict_shares_the_zone_lists_witness :
  let kfs := [(0, 1%positive)] in
  let h : gmap positive (list Z) := {[ 1%positive := [7; 8] ]} in
  Dict.get (exported_contents (KeyframeManager.to_dict kfs)
              (snd (KeyframeHeap.add_zone kfs 0 9 h))) (Py.str 0)
  = Some (default [] (h !! 1%positive) ++ [9]).
Proof.
  intros kfs h.
  apply (to_dict_shares_the_zone_lists kfs h 0 9).
  - unfold Dict.wf, Dict.keys. cbn [map fst].
    apply (bool_decide_unpack _). vm_compute. exact I.
  - apply Forall_cons_2; [|apply Forall_nil_2].
    apply elem_of_dom. exists [7; 8]. reflexivity.
  - reflexivity.
Defined.

(* ===================================================================== *)
(** * The summary of the timeline                                         *)
(* ===================================================================== *)

Lemma foldM_ok_map {A B C} (g : A -> Py.result C) (h : A -> C -> list B)
    (xs : list A) (acc : list B) (g' : A -> C) :
  (forall x, x ∈ xs -> g x = Py.Ok (g' x)) ->
  Py.foldM (fun lines x => c ← g x; Py.Ok (lines ++ h x c)) xs acc
  = Py.Ok (acc ++ concat (map (fun x => h x (g' x)) xs)).
Proof.
  revert acc. induction xs as [|x xs IH]; intros acc Hg; cbn.
  - by rewrite app_nil_r.
  - rewrite (Hg x) by left. cbn. rewrite IH by (intros y Hy; apply Hg; by right).
    by rewrite <- app_assoc.
Qed.

Lemma summary_lines_eq (kfs : list (Z * list zone)) :
  Summary.summary_lines kfs
  = Py.Ok (concat (map (fun k => Summary.frame_lines k
                                   (default [] (Dict.get kfs k)))
                       (KeyframeManager.get_all_keyframe_numbers kfs))).
Proof.
  unfold Summary.summary_lines.
  rewrite (foldM_ok_map (Dict.subscript kfs) Summary.frame_lines _ []
             (fun k => default [] (Dict.get kfs k))); [done|].
  intros k Hk. unfold KeyframeManager.get_all_keyframe_numbers in Hk.
  rewrite merge_sort_Permutation in Hk.
  apply dict_key_get in Hk as [zs Hzs]. unfold Dict.subscript. by rewrite Hzs.
Qed.

Lemma frame_lines_length k (zs : list zone) :
  length (Summary.frame_lines k zs) = S (length zs).
Proof. unfold Summary.frame_lines. cbn. by rewrite length_imap. Qed.

Lemma concat_length_perm {A} (f : Z -> list A) (l1 l2 : list Z) :
  l1 ≡ₚ l2 ->
  length (concat (map f l1)) = length (concat (map f l2)).
Proof.
  induction 1 as [|x l1 l2 _ IH|x y l|l1 l2 l3 _ IH1 _ IH2]; cbn.
  - done.
  - by rewrite !length_app, IH.
  - rewrite !length_app. lia.
  - by rewrite IH1.
Qed.

Lemma summary_length_keys (kfs d : list (Z * list zone)) :
  (forall k zs, (k, zs) ∈ d -> Dict.get kfs k = Some zs) ->
  Z.of_nat (length (concat (map (fun k => Summary.frame_lines k
                                            (default [] (Dict.get kfs k)))
                                (Dict.keys d))))
  = Z.of_nat (length d) + zone_total d.
Proof.
  induction d as [|[k zs] d IH]; intros Hd; [done|].
  cbn [Dict.keys map fst concat length]. rewrite length_app, frame_lines_length.
  rewrite zone_total_cons. rewrite (Hd k zs) by left.
  change (default [] (Some zs)) with zs.
  unfold Dict.keys in IH. rewrite Nat2Z.inj_add, IH; [lia|].
  intros k' zs' Hin. apply Hd. by right.
Qed.

(** X22. get_summary never raises: every frame number it looks up is a
    key of the timeline. For the empty timeline the text is [No zones
    defined]; otherwise it is the lines joined by newlines, keyframe by
    keyframe in increasing order of frame number whatever the order in
    which they were added: a line [Frame k:] and then one line
    [  Zone i: zone] for each zone keyed at k, numbered from 1. On a
    timeline with no frame number twice that makes one line for each
    keyframe and one for each zone. *)
Theorem get_summary_lists_keyframes_in_order (kfs : list (Z * list zone)) :
  let lines :=
    concat (map (fun k => Summary.frame_lines k (default [] (Dict.get kfs k)))
                (KeyframeManager.get_all_keyframe_numbers kfs)) in
  Summary.summary_lines kfs = Py.Ok lines
  /\ Summary.get_summary kfs
     = Py.Ok (if KeyframeManager.is_empty kfs then "No zones defined"
              else Summary.join (String "010" EmptyString) lines)
  /\ Sorted Z.le (KeyframeManager.get_all_keyframe_numbers kfs)
  /\ KeyframeManager.get_all_keyframe_numbers kfs ≡ₚ Dict.keys kfs
  /\ (Dict.wf kfs ->
      Z.of_nat (length lines) = Z.of_nat (length kfs) + zone_total kfs).
Proof.
  intros lines. split_and!.
  - apply summary_lines_eq.
  - unfold Summary.get_summary, KeyframeManager.is_empty.
    destruct kfs as [|kv kfs']; [done|]. by rewrite summary_lines_eq.
  - apply (Sorted_merge_sort Z.le).
  - apply merge_sort_Permutation.
  - intros Hwf. unfold lines.
    rewrite (concat_length_perm _ _ (Dict.keys kfs))
      by apply merge_sort_Permutation.
    apply summary_length_keys. intros k zs Hin. by apply dict_in_get.
Qed.

Lemma get_summary_lists_keyframes_in_order_witness :
  Summary.get_summary [(10, [TupleZone 1 2 30 40]); (0, [ListZone 5 6 70 80])]
  = Py.Ok ("Frame 0:" +:+ String "010" "  Zone 1: [5, 6, 70, 80]"
           +:+ String "010" "Frame 10:"
           +:+ String "010" "  Zone 1: (1, 2, 30, 40)")
  /\ Z.of_nat (length (concat (map
        (fun k => Summary.frame_lines k
           (default [] (Dict.get [(10, [TupleZone 1 2 30 40]);
                                  (0, [ListZone 5 6 70 80])] k)))
        (KeyframeManager.get_all_keyframe_numbers
           [(10, [TupleZone 1 2 30 40]); (0, [ListZone 5 6 70 80])]))))
     = 2 + zone_total [(10, [TupleZone 1 2 30 40]); (0, [ListZone 5 6 70 80])].
Proof.
  destruct (get_summary_lists_keyframes_in_order
              [(10, [TupleZone 1 2 30 40]); (0, [ListZone 5 6 70 80])])
    as (_ & Hsum & _ & _ & Hlen).
  split.
  - rewrite Hsum. vm_compute. reflexivity.
  - apply Hlen. unfold Dict.wf, Dict.keys. cbn [map fst].
    apply (bool_decide_unpack _). vm_compute. exact I.
Defined.

(* ===================================================================== *)
(** * The application: what is shown                                      *)
(* ===================================================================== *)

Lemma app_bind_eq {A B} (m : App.app A) (k : A -> App.app B) self :
  (m ≫= k) self
  = match m self with
    | (Py.Ok a, self') => k a self'
    | (Py.Raise e, self') => (Py.Raise e, self')
    end.
Proof. reflexivity. Qed.

Lemma get_zones_at_frame_total {Zone} (kfs : list (Z * list Zone)) g :
  exists zs, KeyframeManager.get_zones_at_frame kfs g = Py.Ok zs.
Proof.
  destruct (get_zones_at_frame_spec kfs g)
    as [(k0 & zs0 & _ & _ & _ & _ & ->)|[_ ->]]; eauto.
Qed.

Lemma get_summary_total (kfs : list (Z * list zone)) :
  exists text, Summary.get_summary kfs = Py.Ok text.
Proof.
  unfold Summary.get_summary. destruct kfs as [|kv kfs']; [eauto|].
  rewrite summary_lines_eq. cbn. eauto.
Qed.

Lemma update_keyframe_list_eq v kfs sh :
  exists summary,
    Summary.get_summary kfs = Py.Ok summary
    /\ App.update_keyframe_list (App.App v kfs sh)
       = (Py.Ok tt,
          App.App v kfs
            (sh ++ [App.SidebarSetKeyframeList summary;
                    App.TimelineSetKeyframes
                      (KeyframeManager.get_all_keyframe_numbers kfs)])).
Proof.
  destruct (get_summary_total kfs) as [summary Hs]. exists summary.
  split; [done|]. unfold App.update_keyframe_list. cbn [App.keyframes].
  rewrite app_bind_eq. unfold App.lift at 1. rewrite Hs.
  rewrite app_bind_eq. unfold App.show. cbn. by rewrite <- app_assoc.
Qed.

(** What [_update_display] does on a loaded player whose read succeeds. *)
Lemma update_display_read vid kfs sh v frame_num fr zones :
  VideoPlayer.cap vid = Some (VideoPlayer.Opened v) ->
  let requested :=
    match frame_num with
    | None => VideoPlayer.current_frame vid
    | Some n => n
    end in
  let landed :=
    Z.max 0 (Z.min requested (VideoPlayer.total_frames vid - 1)) in
  VideoPlayer.read_at v landed = Some fr ->
  KeyframeManager.get_zones_at_frame kfs requested = Py.Ok zones ->
  App.update_display frame_num (App.App vid kfs sh)
  = (Py.Ok tt,
     App.App (VideoPlayer.Player (VideoPlayer.cap vid)
                (VideoPlayer.total_frames vid) (VideoPlayer.fps vid)
                (VideoPlayer.width vid) (VideoPlayer.height vid) landed
                (VideoPlayer.video_path vid))
             kfs
             (sh ++ [App.CanvasSetFrame (Cv2.cvtColor fr Cv2.COLOR_BGR2RGB) zones;
                     App.TimelineSetCurrentFrame requested])).
Proof.
  intros Hcap requested landed Hread Hzones.
  unfold App.update_display, VideoPlayer.is_loaded. cbn [App.video App.keyframes].
  rewrite Hcap. cbn [negb]. fold requested.
  rewrite app_bind_eq. unfold App.video_get_frame at 1. cbn [App.video App.keyframes App.shown].
  rewrite (get_frame_read vid v requested fr Hcap Hread).
  rewrite app_bind_eq. unfold App.lift at 1. rewrite Hzones.
  rewrite app_bind_eq. unfold App.show. cbn. by rewrite Hcap, <- app_assoc.
Qed.

(** X23. When a zone is drawn while a frame of the loaded video is on
    display, the application adds it to the timeline at the player's
    current frame and shows the result at once: the sidebar gets the new
    summary, the drop-down gets the keyframe numbers, among them the
    current frame, and the canvas gets the current frame again with the
    zones keyed at it, the new zone last; the timeline's position is the
    current frame. The player is left as it was; nothing raises. *)
Theorem drawn_zone_is_shown_at_once
    (self : App.t) (v : video) (zone : zone) (fr : frame) :
  let vid := App.video self in
  let cur := VideoPlayer.current_frame vid in
  let kfs' := KeyframeManager.add_zone (App.keyframes self) cur zone in
  VideoPlayer.cap vid = Some (VideoPlayer.Opened v) ->
  0 <= cur <= Z.max 0 (VideoPlayer.total_frames vid - 1) ->
  VideoPlayer.read_at v cur = Some fr ->
  exists summary,
    Summary.get_summary kfs' = Py.Ok summary
    /\ App.on_zone_drawn zone self
       = (Py.Ok tt,
          App.App vid kfs'
            (App.shown self
             ++ [App.SidebarSetKeyframeList summary;
                 App.TimelineSetKeyframes
                   (KeyframeManager.get_all_keyframe_numbers kfs');
                 App.CanvasSetFrame (Cv2.cvtColor fr Cv2.COLOR_BGR2RGB)
                   (default [] (Dict.get (App.keyframes self) cur) ++ [zone]);
                 App.TimelineSetCurrentFrame cur]))
    /\ cur ∈ KeyframeManager.get_all_keyframe_numbers kfs'.
Proof.
  intros vid cur kfs' Hcap Hcur Hread.
  destruct self as [vid0 kfs sh]. cbn [App.video App.keyframes App.shown] in *.
  subst vid. fold cur in kfs'.
  destruct (update_keyframe_list_eq vid0 kfs' sh) as (summary & Hsum & Hlist).
  exists summary. split; [done|].
  assert (Z.max 0 (Z.min cur (VideoPlayer.total_frames vid0 - 1)) = cur)
    as Hland by lia.
  split.
  - unfold App.on_zone_drawn. cbn [App.video App.keyframes App.shown].
    fold cur. fold kfs'. rewrite app_bind_eq, Hlist.
    rewrite (update_display_read vid0 kfs' _ v None fr
               (default [] (Dict.get kfs cur) ++ [zone]) Hcap).
    + cbn zeta. fold cur. rewrite Hland. rewrite <- app_assoc. cbn [app].
      f_equal. f_equal. unfold cur. by destruct vid0.
    + cbn zeta. fold cur. by rewrite Hland.
    + cbn zeta. fold cur.
      apply (get_zones_at_frame_at kfs' cur cur).
      * unfold kfs'. apply add_zone_keys. by left.
      * lia.
      * tauto.
      * unfold kfs'. by rewrite add_zone_get, decide_True.
  - unfold KeyframeManager.get_all_keyframe_numbers.
    rewrite merge_sort_Permutation. unfold kfs'. apply add_zone_keys. by left.
Qed.

Lemma drawn_zone_is_shown_at_once_witness :
  let v := Video 1 1 30 2 [[[(1, 2, 3)]]; [[(4, 5, 6)]]] in
  let vid := VideoPlayer.Player (Some (VideoPlayer.Opened v)) 2 30 1 1 1
               (Some "in.mp4") in
  let self := App.App vid [(0, [TupleZone 0 0 9 9])] [] in
  exists summary,
    App.on_zone_drawn (TupleZone 10 10 20 20) self
    = (Py.Ok tt,
       App.App vid [(0, [TupleZone 0 0 9 9]); (1, [TupleZone 10 10 20 20])]
         [App.SidebarSetKeyframeList summary;
          App.TimelineSetKeyframes [0; 1];
          App.CanvasSetFrame [[(6, 5, 4)]] [TupleZone 10 10 20 20];
          App.TimelineSetCurrentFrame 1]).
Proof.
  intros v vid self.
  destruct (drawn_zone_is_shown_at_once self v (TupleZone 10 10 20 20)
              [[(4, 5, 6)]])
    as (summary & _ & Hrun & _).
  - reflexivity.
  - cbn. lia.
  - reflexivity.
  - exists summary. rewrite Hrun. reflexivity.
Defined.

(** X24. A change of frame from the timeline and a jump to a keyframe
    both are _update_display(n). On a loaded video whose container gives
    the true number N >= 1 of frames: the canvas gets the frame with index
    max(0, min(n, N - 1)), which becomes the player's current frame, but
    with the zones looked up at n, and the timeline's position is set to
    n. For 0 <= n < N the three agree. For n >= N (such as a keyframe of
    the zones file that lies beyond the end of the video) the last frame
    is shown with the zones of frame n, and the timeline is at n while the
    player is at N - 1. When no video is loaded nothing is shown and
    nothing changes. *)
Theorem display_shows_the_zones_of_the_frame_asked_for
    (self : App.t) (v : video) (n : Z) :
  let vid := App.video self in
  App.on_frame_change n self = App.update_display (Some n) self
  /\ App.jump_to_keyframe n self = App.update_display (Some n) self
  /\ (VideoPlayer.is_loaded vid = false ->
      App.update_display (Some n) self = (Py.Ok tt, self))
  /\ (VideoPlayer.cap vid = Some (VideoPlayer.Opened v) ->
      VideoPlayer.total_frames vid = v_frame_count v ->
      counted v ->
      v_frames v <> [] ->
      let N := Z.of_nat (length (v_frames v)) in
      let landed := Z.max 0 (Z.min n (N - 1)) in
      exists fr zones,
        v_frames v !! Z.to_nat landed = Some fr
        /\ KeyframeManager.get_zones_at_frame (App.keyframes self) n
           = Py.Ok zones
        /\ App.update_display (Some n) self
           = (Py.Ok tt,
              App.App (VideoPlayer.Player (VideoPlayer.cap vid)
                         (VideoPlayer.total_frames vid) (VideoPlayer.fps vid)
                         (VideoPlayer.width vid) (VideoPlayer.height vid)
                         landed (VideoPlayer.video_path vid))
                      (App.keyframes self)
                      (App.shown self
                       ++ [App.CanvasSetFrame
                             (Cv2.cvtColor fr Cv2.COLOR_BGR2RGB) zones;
                           App.TimelineSetCurrentFrame n]))
        /\ 0 <= landed < N
        /\ (0 <= n < N -> landed = n)
        /\ (N <= n -> landed = N - 1 /\ landed <> n)).
Proof.
  intros vid. destruct self as [vid0 kfs sh].
  cbn [App.video App.keyframes App.shown] in *. subst vid. split_and!.
  - done.
  - done.
  - intros Hl. unfold App.update_display. cbn [App.video]. by rewrite Hl.
  - intros Hcap Htot Hcount Hne. unfold counted in Hcount.
    set (N := Z.of_nat (length (v_frames v))) in *.
    set (landed := Z.max 0 (Z.min n (N - 1))).
    assert (0 < N) as HN by (unfold N; destruct (v_frames v); [done | cbn; lia]).
    destruct (read_at_in_range v landed) as (fr & Hfr & Hread); [fold N; lia|].
    destruct (get_zones_at_frame_total kfs n) as [zones Hzones].
    exists fr, zones. split_and!; try done; try lia.
    rewrite (update_display_read vid0 kfs sh v (Some n) fr zones Hcap).
    + cbn zeta. by rewrite Htot, Hcount.
    + cbn zeta. rewrite Htot, Hcount. exact Hread.
    + exact Hzones.
Qed.

Lemma display_shows_the_zones_of_the_frame_asked_for_witness :
  let v := Video 1 1 30 2 [[[(1, 2, 3)]]; [[(4, 5, 6)]]] in
  let vid := VideoPlayer.Player (Some (VideoPlayer.Opened v)) 2 30 1 1 0
               (Some "in.mp4") in
  let self := App.App vid [(0, [TupleZone 0 0 9 9]); (7, [])] [] in
  exists fr zones,
    KeyframeManager.get_zones_at_frame (App.keyframes self) 7 = Py.Ok zones
    /\ App.update_display (Some 7) self
       = (Py.Ok tt,
          App.App (VideoPlayer.Player (Some (VideoPlayer.Opened v)) 2 30 1 1
                     (Z.max 0 (Z.min 7 (2 - 1))) (Some "in.mp4"))
                  (App.keyframes self)
                  [App.CanvasSetFrame (Cv2.cvtColor fr Cv2.COLOR_BGR2RGB) zones;
                   App.TimelineSetCurrentFrame 7]).
Proof.
  intros v vid self.
  destruct (proj2 (proj2 (proj2
              (display_shows_the_zones_of_the_frame_asked_for self v 7))))
    as (fr & zones & _ & Hz & Hrun & _).
  - reflexivity.
  - reflexivity.
  - reflexivity.
  - cbn. congruence.
  - exists fr, zones. split; [exact Hz | exact Hrun].
Defined.

(** X25. _clear_keyframes does nothing when the timeline is empty, and
    nothing when the question is answered with no. When it is answered
    with yes, the timeline is emptied, the sidebar shows [No zones
    defined], the drop-down gets no keyframe numbers, and the frame on
    display is shown again with no zones; the player stays where it is. *)
Theorem clear_keyframes_asks_first
    (self : App.t) (confirmed : bool) (v : video) (fr : frame) :
  let vid := App.video self in
  let cur := VideoPlayer.current_frame vid in
  (KeyframeManager.is_empty (App.keyframes self) = true ->
   App.clear_keyframes confirmed self = (Py.Ok tt, self))
  /\ App.clear_keyframes false self = (Py.Ok tt, self)
  /\ (KeyframeManager.is_empty (App.keyframes self) = false ->
      VideoPlayer.cap vid = Some (VideoPlayer.Opened v) ->
      0 <= cur <= Z.max 0 (VideoPlayer.total_frames vid - 1) ->
      VideoPlayer.read_at v cur = Some fr ->
      App.clear_keyframes true self
      = (Py.Ok tt,
         App.App vid []
           (App.shown self
            ++ [App.SidebarSetKeyframeList "No zones defined";
                App.TimelineSetKeyframes [];
                App.CanvasSetFrame (Cv2.cvtColor fr Cv2.COLOR_BGR2RGB) [];
                App.TimelineSetCurrentFrame cur])))
  /\ (KeyframeManager.is_empty (App.keyframes self) = false ->
      VideoPlayer.is_loaded vid = false ->
      App.clear_keyframes true self
      = (Py.Ok tt,
         App.App vid []
           (App.shown self
            ++ [App.SidebarSetKeyframeList "No zones defined";
                App.TimelineSetKeyframes []]))).
Proof.
  intros vid cur. destruct self as [vid0 kfs sh].
  cbn [App.video App.keyframes App.shown] in *. subst vid.
  assert (App.update_keyframe_list (App.App vid0 [] sh)
          = (Py.Ok tt,
             App.App vid0 []
               (sh ++ [App.SidebarSetKeyframeList "No zones defined";
                       App.TimelineSetKeyframes []]))) as Hlist.
  { destruct (update_keyframe_list_eq vid0 [] sh) as (summary & Hs & ->).
    cbn in Hs. by injection Hs as <-. }
  split_and!.
  - intros He. unfold App.clear_keyframes. cbn [App.keyframes]. by rewrite He.
  - unfold App.clear_keyframes. cbn [App.keyframes].
    by destruct (KeyframeManager.is_empty kfs).
  - intros He Hcap Hcur Hread. unfold App.clear_keyframes.
    cbn [App.video App.keyframes App.shown]. rewrite He.
    unfold KeyframeManager.clear. rewrite app_bind_eq, Hlist.
    rewrite (update_display_read vid0 [] _ v None fr [] Hcap).
    + cbn zeta. fold cur.
      replace (Z.max 0 (Z.min cur (VideoPlayer.total_frames vid0 - 1)))
        with cur by lia.
      rewrite <- app_assoc. cbn [app]. f_equal. f_equal.
      unfold cur. by destruct vid0.
    + cbn zeta. fold cur.
      by replace (Z.max 0 (Z.min cur (VideoPlayer.total_frames vid0 - 1)))
        with cur by lia.
    + done.
  - intros He Hl. unfold App.clear_keyframes.
    cbn [App.video App.keyframes App.shown]. rewrite He.
    unfold KeyframeManager.clear. rewrite app_bind_eq, Hlist.
    unfold App.update_display. cbn [App.video]. by rewrite Hl.
Qed.

Lemma clear_keyframes_asks_first_witness :
  let v := Video 1 1 30 2 [[[(1, 2, 3)]]; [[(4, 5, 6)]]] in
  let vid := VideoPlayer.Player (Some (VideoPlayer.Opened v)) 2 30 1 1 1
               (Some "in.mp4") in
  let self := App.App vid [(0, [TupleZone 0 0 9 9])] [] in
  App.clear_keyframes true self
  = (Py.Ok tt,
     App.App vid []
       [App.SidebarSetKeyframeList "No zones defined";
        App.TimelineSetKeyframes [];
        App.CanvasSetFrame (Cv2.cvtColor [[(4, 5, 6)]] Cv2.COLOR_BGR2RGB) [];
        App.TimelineSetCurrentFrame 1]).
Proof.
  intros v vid self.
  apply (proj1 (proj2 (proj2 (clear_keyframes_asks_first self true v
                                [[(4, 5, 6)]])))).
  - reflexivity.
  - reflexivity.
  - cbn. lia.
  - reflexivity.
Defined.

(* ===================================================================== *)
(** * Lists changed in place and lists as values                          *)
(* ===================================================================== *)

Section InPlace.
Context {Zone : Type}.
Implicit Types (kfs : list (Z * positive)) (h : gmap positive (list Zone)).

Lemma contents_app kfs1 kfs2 h :
  KeyframeHeap.contents (kfs1 ++ kfs2) h
  = KeyframeHeap.contents kfs1 h ++ KeyframeHeap.contents kfs2 h.
Proof. apply map_app. Qed.

Lemma contents_alter_other kfs h r (change : list Zone -> list Zone) :
  r ∉ map snd kfs ->
  KeyframeHeap.contents kfs (alter change r h) = KeyframeHeap.contents kfs h.
Proof.
  intros Hr. unfold KeyframeHeap.contents. apply map_ext_in.
  intros [k r0] Hin. cbn. rewrite lookup_alter_ne; [done|].
  intros ->. apply Hr. apply list_elem_of_fmap. exists (k, r0).
  split; [done|]. by apply list_elem_of_In.
Qed.

(** A change in place of the list keyed at a frame is an assignment of the
    changed list under that frame, when no other keyframe holds the same
    list object. *)
Lemma contents_alter kfs h f r zs (change : list Zone -> list Zone) :
  NoDup (map snd kfs) -> Dict.get kfs f = Some r -> h !! r = Some zs ->
  KeyframeHeap.contents kfs (alter change r h)
  = Dict.set (KeyframeHeap.contents kfs h) f (change zs).
Proof.
  intros Hnd Hget Hzs. induction kfs as [|[k0 r0] kfs IH]; [done|].
  cbn [map snd] in Hnd. apply NoDup_cons in Hnd as [Hr0 Hnd].
  cbn in Hget. cbn [KeyframeHeap.contents map fst snd Dict.set].
  destruct (decide (k0 = f)) as [->|Hne].
  - injection Hget as ->. rewrite lookup_alter_eq, Hzs. cbn. f_equal.
    by apply contents_alter_other.
  - assert (r0 <> r) as Hrr.
    { intros ->. apply Hr0. apply dict_get_In in Hget.
      apply list_elem_of_fmap. by exists (f, r). }
    rewrite lookup_alter_ne by done. f_equal. by apply IH.
Qed.
End InPlace.

(** X26. add_zone changes the list stored under the frame in place. As
    long as no two keyframes hold the same list object, which is so for
    the empty timeline and stays so under add_zone, the effect on the
    contents of the timeline is that of add_zone on lists taken as values:
    the zones keyed at the frame followed by the new zone under that frame,
    every other keyframe as it was. Every list of the timeline is
    allocated afterwards. *)
Theorem add_zone_in_place_is_add_zone
    {Zone : Type} (kfs : list (Z * positive)) (h : gmap positive (list Zone))
    (f : Z) (z : Zone) :
  KeyframeHeap.allocated kfs h ->
  NoDup (map snd kfs) ->
  let kfs' := fst (KeyframeHeap.add_zone kfs f z h) in
  let h' := snd (KeyframeHeap.add_zone kfs f z h) in
  KeyframeHeap.contents kfs' h'
  = KeyframeManager.add_zone (KeyframeHeap.contents kfs h) f z
  /\ KeyframeHeap.allocated kfs' h'
  /\ NoDup (map snd kfs')
  /\ (forall r, r ∈ dom h -> r ∈ dom h').
Proof.
  intros Halloc Hnd kfs' h'. unfold kfs', h', KeyframeHeap.add_zone.
  clear kfs' h'. rewrite add_zone_set, contents_get.
  pose proof Halloc as Halloc0.
  unfold KeyframeHeap.allocated in Halloc. rewrite Forall_forall in Halloc.
  destruct (Dict.get kfs f) as [r|] eqn:Hget; cbn [fst snd fmap option_fmap option_map].
  - assert (r ∈ dom h) as Hr by (apply dict_get_In in Hget; by apply (Halloc (f, r))).
    apply elem_of_dom in Hr as [zs Hzs].
    unfold KeyframeHeap.list_append, KeyframeHeap.mutate.
    assert (forall r0, r0 ∈ dom h -> r0 ∈ dom (alter (fun zs0 => zs0 ++ [z]) r h))
      as Hdom.
    { intros r0 [zs0 Hr0]%elem_of_dom. apply elem_of_dom.
      destruct (decide (r0 = r)) as [->|Hne].
      - rewrite lookup_alter_eq, Hr0. eauto.
      - rewrite lookup_alter_ne by done. eauto. }
    split_and!; try done.
    + rewrite (contents_alter kfs h f r zs) by done. by rewrite Hzs.
    + unfold KeyframeHeap.allocated. apply Forall_forall.
      intros kv Hin. by apply Hdom, Halloc.
  - unfold KeyframeHeap.alloc, KeyframeHeap.list_append, KeyframeHeap.mutate.
    cbn [fst snd default].
    set (r := fresh (dom h)).
    assert (r ∉ dom h) as Hfresh by apply is_fresh.
    assert (r ∉ map snd kfs) as Hr.
    { intros Hin. apply list_elem_of_fmap in Hin as ([k0 r0] & -> & Hin).
      by apply Hfresh, (Halloc (k0, r0)). }
    assert (f ∉ Dict.keys kfs) as Hf by (by apply dict_get_None_key).
    rewrite dict_set_fresh by done.
    assert (forall r0, r0 ∈ dom h ->
              r0 ∈ dom (alter (fun zs0 => zs0 ++ [z]) r (<[r := []]> h)))
      as Hdom.
    { intros r0 Hr0. assert (r0 <> r) by (intros ->; done).
      apply elem_of_dom in Hr0 as [zs0 Hr0]. apply elem_of_dom.
      rewrite lookup_alter_ne by done. rewrite lookup_insert_ne by done. eauto. }
    split_and!; try done.
    + rewrite contents_app. cbn.
      rewrite lookup_alter_eq, lookup_insert_eq. cbn.
      rewrite contents_alter_other by done.
      rewrite (contents_unchanged kfs h (<[r := []]> h)).
      * rewrite dict_set_fresh; [done|]. by rewrite contents_keys.
      * intros r0 Hr0. rewrite lookup_insert_ne; [done|]. by intros ->.
      * done.
    + unfold KeyframeHeap.allocated. apply Forall_app. split.
      * apply Forall_forall. intros kv Hin. by apply Hdom, Halloc.
      * apply Forall_singleton. cbn. apply elem_of_dom.
        rewrite lookup_alter_eq, lookup_insert_eq. eauto.
    + rewrite map_app. cbn. apply NoDup_app. split_and!; [done| |apply NoDup_singleton].
      intros x Hx ->%list_elem_of_singleton. done.
Qed.

Lemma add_zone_in_place_is_add_zone_witness :
  let h : gmap positive (list Z) := {[ 1%positive := [7; 8] ]} in
  KeyframeHeap.contents (fst (KeyframeHeap.add_zone [(0, 1%positive)] 0 9 h))
                        (snd (KeyframeHeap.add_zone [(0, 1%positive)] 0 9 h))
  = KeyframeManager.add_zone (KeyframeHeap.contents [(0, 1%positive)] h) 0 9.
Proof.
  intros h.
  apply (add_zone_in_place_is_add_zone [(0, 1%positive)] h 0 9).
  - apply Forall_cons_2; [|apply Forall_nil_2].
    apply elem_of_dom. exists [7; 8]. reflexivity.
  - cbn [map snd]. apply NoDup_singleton.
Defined.

(* ===================================================================== *)
(** * Finding and running ffmpeg                                          *)
(* ===================================================================== *)

(** X27. convert_to_mp4 changes no file but the one at the output path:
    the raw stream it reads and the original video are left as they are
    unless one of them is the output path. When get_ffmpeg_path raises,
    ffmpeg is not run and nothing changes at all. get_ffmpeg_path itself
    changes nothing; it returns the binary of imageio_ffmpeg when that
    package is installed and has one, whatever is on the PATH; when the
    package is installed without a binary its RuntimeError is not caught,
    so the PATH and the usual places are not tried; without the package
    it is the ffmpeg of the PATH, else the first of the two usual places
    that exists, else FileNotFoundError. *)
Theorem convert_to_mp4_writes_only_the_output
    (E : env) (input_path output_path original_video : string) (w : world) :
  let ran := convert_to_mp4 E input_path output_path original_video w in
  (forall p, p <> output_path -> fs (snd ran) !! p = fs w !! p)
  /\ (forall e, fst (get_ffmpeg_path E w) = Py.Raise e ->
        ran = (Py.Raise e, w))
  /\ snd (get_ffmpeg_path E w) = w
  /\ (forall exe, imageio_ffmpeg E = ImageioExe exe ->
        fst (get_ffmpeg_path E w) = Py.Ok exe)
  /\ (imageio_ffmpeg E = ImageioNoBinary ->
        fst (get_ffmpeg_path E w) = Py.Raise Py.RuntimeError
        /\ ran = (Py.Raise Py.RuntimeError, w))
  /\ (imageio_ffmpeg E = ImageioMissing ->
        fst (get_ffmpeg_path E w)
        = match which_ffmpeg E with
          | Some exe => Py.Ok exe
          | None =>
              if bool_decide (is_Some (fs w !! "C:\ffmpeg\bin\ffmpeg.exe"))
              then Py.Ok "C:\ffmpeg\bin\ffmpeg.exe"
              else if bool_decide
                        (is_Some (fs w !! "C:\Program Files\ffmpeg\bin\ffmpeg.exe"))
              then Py.Ok "C:\Program Files\ffmpeg\bin\ffmpeg.exe"
              else Py.Raise Py.FileNotFoundError
          end).
Proof.
  intros ran.
  assert (forall e, fst (get_ffmpeg_path E w) = Py.Raise e ->
            ran = (Py.Raise e, w)) as Hraise.
  { intros e He. unfold ran, convert_to_mp4. rewrite py_bind_eq.
    pose proof (get_ffmpeg_path_world E w) as Hw.
    destruct (get_ffmpeg_path E w) as [r w1]. cbn in He, Hw. by subst. }
  split_and!.
  - intros p Hp. unfold ran, convert_to_mp4. rewrite py_bind_eq.
    pose proof (get_ffmpeg_path_world E w) as Hw.
    destruct (get_ffmpeg_path E w) as [[exe|e] w1]; cbn in Hw; subst w1; [|done].
    unfold run_ffmpeg.
    destruct (ffmpeg E exe (fs w !! input_path) (fs w !! original_video))
      as [out|[partial|]]; cbn; try done;
      destruct w; unfold set_fs; cbn; by rewrite lookup_insert_ne.
  - exact Hraise.
  - apply get_ffmpeg_path_world.
  - intros exe Hexe. unfold get_ffmpeg_path. by rewrite Hexe.
  - intros Hno.
    assert (fst (get_ffmpeg_path E w) = Py.Raise Py.RuntimeError) as Hr
      by (unfold get_ffmpeg_path; by rewrite Hno).
    split; [done | by apply Hraise].
  - intros Hmiss. unfold get_ffmpeg_path. rewrite Hmiss. cbn [fst].
    destruct (which_ffmpeg E); [done|]. unfold common_paths.
    rewrite !filter_cons, filter_nil.
    destruct (decide (is_Some (fs w !! "C:\ffmpeg\bin\ffmpeg.exe"))) as [H1|H1].
    + by rewrite bool_decide_eq_true_2.
    + rewrite (bool_decide_eq_false_2 _ H1).
      destruct (decide (is_Some (fs w !! "C:\Program Files\ffmpeg\bin\ffmpeg.exe")))
        as [H2|H2].
      * by rewrite bool_decide_eq_true_2.
      * by rewrite bool_decide_eq_false_2.
Qed.

Lemma convert_to_mp4_writes_only_the_output_witness :
  let E := Env true (fun f _ => f) (fun f _ => f) ImageioNoBinary
               (Some "/usr/bin/ffmpeg") (fun _ _ _ => MuxDone FBinary) xvid_opens in
  convert_to_mp4 E "raw.avi" "out.mp4" "in.mp4"
                 (init_world {[ "raw.avi" := FBinary ]})
  = (Py.Raise Py.RuntimeError, init_world {[ "raw.avi" := FBinary ]}).
Proof.
  intros E.
  apply (convert_to_mp4_writes_only_the_output E "raw.avi" "out.mp4" "in.mp4"
           (init_world {[ "raw.avi" := FBinary ]})).
  reflexivity.
Defined.
